(** * Air-quality monitoring dashboard: ingestion, validation, dispatch,
      throttled persistence and the offline sweep

    A shallow embedding of the data path of [IoT_Platform.py]:

    - [SerialReader.run] (frame extraction from a line of serial text) and
      [SerialReader.validate_sensor_data];
    - [DatabaseManager] ([init_database], [insert_sample_data],
      [validate_data], [insert_sensor_data], [get_recent_readings],
      [get_statistics]);
    - [MainWindow.handle_data], [MainWindow.check_db_save] and the offline
      sweep at the end of [MainWindow.update_all].

    Conventions.
    - Python values are the inductive [pyval]; a [dict] with string keys is
      a [gmap string pyval].  Floats are the IEEE-754 binary64 numbers of
      the kernel ([PrimFloat.float]), which is what CPython's [float] is.
    - Text is a [string], the bytes of its UTF-8 encoding: the reader
      decodes each line from UTF-8, and the delimiters and the keys the
      program looks for are ASCII.  Text that UTF-8 cannot encode (a lone
      surrogate, which a JSON escape can spell) is outside the model.
    - A Python call returns [Return v] or raises: [Raise e].
    - [datetime] values are integers counting microseconds (the resolution
      of [datetime]); [total_seconds() >= 5] and [total_seconds() > 60] are
      compared on the microsecond count, which is exact because the
      division by 10^6 is correctly rounded and monotone and 5 and 60 are
      floats.
    - What the program cannot decide itself is an explicit input: the text
      parsers of the Python runtime, the outcome of each SQLite operation,
      the random draws of the sample generator, the clock, and whether a
      widget raises while it is updated. *)

From Stdlib Require Import ZArith String Ascii Lia.
From Stdlib Require Import Floats.PrimFloat Floats.FloatOps Floats.SpecFloat.
From stdpp Require Import gmap strings list fin_maps sorting pretty.

#[local] Set Warnings "-register-all".
#[local] Open Scope Z_scope.

(* ===================================================================== *)
(** ** Python runtime: exceptions, values, coercions                     *)
(* ===================================================================== *)

Inductive exn : Set :=
| ValueError
| TypeError
| OverflowError
| KeyError
| AttributeError
| RuntimeError
| SqliteError.

Inductive result (A : Type) : Type :=
| Return (a : A)
| Raise (e : exn).

Arguments Return {A} a.
Arguments Raise {A} e.

Definition rbind {A B : Type} (r : result A) (k : A -> result B) : result B :=
  match r with
  | Return a => k a
  | Raise e => Raise e
  end.

Notation "x <- r ;; k" := (rbind r (fun x => k))
  (at level 100, r at next level, right associativity).

(** JSON-shaped Python values ([json.loads] produces nothing else). *)
Inductive pyval : Type :=
| PNone
| PBool (b : bool)
| PInt (z : Z)
| PFloat (f : float)
| PStr (s : string)
| PList (l : list pyval)
| PDict (d : gmap string pyval).

Abbreviation dict := (gmap string pyval).

(** [float(z)] for an [int]: round to nearest even; the caller turns an
    overflow to infinity into [OverflowError]. *)
Definition float_of_Z (z : Z) : float :=
  SF2Prim (binary_normalize prec emax z 0 false).

Definition is_inf (f : float) : bool :=
  match Prim2SF f with
  | S754_infinity _ => true
  | _ => false
  end.

(** [int(f)] for a [float]: truncation toward zero; [nan] is a
    [ValueError], an infinity an [OverflowError]. *)
Definition float_trunc (f : float) : result Z :=
  match Prim2SF f with
  | S754_nan => Raise ValueError
  | S754_infinity _ => Raise OverflowError
  | S754_zero _ => Return 0
  | S754_finite s m e =>
      let a := Z.shiftl (Z.pos m) e in
      Return (if s then - a else a)
  end.

(** [lo <= v <= hi] with [int] bounds and a [float] value.  Python compares
    an [int] with a [float] exactly; for the bounds of this program
    (all below 2^53) that is the comparison of the converted bound. *)
Definition in_range (lo hi : Z) (v : float) : bool :=
  PrimFloat.leb (float_of_Z lo) v && PrimFloat.leb v (float_of_Z hi).

Section Runtime.

(** The text parsers and printers of CPython, taken as they are:
    [float(s)] and [int(s)] on a [str] ([None] is [ValueError]), and
    [str(x)] on a value that is not a [str]. *)
Variable str_to_float : string -> option float.
Variable str_to_int : string -> option Z.
Variable py_repr : pyval -> string.

Definition py_float (x : pyval) : result float :=
  match x with
  | PNone => Raise TypeError
  | PBool b => Return (if b then 1%float else 0%float)
  | PInt z =>
      let f := float_of_Z z in
      if is_inf f then Raise OverflowError else Return f
  | PFloat f => Return f
  | PStr s =>
      match str_to_float s with
      | Some f => Return f
      | None => Raise ValueError
      end
  | PList _ | PDict _ => Raise TypeError
  end.

Definition py_int (x : pyval) : result Z :=
  match x with
  | PNone => Raise TypeError
  | PBool b => Return (if b then 1 else 0)
  | PInt z => Return z
  | PFloat f => float_trunc f
  | PStr s =>
      match str_to_int s with
      | Some z => Return z
      | None => Raise ValueError
      end
  | PList _ | PDict _ => Raise TypeError
  end.

(** [str(x)]: the text of a [str] is itself, any other value is printed.
    CPython refuses to print an [int] of more digits than its limit (4300
    by default) with [ValueError], and refuses to parse one in the same
    way, so [str] returns on every label of a parsed frame; [py_str]
    stands for [str] where it returns ([str_returns] below names such
    labels without reference to the parser). *)
Definition py_str (x : pyval) : string :=
  match x with
  | PStr s => s
  | _ => py_repr x
  end.

(** [try: ... except (ValueError, TypeError): handler]. *)
Definition except_value_type {A : Type} (r : result A) (handler : result A)
  : result A :=
  match r with
  | Raise ValueError | Raise TypeError => handler
  | _ => r
  end.

(* =================================================================== *)
(** ** SerialReader.validate_sensor_data                               *)
(* =================================================================== *)

Definition numeric_fields : list (string * (Z * Z)) :=
  [ ("pm25", (0, 10000));
    ("pm10", (0, 10000));
    ("eco2", (0, 10000));
    ("tvoc", (0, 10000));
    ("co", (0, 10000));
    ("no2", (0, 10000));
    ("temp", (-50, 100));
    ("humidity", (0, 100)) ].

(** One turn of [for field, (min_val, max_val) in numeric_fields.items()]. *)
Definition validate_field (data : dict) (validated : dict)
    (entry : string * (Z * Z)) : result dict :=
  let '(field, (min_val, max_val)) := entry in
  match data !! field with
  | Some x =>
      except_value_type
        (val <- py_float x ;;
         Return (if in_range min_val max_val val
                 then <[field := PFloat val]> validated
                 else validated))
        (Return validated)
  | None => Return validated
  end.

Fixpoint validate_fields (fields : list (string * (Z * Z)))
    (data validated : dict) : result dict :=
  match fields with
  | [] => Return validated
  | entry :: rest =>
      validated' <- validate_field data validated entry ;;
      validate_fields rest data validated'
  end.

Definition validate_sensor_data (data : pyval) : result (option dict) :=
  match data with
  | PDict data =>
      match data !! "nodeId" with
      | None => Return None
      | Some raw_id =>
          match py_int raw_id with
          | Raise ValueError | Raise TypeError => Return None
          | Raise e => Raise e
          | Return node_id =>
              if negb ((1 <=? node_id)%Z && (node_id <=? 3)%Z) then Return None
              else
                let validated : dict := {[ "nodeId" := PInt node_id ]} in
                let validated :=
                  match data !! "nodeType" with
                  | Some t => <["nodeType" := PStr (py_str t)]> validated
                  | None => validated
                  end in
                validated <- validate_fields numeric_fields data validated ;;
                Return (if (1 <? size validated)%nat
                        then Some validated else None)
          end
      end
  | _ => Return None
  end.

End Runtime.

(* ===================================================================== *)
(** ** SerialReader.run: one line of serial text                         *)
(* ===================================================================== *)

(** [c in s]. *)
Fixpoint str_contains (c : ascii) (s : string) : bool :=
  match s with
  | EmptyString => false
  | String a s' => Ascii.eqb a c || str_contains c s'
  end.

(** [s.index(c)]: position of the first occurrence ([None]: [ValueError]). *)
Fixpoint str_index (c : ascii) (s : string) : option nat :=
  match s with
  | EmptyString => None
  | String a s' => if Ascii.eqb a c then Some O else S <$> str_index c s'
  end.

(** [s.rindex(c)]: position of the last occurrence. *)
Fixpoint str_rindex (c : ascii) (s : string) : option nat :=
  match s with
  | EmptyString => None
  | String a s' =>
      match str_rindex c s' with
      | Some i => Some (S i)
      | None => if Ascii.eqb a c then Some O else None
      end
  end.

(** [s[a:b]] for indices within [0 .. len(s)]: empty when [b <= a]. *)
Definition str_slice (a b : nat) (s : string) : string :=
  substring a (b - a) s.

Definition open_brace : ascii := "{"%char.
Definition close_brace : ascii := "}"%char.

(** The candidate handed to [json.loads], when the line has both
    delimiters:
[[
    if '{' in line and '}' in line:
        json_start = line.index('{')
        json_end = line.rindex('}') + 1
        json_str = line[json_start:json_end]
]]
*)
Definition extract_json_str (line : string) : option string :=
  if str_contains open_brace line && str_contains close_brace line then
    match str_index open_brace line, str_rindex close_brace line with
    | Some json_start, Some last_close =>
        let json_end := S last_close in
        Some (str_slice json_start json_end line)
    | _, _ => None
    end
  else None.

(** The frame the specification describes: the text from the first opening
    delimiter to the closing delimiter that balances it, both included.
    [scan_balanced depth s] reads [s] after an opening delimiter, [depth]
    being the number of delimiters still open before it. *)
Fixpoint scan_balanced (depth : nat) (s : string) : option string :=
  match s with
  | EmptyString => None
  | String a s' =>
      if Ascii.eqb a close_brace then
        match depth with
        | O => Some (String a EmptyString)
        | S d => String a <$> scan_balanced d s'
        end
      else if Ascii.eqb a open_brace then String a <$> scan_balanced (S depth) s'
      else String a <$> scan_balanced depth s'
  end.

Fixpoint first_balanced_frame (s : string) : option string :=
  match s with
  | EmptyString => None
  | String a s' =>
      if Ascii.eqb a open_brace then String a <$> scan_balanced O s'
      else first_balanced_frame s'
  end.

Section Reader.

Variable str_to_float : string -> option float.
Variable str_to_int : string -> option Z.
Variable py_repr : pyval -> string.
(** [json.loads] on a text that starts with an opening brace: a [dict]
    or [json.JSONDecodeError], a [ValueError].  A text nested deeper than
    the interpreter allows is a [RecursionError] instead, which has no
    place here: what is said of the exceptions that leave the loop is
    said of lines whose text parsed. *)
Variable json_loads : string -> option dict.

Let validate := validate_sensor_data str_to_float str_to_int py_repr.

(** [for node_data in data['nodes']]: the items the loop visits. *)
Definition py_iter (x : pyval) : result (list pyval) :=
  match x with
  | PList l => Return l
  | PStr s => Return ((fun a => PStr (String a EmptyString)) <$> list_ascii_of_string s)
  | PDict d => Return ((fun kv => PStr kv.1) <$> map_to_list d)
  | PNone | PBool _ | PInt _ | PFloat _ => Raise TypeError
  end.

(** The loop over the nodes of a batch: the readings emitted so far and
    how the loop ended.  An exception leaves what was emitted before it
    delivered. *)
Fixpoint emit_nodes (nodes : list pyval) : list dict * result unit :=
  match nodes with
  | [] => ([], Return tt)
  | node_data :: rest =>
      match validate node_data with
      | Raise e => ([], Raise e)
      | Return validated =>
          let '(emitted, r) := emit_nodes rest in
          (match validated with
           | Some v => v :: emitted
           | None => emitted
           end, r)
      end
  end.

(** The body of the [while] loop on one decoded, stripped line: the
    readings sent through [data_received], and [Raise e] when an
    exception other than [ValueError] leaves the loop (the thread then
    ends). *)
Definition process_line (line : string) : list dict * result unit :=
  match extract_json_str line with
  | None => ([], Return tt)
  | Some json_str =>
      match json_loads json_str with
      | None => ([], Return tt)
      | Some data =>
          match data !! "nodes" with
          | Some nodes =>
              match py_iter nodes with
              | Raise e => ([], Raise e)
              | Return items =>
                  let '(emitted, r) := emit_nodes items in
                  (emitted, match r with
                            | Raise ValueError => Return tt
                            | _ => r
                            end)
              end
          | None =>
              match data !! "nodeId" with
              | Some _ =>
                  match validate (PDict data) with
                  | Return (Some v) => ([v], Return tt)
                  | Return None => ([], Return tt)
                  | Raise ValueError => ([], Return tt)
                  | Raise e => ([], Raise e)
                  end
              | None => ([], Return tt)
              end
          end
      end
  end.

End Reader.

(* ===================================================================== *)
(** ** DatabaseManager                                                   *)
(* ===================================================================== *)

(** A row of [sensor_data].  The [timestamp] column holds text of the shape
    [YYYY-MM-DD HH:MM:SS]; it is modelled by the count of seconds it
    denotes, which orders the same way. *)
Record Row : Type := mkRow {
  row_id : Z;
  row_timestamp : Z;
  row_node_id : Z;
  row_node_type : pyval;
  row_pm25 : option float;
  row_pm10 : option float;
  row_eco2 : option float;
  row_tvoc : option float;
  row_co : option float;
  row_no2 : option float;
  row_temperature : option float;
  row_humidity : option float;
  row_data_quality : string
}.

(** A table with [INTEGER PRIMARY KEY AUTOINCREMENT]: its rows in rowid
    order and the largest rowid ever given ([sqlite_sequence]). *)
Record Table : Type := mkTable {
  rows : list Row;
  autoinc : Z
}.

(** The content of the database file, as the connection sees it: a row
    inserted in a transaction that is still open is in it. *)
Record Database : Type := mkDatabase {
  sensor_data : option Table;
  daily_statistics : bool
}.

(** An open connection: the database and the number of SQLite operations
    issued on it so far. *)
Record Conn : Type := mkConn {
  db : Database;
  ops : nat
}.

(** [self.conn] / [self.cursor]: both [None] until [sqlite3.connect]
    succeeds. *)
Record DatabaseManager : Type := mkDatabaseManager {
  conn : option Conn
}.

(** Code that reads and writes a state [S] and may raise: the state it
    leaves behind is kept when it raises. *)
Definition prog (S A : Type) : Type := S -> result A * S.

Definition ret {S A : Type} (a : A) : prog S A := fun s => (Return a, s).

Definition bind {S A B : Type} (m : prog S A) (k : A -> prog S B) : prog S B :=
  fun s =>
    match m s with
    | (Return a, s') => k a s'
    | (Raise e, s') => (Raise e, s')
    end.

Notation "m >>; k" := (bind m (fun _ => k))
  (at level 100, right associativity).

(** [for x in xs: body x]. *)
Fixpoint for_each {S A : Type} (xs : list A) (body : A -> prog S unit)
  : prog S unit :=
  match xs with
  | [] => ret tt
  | x :: rest => body x >>; for_each rest body
  end.

Abbreviation sql := (prog Conn).

(** The statements the program issues, as functions on the database. *)
Definition stmt_drop_sensor_data (d : Database) : result Database :=
  Return (mkDatabase None (daily_statistics d)).

Definition stmt_create_sensor_data (d : Database) : result Database :=
  match sensor_data d with
  | Some _ => Raise SqliteError
  | None => Return (mkDatabase (Some (mkTable [] 0)) (daily_statistics d))
  end.

Definition stmt_create_index (d : Database) : result Database :=
  match sensor_data d with
  | Some _ => Return d
  | None => Raise SqliteError
  end.

(** A [SELECT ... FROM sensor_data]: it needs the table and changes
    nothing. *)
Definition stmt_select (d : Database) : result Database :=
  match sensor_data d with
  | Some _ => Return d
  | None => Raise SqliteError
  end.

Definition stmt_create_daily_statistics (d : Database) : result Database :=
  Return (mkDatabase (sensor_data d) true).

(** [INSERT INTO sensor_data (...) VALUES (...)]: the new row takes the
    next rowid and the default [data_quality].  A REAL is kept as it was
    bound; SQLite itself gives the zero with the sign bit set back as
    [0.0], so a statement that names a stored value is about readings
    without one ([no_negative_zero] below). *)
Definition stmt_insert (ts node_id : Z) (node_type : pyval)
    (pm25 pm10 eco2 tvoc co no2 temperature humidity : option float)
    (d : Database) : result Database :=
  match sensor_data d with
  | None => Raise SqliteError
  | Some t =>
      let id := autoinc t + 1 in
      let r := mkRow id ts node_id node_type
                 pm25 pm10 eco2 tvoc co no2 temperature humidity "GOOD" in
      Return (mkDatabase (Some (mkTable (rows t ++ [r]) id)) (daily_statistics d))
  end.

(** Binding a Python value to a statement parameter: SQLite takes [None],
    numbers and text; a container is [sqlite3.InterfaceError], an [int]
    outside 64 bits an [OverflowError]. *)
Definition bind_param (x : pyval) : result pyval :=
  match x with
  | PList _ | PDict _ => Raise SqliteError
  | PInt z =>
      if (- 2 ^ 63 <=? z)%Z && (z <? 2 ^ 63)%Z then Return x
      else Raise OverflowError
  | _ => Return x
  end.

(** A REAL column given a float drawn by the sample generator. *)
Definition real_of (x : option pyval) : option float :=
  match x with
  | Some (PFloat f) => Some f
  | _ => None
  end.

(** The order of [ORDER BY timestamp DESC]. *)
Definition newer_first (r1 r2 : Row) : Prop :=
  (row_timestamp r2 <= row_timestamp r1)%Z.

#[export] Instance newer_first_dec : RelDecision newer_first :=
  fun r1 r2 => Z_le_dec (row_timestamp r2) (row_timestamp r1).

Section Storage.

(** The environment of the store: [sql_ok k] tells whether the [k]-th
    SQLite operation of the connection succeeds ([false]: it raises
    [sqlite3.Error]); [uniform k] is the value of the [k]-th call of
    [random.uniform]. *)
Variable sql_ok : nat -> bool.
Variable uniform : nat -> float.
Variable str_to_float : string -> option float.

(** [cursor.execute(stmt)] and [conn.commit()]. *)
Definition execute (stmt : Database -> result Database) : sql unit :=
  fun c =>
    let c_next d := mkConn d (S (ops c)) in
    if sql_ok (ops c) then
      match stmt (db c) with
      | Return d' => (Return tt, c_next d')
      | Raise e => (Raise e, c_next (db c))
      end
    else (Raise SqliteError, c_next (db c)).

Definition commit : sql unit := execute (fun d => Return d).

(** The [data] dict of one sample record; [k] counts the records
    generated before it. *)
Definition sample_data (k : nat) : dict :=
  let u j := PFloat (uniform (8 * k + j)%nat) in
  <[ "nodeType" := PStr "ESP32-S3" ]>
  (<[ "pm25" := u 0%nat ]>
  (<[ "pm10" := u 1%nat ]>
  (<[ "eco2" := u 2%nat ]>
  (<[ "tvoc" := u 3%nat ]>
  (<[ "co" := u 4%nat ]>
  (<[ "no2" := u 5%nat ]>
  (<[ "temp" := u 6%nat ]>
  (<[ "humidity" := u 7%nat ]> ∅)))))))).

(** The timestamp of the records of round [i]: ten minutes apart, going
    back from [now] (microseconds), printed to the second. *)
Definition sample_timestamp (now : Z) (i : nat) : Z :=
  (now - Z.of_nat i * 10 * 60 * 1000000) `div` 1000000.

Definition insert_sample_record (now : Z) (i : nat) (j : nat) (node_id : Z)
  : sql unit :=
  let data := sample_data (3 * i + j) in
  execute (stmt_insert (sample_timestamp now i) node_id
             (default (PStr "Unknown") (data !! "nodeType"))
             (real_of (data !! "pm25"))
             (real_of (data !! "pm10"))
             (real_of (data !! "eco2"))
             (real_of (data !! "tvoc"))
             (real_of (data !! "co"))
             (real_of (data !! "no2"))
             (real_of (data !! "temp"))
             (real_of (data !! "humidity"))).

Definition insert_sample_data (now : Z) : sql unit :=
  for_each (seq 0 100) (fun i =>
    for_each [(0%nat, 1); (1%nat, 2); (2%nat, 3)] (fun jn =>
      insert_sample_record now i jn.1 jn.2)) >>;
  commit.

(** The statements of [init_database] after the connection is open. *)
Definition init_statements (now : Z) : sql unit :=
  execute stmt_drop_sensor_data >>;
  execute stmt_create_sensor_data >>;
  execute stmt_create_index >>;
  execute stmt_create_index >>;
  execute stmt_create_daily_statistics >>;
  insert_sample_data now >>;
  commit.

(** [DatabaseManager.__init__] / [init_database] on the database file
    [disk]; [connect_ok] is the outcome of [sqlite3.connect].  A
    [sqlite3.Error] is printed and the manager is left as it is then. *)
Definition init_database (connect_ok : bool) (disk : Database) (now : Z)
  : DatabaseManager :=
  if connect_ok then
    mkDatabaseManager (Some (init_statements now (mkConn disk 0)).2)
  else mkDatabaseManager None.

Definition validate_data (value : option pyval) (min_val max_val : Z)
  : result (option float) :=
  match value with
  | None | Some PNone => Return None
  | Some x =>
      except_value_type
        (val <- py_float str_to_float x ;;
         Return (if in_range min_val max_val val then Some val else None))
        (Return None)
  end.

(** The eight [validate_data] calls at the head of
    [insert_sensor_data]. *)
Definition validate_row (data : dict)
  : result (option float * option float * option float * option float *
            option float * option float * option float * option float) :=
  pm25 <- validate_data (data !! "pm25") 0 10000 ;;
  pm10 <- validate_data (data !! "pm10") 0 10000 ;;
  eco2 <- validate_data (data !! "eco2") 0 10000 ;;
  tvoc <- validate_data (data !! "tvoc") 0 10000 ;;
  co <- validate_data (data !! "co") 0 10000 ;;
  no2 <- validate_data (data !! "no2") 0 10000 ;;
  temp <- validate_data (data !! "temp") (-50) 100 ;;
  humidity <- validate_data (data !! "humidity") 0 100 ;;
  Return (pm25, pm10, eco2, tvoc, co, no2, temp, humidity).

(** [insert_sensor_data(node_id, data)]; [ts] is [CURRENT_TIMESTAMP].
    Inside the [try], a [sqlite3.Error] becomes [False]; anything else
    leaves the method as an exception.  When the INSERT succeeds and the
    COMMIT fails the method returns [False] and the row stays in the open
    transaction.  [node_id] is bound as it is: the window passes 1, 2 or
    3; the binding refuses an [int] outside 64 bits, so a statement that
    names the outcome of the INSERT is about ids SQLite can hold
    ([sqlite_int] below). *)
Definition insert_sensor_data (ts : Z) (node_id : Z) (data : dict)
    (m : DatabaseManager) : result bool * DatabaseManager :=
  match validate_row data with
  | Raise e => (Raise e, m)
  | Return (pm25, pm10, eco2, tvoc, co, no2, temp, humidity) =>
      match conn m with
      | None => (Raise AttributeError, m)
      | Some c =>
          match bind_param (default (PStr "Unknown") (data !! "nodeType")) with
          | Raise SqliteError => (Return false, m)
          | Raise e => (Raise e, m)
          | Return node_type =>
              let '(r, c') :=
                (execute (stmt_insert ts node_id node_type
                            pm25 pm10 eco2 tvoc co no2 temp humidity) >>;
                 commit) c in
              (match r with
               | Return _ => Return true
               | Raise SqliteError => Return false
               | Raise e => Raise e
               end, mkDatabaseManager (Some c'))
          end
      end
  end.

(** [ORDER BY timestamp DESC]: newest first.  SQL leaves the order among
    equal timestamps open (SQLite may give the row of the higher rowid
    first); the model keeps rowid order there, and nothing below is said
    of the order of rows of equal timestamp. *)
Definition order_by_timestamp_desc (rs : list Row) : list Row :=
  merge_sort newer_first rs.

(** [LIMIT ?]: a negative limit means no limit in SQLite. *)
Definition sql_limit {A : Type} (limit : Z) (l : list A) : list A :=
  if (limit <? 0)%Z then l else take (Z.to_nat limit) l.

(** [get_recent_readings(limit)]: a [sqlite3.Error] becomes the empty
    list.  [limit] is bound as it is (the callers pass 20, 50 and 1000);
    the binding refuses an [int] outside 64 bits, as for [node_id]
    above. *)
Definition get_recent_readings (limit : Z) (m : DatabaseManager)
  : result (list Row) * DatabaseManager :=
  match conn m with
  | None => (Raise AttributeError, m)
  | Some c =>
      let '(r, c') :=
        execute stmt_select c in
      (match r, sensor_data (db c') with
       | Return _, Some t =>
           Return (sql_limit limit (order_by_timestamp_desc (rows t)))
       | Raise SqliteError, _ => Return []
       | Raise e, _ => Raise e
       | Return _, None => Return []
       end, mkDatabaseManager (Some c'))
  end.

(** [SELECT node_id, COUNT( * ) ... GROUP BY node_id] as a dict. *)
Definition node_counts_of (rs : list Row) : gmap Z Z :=
  foldr (fun r acc => <[row_node_id r := default 0 (acc !! row_node_id r) + 1]> acc)
        ∅ rs.

Definition min_timestamp (rs : list Row) : option Z :=
  foldr (fun r acc => match acc with
                      | Some t => Some (Z.min (row_timestamp r) t)
                      | None => Some (row_timestamp r)
                      end) None rs.

Definition max_timestamp (rs : list Row) : option Z :=
  foldr (fun r acc => match acc with
                      | Some t => Some (Z.max (row_timestamp r) t)
                      | None => Some (row_timestamp r)
                      end) None rs.

Record Statistics : Type := mkStatistics {
  total_records : Z;
  node_counts : gmap Z Z;
  db_size_kb : float;
  first_record : option Z;
  last_record : option Z
}.

Definition select_sensor_data : sql (list Row) :=
  fun c =>
    match execute stmt_select c with
    | (Return _, c') =>
        (Return (match sensor_data (db c') with
                 | Some t => rows t
                 | None => []
                 end), c')
    | (Raise e, c') => (Raise e, c')
    end.

(** [get_statistics()]; [st_size] is the size of the file in bytes as
    [Path(self.db_path).stat()] reports it, between the second and the
    third SELECT.  [None] after a [sqlite3.Error].  An [OSError] of
    [stat] (the file is gone) is not a [sqlite3.Error] and would leave
    the method; the model is of the calls in which [stat] returns, so
    what is said of the method is said of the summary it returns and of
    the [sqlite3.Error] it hides. *)
Definition get_statistics (st_size : Z) (m : DatabaseManager)
  : result (option Statistics) * DatabaseManager :=
  match conn m with
  | None => (Raise AttributeError, m)
  | Some c =>
      let '(r, c') :=
        bind select_sensor_data (fun all =>
        bind select_sensor_data (fun grouped =>
        bind select_sensor_data (fun ranged =>
        ret (mkStatistics (Z.of_nat (length all))
                              (node_counts_of grouped)
                              (PrimFloat.div (float_of_Z st_size) 1024%float)
                              (min_timestamp ranged)
                              (max_timestamp ranged))))) c in
      (match r with
       | Return s => Return (Some s)
       | Raise SqliteError => Return None
       | Raise e => Raise e
       end, mkDatabaseManager (Some c'))
  end.

End Storage.

(* ===================================================================== *)
(** ** MainWindow: dispatch, persistence tick, offline sweep             *)
(* ===================================================================== *)

(** The widgets [handle_data] updates, in the order it calls them. *)
Inductive consumer : Set :=
| NodeWidget
| GraphWidget
| InfographicsWidget
| GeneralUserDashboard.

#[export] Instance consumer_eq_dec : EqDecision consumer.
Proof. solve_decision. Defined.

Definition consumers : list consumer :=
  [NodeWidget; GraphWidget; InfographicsWidget; GeneralUserDashboard].

(** The calls the window makes on its collaborators, oldest first. *)
Inductive event : Type :=
| UpdateData (c : consumer) (node_id : Z) (data : dict)
| SetOffline (node_id : Z)
| DashboardOffline (node_id : Z)
| InsertSensorData (node_id : Z) (data : dict) (current_time : Z)
    (outcome : result bool).

(** An entry of [self.node_data]: [{'data': ..., 'timestamp': ...}]. *)
Record NodeInfo : Type := mkNodeInfo {
  info_data : dict;
  info_timestamp : Z
}.

Record MainWindow : Type := mkMainWindow {
  node_data : list (Z * NodeInfo);
  db_manager : DatabaseManager;
  last_db_save : gmap Z (option Z);
  current_tab : Z;
  node_widgets : gmap Z string;
  node_status_labels : gmap Z string;
  calls : list event
}.

(** [d[k] = v] on a dict kept in insertion order. *)
Fixpoint dict_set {V : Type} (k : Z) (v : V) (d : list (Z * V)) : list (Z * V) :=
  match d with
  | [] => [(k, v)]
  | (k', v') :: rest =>
      if (k =? k')%Z then (k', v) :: rest else (k', v') :: dict_set k v rest
  end.

Fixpoint dict_get {V : Type} (k : Z) (d : list (Z * V)) : option V :=
  match d with
  | [] => None
  | (k', v') :: rest => if (k =? k')%Z then Some v' else dict_get k rest
  end.

Definition set_node_data (nd : list (Z * NodeInfo)) (w : MainWindow) : MainWindow :=
  mkMainWindow nd (db_manager w) (last_db_save w) (current_tab w)
    (node_widgets w) (node_status_labels w) (calls w).

Definition set_db_manager (m : DatabaseManager) (w : MainWindow) : MainWindow :=
  mkMainWindow (node_data w) m (last_db_save w) (current_tab w)
    (node_widgets w) (node_status_labels w) (calls w).

Definition set_last_db_save (l : gmap Z (option Z)) (w : MainWindow) : MainWindow :=
  mkMainWindow (node_data w) (db_manager w) l (current_tab w)
    (node_widgets w) (node_status_labels w) (calls w).

Definition set_current_tab (t : Z) (w : MainWindow) : MainWindow :=
  mkMainWindow (node_data w) (db_manager w) (last_db_save w) t
    (node_widgets w) (node_status_labels w) (calls w).

Definition set_node_widgets (l : gmap Z string) (w : MainWindow) : MainWindow :=
  mkMainWindow (node_data w) (db_manager w) (last_db_save w) (current_tab w)
    l (node_status_labels w) (calls w).

Definition set_node_status_labels (l : gmap Z string) (w : MainWindow) : MainWindow :=
  mkMainWindow (node_data w) (db_manager w) (last_db_save w) (current_tab w)
    (node_widgets w) l (calls w).

Definition log (e : event) (w : MainWindow) : MainWindow :=
  mkMainWindow (node_data w) (db_manager w) (last_db_save w) (current_tab w)
    (node_widgets w) (node_status_labels w) (calls w ++ [e]).

(** [MainWindow.__init__]: no node seen, no save made, every status label
    reads OFFLINE. *)
Definition MainWindow_init (m : DatabaseManager) : MainWindow :=
  mkMainWindow [] m
    (<[1 := None]> (<[2 := None]> (<[3 := None]> ∅)))
    0
    (<[1 := "OFFLINE"]> (<[2 := "OFFLINE"]> (<[3 := "OFFLINE"]> ∅)))
    (<[1 := "OFFLINE"]> (<[2 := "OFFLINE"]> (<[3 := "OFFLINE"]> ∅)))
    [].

(** The two thresholds, in microseconds. *)
Definition save_interval : Z := 5 * 1000000.
Definition offline_timeout : Z := 60 * 1000000.

(** [last_save is None or (current_time - last_save).total_seconds() >= 5]. *)
Definition save_due (last_save : option Z) (current_time : Z) : bool :=
  match last_save with
  | None => true
  | Some t => (save_interval <=? current_time - t)%Z
  end.

(** [widget.update_data(...)]: what the window state keeps of it.  The
    node widget and the dashboard turn their status label to ONLINE. *)
Definition update_effect (c : consumer) (node_id : Z) (w : MainWindow) : MainWindow :=
  match c with
  | NodeWidget => set_node_widgets (<[node_id := "ONLINE"]> (node_widgets w)) w
  | GeneralUserDashboard =>
      match node_status_labels w !! node_id with
      | Some _ =>
          set_node_status_labels (<[node_id := "ONLINE"]> (node_status_labels w)) w
      | None => w
      end
  | GraphWidget | InfographicsWidget => w
  end.

Section Window.

Variable sql_ok : nat -> bool.
Variable str_to_float : string -> option float.

(** One [update_data] call; [raises c] tells whether widget [c] raises
    during this dispatch. *)
Definition update_data (raises : consumer -> bool) (c : consumer)
    (node_id : Z) (data : dict) : prog MainWindow unit :=
  fun w =>
    if raises c then (Raise RuntimeError, w)
    else (Return tt, log (UpdateData c node_id data) (update_effect c node_id w)).

(** [handle_data(data)], the slot of [data_received]; [now] is the value
    of [datetime.now()] when the reading is stored.  The signal carries
    what [validate_sensor_data] returned, whose [nodeId] is an [int]; a
    payload of another shape is left alone here, while the code would
    compare it all the same: it goes on for a float or a boolean between
    1 and 3 and raises [TypeError] on what is not a number.  A statement
    about the keys the slot stores is about payloads of the reader
    ([from_reader] below). *)
Definition handle_data (raises : consumer -> bool) (now : Z) (data : dict)
  : prog MainWindow unit :=
  match data !! "nodeId" with
  | Some (PInt node_id) =>
      if (1 <=? node_id)%Z && (node_id <=? 3)%Z then
        (fun w =>
           match node_widgets w !! node_id with
           | Some _ => update_data raises NodeWidget node_id data w
           | None => (Return tt, w)
           end) >>;
        update_data raises GraphWidget node_id data >>;
        update_data raises InfographicsWidget node_id data >>;
        update_data raises GeneralUserDashboard node_id data >>;
        (fun w =>
           (Return tt,
            set_node_data (dict_set node_id (mkNodeInfo data now) (node_data w)) w))
      else ret tt
  | _ => ret tt
  end.

(** The body of the loop of [check_db_save] for one entry of
    [node_data]. *)
Definition save_node (current_time ts : Z) (entry : Z * NodeInfo)
  : prog MainWindow unit :=
  fun w =>
    let '(node_id, node_info) := entry in
    match last_db_save w !! node_id with
    | None => (Raise KeyError, w)
    | Some last_save =>
        if save_due last_save current_time then
          let '(r, m') :=
            insert_sensor_data sql_ok str_to_float ts node_id
              (info_data node_info) (db_manager w) in
          let w' :=
            log (InsertSensorData node_id (info_data node_info) current_time r)
                (set_db_manager m' w) in
          match r with
          | Raise e => (Raise e, w')
          | Return success =>
              (Return tt,
               if success
               then set_last_db_save
                      (<[node_id := Some current_time]> (last_db_save w')) w'
               else w')
          end
        else (Return tt, w)
    end.

(** [check_db_save()], the slot of the one-second [db_timer]. *)
Definition check_db_save (current_time ts : Z) : prog MainWindow unit :=
  fun w => for_each (node_data w) (save_node current_time ts) w.

(** The refresh of the database tab: both calls sit in
    [try ... except Exception], so only the connection is touched. *)
Definition refresh_database_view (st_size : Z) : prog MainWindow unit :=
  fun w =>
    let m1 := (get_statistics sql_ok st_size (db_manager w)).2 in
    let m2 := (get_recent_readings sql_ok 20 m1).2 in
    (Return tt, set_db_manager m2 w).

(** The body of the offline loop of [update_all] for one entry. *)
Definition sweep_node (current_time : Z) (entry : Z * NodeInfo)
  : prog MainWindow unit :=
  fun w =>
    let '(node_id, node_info) := entry in
    let time_diff := current_time - info_timestamp node_info in
    if (offline_timeout <? time_diff)%Z then
      let w1 :=
        match node_widgets w !! node_id with
        | Some _ =>
            log (SetOffline node_id)
                (set_node_widgets (<[node_id := "OFFLINE"]> (node_widgets w)) w)
        | None => w
        end in
      let w2 :=
        match node_status_labels w1 !! node_id with
        | Some _ =>
            log (DashboardOffline node_id)
                (set_node_status_labels
                   (<[node_id := "OFFLINE"]> (node_status_labels w1)) w1)
        | None => w1
        end in
      (Return tt, w2)
    else (Return tt, w).

(** [update_all()], the slot of the one-second [update_timer].  The two
    plot refreshes at its head draw only; [render_ok] tells whether they
    return. *)
Definition update_all (render_ok : bool) (st_size : Z) (current_time : Z)
  : prog MainWindow unit :=
  (fun w => if render_ok then (Return tt, w) else (Raise RuntimeError, w)) >>;
  (fun w => if (current_tab w =? 6)%Z then refresh_database_view st_size w
            else (Return tt, w)) >>;
  (fun w => for_each (node_data w) (sweep_node current_time) w).

(** What the event loop delivers to the window. *)
Inductive input : Type :=
| DataReceived (raises : consumer -> bool) (now : Z) (data : dict)
| DbTimer (current_time ts : Z)
| UpdateTimer (render_ok : bool) (st_size : Z) (current_time : Z)
| TabChanged (index : Z).

Definition step (i : input) : prog MainWindow unit :=
  match i with
  | DataReceived raises now data => handle_data raises now data
  | DbTimer current_time ts => check_db_save current_time ts
  | UpdateTimer render_ok st_size current_time =>
      update_all render_ok st_size current_time
  | TabChanged index => fun w => (Return tt, set_current_tab index w)
  end.

(** A run of the event loop; an exception that leaves a slot ends it. *)
Definition run (inputs : list input) : prog MainWindow unit :=
  for_each inputs step.

End Window.

(** The times of the insert calls for [node_id] that returned [True]. *)
Fixpoint successful_writes (node_id : Z) (evs : list event) : list Z :=
  match evs with
  | [] => []
  | InsertSensorData n _ t (Return true) :: rest =>
      if (n =? node_id)%Z then t :: successful_writes node_id rest
      else successful_writes node_id rest
  | _ :: rest => successful_writes node_id rest
  end.

(** The times of all insert calls for [node_id], whatever their outcome. *)
Fixpoint attempted_writes (node_id : Z) (evs : list event) : list Z :=
  match evs with
  | [] => []
  | InsertSensorData n _ t _ :: rest =>
      if (n =? node_id)%Z then t :: attempted_writes node_id rest
      else attempted_writes node_id rest
  | _ :: rest => attempted_writes node_id rest
  end.

(** The number of [set_offline()] calls on the widget of [node_id]. *)
Fixpoint offline_calls (node_id : Z) (evs : list event) : nat :=
  match evs with
  | [] => O
  | SetOffline n :: rest =>
      if (n =? node_id)%Z then S (offline_calls node_id rest)
      else offline_calls node_id rest
  | _ :: rest => offline_calls node_id rest
  end.

(** The widgets that received the reading, in the order of the calls. *)
Fixpoint delivered (evs : list event) : list consumer :=
  match evs with
  | [] => []
  | UpdateData c _ _ :: rest => c :: delivered rest
  | _ :: rest => delivered rest
  end.

(** The rows of [sensor_data] a manager can read. *)
Definition stored_rows (m : DatabaseManager) : list Row :=
  match conn m with
  | Some c =>
      match sensor_data (db c) with
      | Some t => rows t
      | None => []
      end
  | None => []
  end.


(* ===================================================================== *)
(** ** Vocabulary of the statements                                      *)
(* ===================================================================== *)

(** The declared range of a field name, if it is a measurement field. *)
Fixpoint lookup_range (k : string) (fields : list (string * (Z * Z)))
  : option (Z * Z) :=
  match fields with
  | [] => None
  | (f, r) :: rest => if decide (k = f) then Some r else lookup_range k rest
  end.

Section ValidatorVocabulary.

Variable str_to_float : string -> option float.
Variable py_repr : pyval -> string.

(** What the validator keeps of one input value: its float when it has
    one in the range. *)
Definition keep_field (lo hi : Z) (x : pyval) : option pyval :=
  match py_float str_to_float x with
  | Return v => if in_range lo hi v then Some (PFloat v) else None
  | Raise _ => None
  end.



(** [validated] before the loop over the numeric fields. *)
Definition base (data : dict) (node_id : Z) : dict :=
  match data !! "nodeType" with
  | Some t => <["nodeType" := PStr (py_str py_repr t)]> {[ "nodeId" := PInt node_id ]}
  | None => {[ "nodeId" := PInt node_id ]}
  end.

(** What an accepted reading holds under each key. *)
Definition expected (data : dict) (node_id : Z) (k : string) : option pyval :=
  if decide (k = "nodeId") then Some (PInt node_id)
  else if decide (k = "nodeType")
       then (fun t => PStr (py_str py_repr t)) <$> data !! "nodeType"
       else match lookup_range k numeric_fields with
            | Some (lo, hi) => data !! k ≫= keep_field lo hi
            | None => None
            end.

End ValidatorVocabulary.

(** A dict shaped like a validated reading: every numeric field it has
    is a float, and its type label, if any, is a string. *)
Definition reading_like (data : dict) : Prop :=
  (forall f lo hi x, In (f, (lo, hi)) numeric_fields -> data !! f = Some x ->
                     exists v, x = PFloat v) /\
  (forall t, data !! "nodeType" = Some t -> exists s, t = PStr s).

(** [int -> float -> int] gives the integer back. *)
Definition exact_int (z : Z) : bool :=
  match float_trunc (float_of_Z z) with
  | Return z' => (z' =? z) && negb (is_inf (float_of_Z z))
  | Raise _ => false
  end.

(** The consumers served before the first one that raises. *)
Fixpoint served (raises : consumer -> bool) (cs : list consumer) : list consumer :=
  match cs with
  | [] => []
  | c :: rest => if raises c then [] else c :: served raises rest
  end.

(** The entries of [node_data] for [node_id] whose last reading is more
    than the timeout old at [now]. *)
Fixpoint count_overdue (node_id now : Z) (d : list (Z * NodeInfo)) : nat :=
  match d with
  | [] => O
  | (k, info) :: rest =>
      ((if (k =? node_id)%Z && (offline_timeout <? now - info_timestamp info)%Z
        then 1 else 0) + count_overdue node_id now rest)%nat
  end.

(** Successive entries are at least the save interval apart. *)
Definition spaced (l : list Z) : Prop :=
  forall (i j : nat) t1 t2,
    (i < j)%nat -> l !! i = Some t1 -> l !! j = Some t2 -> t1 + save_interval <= t2.

(** [last_db_save[node_id]], [None] when unset. *)
Definition cursor (w : MainWindow) (node_id : Z) : option Z :=
  match last_db_save w !! node_id with
  | Some (Some t) => Some t
  | _ => None
  end.

(** The invariant of the throttle: the successful saves of each node are
    spaced, and the cursor of the node is the last of them. *)
Definition throttle_inv (w : MainWindow) : Prop :=
  forall n,
    spaced (successful_writes n (calls w)) /\
    last (successful_writes n (calls w)) = cursor w n.

(** Code whose final state is related to its initial state by [R],
    however it ends. *)
Definition steady {S A : Type} (R : relation S) (p : prog S A) : Prop :=
  forall s, R s (p s).2.

(** Neither a save nor a cursor has changed. *)
Definition same_saves (w w' : MainWindow) : Prop :=
  last_db_save w' = last_db_save w /\
  forall n, successful_writes n (calls w') = successful_writes n (calls w).

(** The rows of [sensor_data] in a database. *)
Definition rows_of (d : Database) : list Row :=
  match sensor_data d with
  | Some t => rows t
  | None => []
  end.

(** The rows of the first state are still there, in place, in the
    second. *)
Definition rows_kept (d d' : Database) : Prop := rows_of d `prefix_of` rows_of d'.

Definition conn_rows_kept (c c' : Conn) : Prop := rows_kept (db c) (db c').

Definition manager_rows_kept (m m' : DatabaseManager) : Prop :=
  stored_rows m `prefix_of` stored_rows m'.

Definition window_rows_kept (w w' : MainWindow) : Prop :=
  manager_rows_kept (db_manager w) (db_manager w').

Section StoreVocabulary.

Variable sql_ok : nat -> bool.
Variable uniform : nat -> float.


(** The row that record [j] of round [i] leaves in a fresh table. *)
Definition sample_row (now : Z) (i j : nat) (node_id : Z) : Row :=
  let k := (3 * i + j)%nat in
  mkRow (Z.of_nat k + 1) (sample_timestamp now i) node_id (PStr "ESP32-S3")
    (Some (uniform (8 * k + 0)%nat)) (Some (uniform (8 * k + 1)%nat))
    (Some (uniform (8 * k + 2)%nat)) (Some (uniform (8 * k + 3)%nat))
    (Some (uniform (8 * k + 4)%nat)) (Some (uniform (8 * k + 5)%nat))
    (Some (uniform (8 * k + 6)%nat)) (Some (uniform (8 * k + 7)%nat))
    "GOOD".

Definition sample_round (now : Z) (i : nat) : list Row :=
  [sample_row now i 0 1; sample_row now i 1 2; sample_row now i 2 3].

Definition sample_rows (now : Z) : list Row :=
  flat_map (sample_round now) (seq 0 100).

End StoreVocabulary.

(* ===================================================================== *)
(** ** GraphWidget: the plotted series                                   *)
(* ===================================================================== *)

(** [self.max_points]. *)
Definition max_points : nat := 100.

(** [d.append(x)] on a [deque(maxlen=self.max_points)]: a full deque
    drops its oldest item. *)
Definition deque_append {A : Type} (x : A) (d : list A) : list A :=
  if (max_points <=? length d)%nat then drop 1 d ++ [x] else d ++ [x].

(** [l[-n:]] for [n >= 0]: the last [n] items, all of them when there are
    fewer; [l[-0:]] is [l[0:]], the whole list. *)
Definition py_last {A : Type} (n : nat) (l : list A) : list A :=
  if (n =? 0)%nat then l else drop (length l - n) l.

Definition graph_nodes : list string := ["node1"; "node2"; "node3"].
Definition graph_params : list string :=
  ["pm25"; "pm10"; "eco2"; "tvoc"; "co"; "no2"].

(** A call [self.curves[param][node_key].setData(x_data, data_array)]. *)
Record SetData : Type := mkSetData {
  plot_param : string;
  plot_node : string;
  x_data : list Z;
  data_array : list pyval
}.

(** The state of the graph widget: [self.time_data], in microseconds
    since [self.start_time]; [self.data]; and the [setData] calls made so
    far, oldest first.  The program holds the times as the floats of
    [total_seconds()]; that conversion keeps the order of the microsecond
    counts, strictly so for a widget running less than 2^52 microseconds,
    and the order is all the widget uses. *)
Record GraphWidgetState : Type := mkGraphWidgetState {
  time_data : list Z;
  graph_data : gmap string (gmap string (list pyval));
  set_data_calls : list SetData
}.

(** [GraphWidget.init_data]. *)
Definition init_data : GraphWidgetState :=
  mkGraphWidgetState []
    (list_to_map
       ((fun node => (node, list_to_map ((fun p => (p, [])) <$> graph_params)))
          <$> graph_nodes))
    [].

(** [f'node{node_id}']. *)
Definition node_key (node_id : Z) : string := "node" +:+ pretty node_id.

(** One turn of the loop over the parameters in
    [GraphWidget.update_data]:
[[
    if param in data and data[param] is not None:
        self.data[node_key][param].append(data[param])
]]
*)
Definition append_param (key : string) (data : dict) (param : string)
  : prog GraphWidgetState unit :=
  fun g =>
    match data !! param with
    | None | Some PNone => (Return tt, g)
    | Some v =>
        match graph_data g !! key with
        | None => (Raise KeyError, g)
        | Some series =>
            match series !! param with
            | None => (Raise KeyError, g)
            | Some d =>
                (Return tt,
                 mkGraphWidgetState (time_data g)
                   (<[key := <[param := deque_append v d]> series]> (graph_data g))
                   (set_data_calls g))
            end
        end
    end.

(** [GraphWidget.update_data(node_id, data)]; [current_time] is the time
    since the start of the widget. *)
Definition graph_update_data (current_time node_id : Z) (data : dict)
  : prog GraphWidgetState unit :=
  (fun g =>
     let fresh :=
       match last (time_data g) with
       | None => true
       | Some t => (t <? current_time)%Z
       end in
     (Return tt,
      if fresh
      then mkGraphWidgetState (deque_append current_time (time_data g))
             (graph_data g) (set_data_calls g)
      else g)) >>;
  for_each graph_params (append_param (node_key node_id) data).

(** The body of the two loops of [GraphWidget.update_plots] for one
    curve. *)
Definition plot_curve (key param : string) : prog GraphWidgetState unit :=
  fun g =>
    match graph_data g !! key with
    | None => (Raise KeyError, g)
    | Some series =>
        match series !! param with
        | None => (Raise KeyError, g)
        | Some data_list =>
            if (0 <? length data_list)%nat then
              let ys := py_last (length (time_data g)) data_list in
              let xs := py_last (length ys) (time_data g) in
              if (0 <? length xs)%nat && (0 <? length ys)%nat then
                (Return tt,
                 mkGraphWidgetState (time_data g) (graph_data g)
                   (set_data_calls g ++ [mkSetData param key xs ys]))
              else (Return tt, g)
            else (Return tt, g)
        end
    end.

(** [GraphWidget.update_plots()]. *)
Definition update_plots : prog GraphWidgetState unit :=
  fun g =>
    if (length (time_data g) =? 0)%nat then (Return tt, g)
    else
      for_each graph_nodes (fun key =>
        for_each graph_params (plot_curve key)) g.

(** The updates the graph widget receives in a session. *)
Definition graph_run (updates : list (Z * Z * dict))
  : prog GraphWidgetState unit :=
  for_each updates (fun u => graph_update_data u.1.1 u.1.2 u.2).

(* ===================================================================== *)
(** ** GeneralUserDashboard: the health indicator and the AQI alert      *)
(* ===================================================================== *)

(** [x == 0] on a JSON value. *)
Definition py_eq_zero (x : pyval) : bool :=
  match x with
  | PInt z => (z =? 0)%Z
  | PFloat f => PrimFloat.eqb f 0%float
  | PBool b => negb b
  | PNone | PStr _ | PList _ | PDict _ => false
  end.

(** [x <= n] for an [int] literal [n] that a float holds exactly: a
    number is compared, anything else is a [TypeError]. *)
Definition py_le_int (x : pyval) (n : Z) : result bool :=
  match x with
  | PInt z => Return (z <=? n)%Z
  | PFloat f => Return (PrimFloat.leb f (float_of_Z n))
  | PBool b => Return ((if b then 1 else 0) <=? n)%Z
  | PNone | PStr _ | PList _ | PDict _ => Raise TypeError
  end.

(** What the dashboard keeps for its two indicators:
    [self.pollutant_data['PM2.5']] and the texts of [self.health_value],
    [self.health_status] and [self.aqi_level]. *)
Record Dashboard : Type := mkDashboard {
  shown_pm25 : pyval;
  health_value : string;
  health_status : string;
  aqi_level : string
}.

(** [GeneralUserDashboard.__init__] and the labels of [init_ui]. *)
Definition Dashboard_init : Dashboard :=
  mkDashboard (PInt 0) "--" "No Data" "NO DATA".

Definition set_health (value status : string) (d : Dashboard) : Dashboard :=
  mkDashboard (shown_pm25 d) value status (aqi_level d).

Definition set_aqi_level (level : string) (d : Dashboard) : Dashboard :=
  mkDashboard (shown_pm25 d) (health_value d) (health_status d) level.

(** [update_health_indicator()]. *)
Definition update_health_indicator : prog Dashboard unit :=
  fun d =>
    let pm25 := shown_pm25 d in
    if py_eq_zero pm25 then (Return tt, set_health "--" "No Data" d)
    else
      match
        (b12 <- py_le_int pm25 12 ;;
         if b12 : bool then Return ("95", "EXCELLENT")
         else
           b35 <- py_le_int pm25 35 ;;
           if b35 : bool then Return ("75", "GOOD")
           else
             b55 <- py_le_int pm25 55 ;;
             if b55 : bool then Return ("50", "FAIR")
             else
               b150 <- py_le_int pm25 150 ;;
               if b150 : bool then Return ("30", "POOR")
               else Return ("10", "HAZARDOUS"))
      with
      | Return (score, status) => (Return tt, set_health score status d)
      | Raise e => (Raise e, d)
      end.

(** [update_aqi_alert()]. *)
Definition update_aqi_alert : prog Dashboard unit :=
  fun d =>
    let pm25 := shown_pm25 d in
    if py_eq_zero pm25 then (Return tt, set_aqi_level "NO DATA" d)
    else
      match
        (b12 <- py_le_int pm25 12 ;;
         if b12 : bool then Return "GOOD"
         else
           b35 <- py_le_int pm25 35 ;;
           if b35 : bool then Return "MODERATE"
           else
             b55 <- py_le_int pm25 55 ;;
             if b55 : bool then Return "UNHEALTHY"
             else
               b150 <- py_le_int pm25 150 ;;
               if b150 : bool then Return "VERY UNHEALTHY"
               else Return "HAZARDOUS")
      with
      | Return level => (Return tt, set_aqi_level level d)
      | Raise e => (Raise e, d)
      end.

(** The part of [GeneralUserDashboard.update_data(node_id, data)] that
    drives the two indicators: the latest [pm25] of any node is kept,
    then both indicators are refreshed.  What follows in the method
    formats the temperature and the humidity and redraws the chart. *)
Definition dashboard_update_data (data : dict) : prog Dashboard unit :=
  (fun d =>
     (Return tt,
      match data !! "pm25" with
      | Some v => mkDashboard v (health_value d) (health_status d) (aqi_level d)
      | None => d
      end)) >>;
  update_health_indicator >>;
  update_aqi_alert.

(** The dashboard after a series of updates; an update that raises
    leaves the dashboard as it is at that point, and the next one goes
    on from there. *)
Definition dashboard_session (updates : list dict) (d : Dashboard) : Dashboard :=
  foldl (fun d data => (dashboard_update_data data d).2) d updates.

(** The items of a batch the validator accepts, in their order. *)
Definition accepted_of {A : Type} (validate : A -> result (option dict))
    (items : list A) : list dict :=
  omap (fun x => match validate x with
                 | Return (Some v) => Some v
                 | _ => None
                 end) items.


(** The number of rows of node [n]. *)
Definition count_node (n : Z) (rs : list Row) : Z :=
  Z.of_nat (length (filter (fun r => row_node_id r = n) rs)).

(** One of the three SELECTs of [get_statistics] on connection [c]
    raises [sqlite3.Error]. *)
Definition statistics_fail (sql_ok : nat -> bool) (c : Conn) : Prop :=
  sensor_data (db c) = None \/
  sql_ok (ops c) = false \/
  sql_ok (S (ops c)) = false \/
  sql_ok (S (S (ops c))) = false.

(** A relation on databases, read on connections, managers and windows.
    A manager without a connection stays without one. *)
Definition conn_related (R : relation Database) (c c' : Conn) : Prop :=
  R (db c) (db c').

Definition manager_related (R : relation Database) (m m' : DatabaseManager) : Prop :=
  match conn m, conn m' with
  | Some c, Some c' => R (db c) (db c')
  | None, None => True
  | _, _ => False
  end.

Definition window_related (R : relation Database) (w w' : MainWindow) : Prop :=
  manager_related R (db_manager w) (db_manager w').

(** A REAL column is NULL or within its range. *)
Definition col_ok (lo hi : Z) (o : option float) : Prop :=
  match o with
  | Some v => in_range lo hi v = true
  | None => True
  end.

Definition row_in_range (r : Row) : Prop :=
  col_ok 0 10000 (row_pm25 r) /\ col_ok 0 10000 (row_pm10 r) /\
  col_ok 0 10000 (row_eco2 r) /\ col_ok 0 10000 (row_tvoc r) /\
  col_ok 0 10000 (row_co r) /\ col_ok 0 10000 (row_no2 r) /\
  col_ok (-50) 100 (row_temperature r) /\ col_ok 0 100 (row_humidity r) /\
  row_data_quality r = "GOOD".

(** The second database holds the rows of the first and, after them,
    rows that satisfy [P]. *)
Definition grows_by (P : Row -> Prop) (d d' : Database) : Prop :=
  exists new, rows_of d' = rows_of d ++ new /\ Forall P new.

(** The second database satisfies [P] if the first does. *)
Definition keeps (P : Database -> Prop) (d d' : Database) : Prop := P d -> P d'.

(** Row ids increase in insertion order and none is above the counter
    of the table. *)
Definition ids_ok (d : Database) : Prop :=
  match sensor_data d with
  | None => True
  | Some t =>
      StronglySorted Z.lt (row_id <$> rows t) /\
      Forall (fun r => row_id r <= autoinc t) (rows t)
  end.

(** The keys of [node_data] are node ids 1 to 3, and [last_db_save] has
    an entry for each of them. *)
Definition keys_ok (w : MainWindow) : Prop :=
  Forall (fun e : Z * NodeInfo => 1 <= e.1 <= 3) (node_data w) /\
  forall k, 1 <= k <= 3 -> is_Some (last_db_save w !! k).

(** A reading the validator has accepted. *)
Definition validated (str_to_float : string -> option float)
    (str_to_int : string -> option Z) (py_repr : pyval -> string)
    (data : dict) : Prop :=
  exists x,
    validate_sensor_data str_to_float str_to_int py_repr (PDict x) = Return (Some data).


(** Every series the widget was created with is there. *)
Definition graph_keys_ok (g : GraphWidgetState) : Prop :=
  forall key param, key ∈ graph_nodes -> param ∈ graph_params ->
    exists series d, graph_data g !! key = Some series /\ series !! param = Some d.

(** No deque is over its capacity, the times increase strictly, and no
    series holds [None]. *)
Definition graph_inv (g : GraphWidgetState) : Prop :=
  (length (time_data g) <= max_points)%nat /\
  StronglySorted Z.lt (time_data g) /\
  forall key series param d,
    graph_data g !! key = Some series -> series !! param = Some d ->
    (length d <= max_points)%nat /\ PNone ∉ d.

(** A [setData] call made on the state [g]: arrays of the same positive
    length, the times being the latest ones and the values the latest of
    the series. *)
Definition plot_ok (g : GraphWidgetState) (c : SetData) : Prop :=
  length (x_data c) = length (data_array c) /\
  (0 < length (x_data c))%nat /\
  x_data c `suffix_of` time_data g /\
  exists series d,
    graph_data g !! plot_node c = Some series /\
    series !! plot_param c = Some d /\
    data_array c `suffix_of` d.

(** The second state has the series of the first and, after its calls,
    calls that are well formed. *)
Definition plots_added (g g' : GraphWidgetState) : Prop :=
  time_data g' = time_data g /\
  graph_data g' = graph_data g /\
  exists new, set_data_calls g' = set_data_calls g ++ new /\ Forall (plot_ok g) new.

(** The widget holds series for its three nodes only. *)
Definition graph_keys_only (g : GraphWidgetState) : Prop :=
  forall key, is_Some (graph_data g !! key) -> key ∈ graph_nodes.

(** The texts of the two indicators that belong together. *)
Definition indicator_bands : list (string * string * string) :=
  [ ("--", "No Data", "NO DATA");
    ("95", "EXCELLENT", "GOOD");
    ("75", "GOOD", "MODERATE");
    ("50", "FAIR", "UNHEALTHY");
    ("30", "POOR", "VERY UNHEALTHY");
    ("10", "HAZARDOUS", "HAZARDOUS") ].

Definition indicators_agree (d : Dashboard) : Prop :=
  (health_value d, health_status d, aqi_level d) ∈ indicator_bands.

(** The type labels [str] prints whatever the limit of the interpreter on
    the digits of an [int] (4300 by default, and never set below 640):
    beyond the limit [str] is a [ValueError], also for an [int] inside a
    list or a dict. *)
Definition str_returns (x : pyval) : Prop :=
  match x with
  | PInt z => Z.abs z < 10 ^ 640
  | PList _ | PDict _ => False
  | PNone | PBool _ | PFloat _ | PStr _ => True
  end.

(** The integers SQLite holds; the binding refuses one outside 64 bits
    with [OverflowError]. *)
Definition sqlite_int (z : Z) : Prop := - 2 ^ 63 <= z < 2 ^ 63.



(** What the reader sends through [data_received]: a dict whose [nodeId],
    when it has one, is an [int]. *)
Definition from_reader (i : input) : Prop :=
  match i with
  | DataReceived _ _ data =>
      match data !! "nodeId" with
      | Some (PInt _) | None => True
      | Some _ => False
      end
  | DbTimer _ _ | UpdateTimer _ _ _ | TabChanged _ => True
  end.

(* ===================================================================== *)
(** ** Sample inputs                                                     *)
(* ===================================================================== *)

(** An environment in which no text parses as a number, every SQLite
    operation succeeds and every draw is 1.0. *)
Definition no_float_parser : string -> option float := fun _ => None.
Definition no_int_parser : string -> option Z := fun _ => None.
Definition no_repr : pyval -> string := fun _ => "".
Definition all_ok : nat -> bool := fun _ => true.
Definition draw_one : nat -> float := fun _ => 1%float.




(** [{"nodeId": 1, "pm25": 45.5, "eco2": 900}] and the reading it gives. *)
Definition frame_good : dict :=
  <["nodeId" := PInt 1]> (<["pm25" := PFloat 45.5%float]> (<["eco2" := PInt 900]> ∅)).

Definition reading_good : dict :=
  <["nodeId" := PInt 1]>
    (<["pm25" := PFloat 45.5%float]> (<["eco2" := PFloat 900%float]> ∅)).

(** A reading of node 3. *)
Definition reading_node3 : dict :=
  <["nodeId" := PInt 3]> (<["pm25" := PFloat 12.5%float]> ∅).

Definition no_raise : consumer -> bool := fun _ => false.
Definition graph_raises : consumer -> bool :=
  fun c => bool_decide (c = GraphWidget).

(** The clock of the samples: midnight of some day, in microseconds. *)
Definition start_time : Z := 1700000000 * 1000000.
Definition second : Z := 1000000.

(** A database file left by an earlier run, with one stored row. *)
Definition legacy_row : Row :=
  mkRow 1 1600000000 1 (PStr "ESP32-S3")
    (Some 12.5%float) None None None None None None None "GOOD".

Definition legacy_disk : Database :=
  mkDatabase (Some (mkTable [legacy_row] 1)) true.

Definition empty_disk : Database := mkDatabase None false.

(** The window after a start on an empty file in the healthy environment,
    and after a start where SQLite fails once the program runs. *)
Definition healthy_window : MainWindow :=
  MainWindow_init (init_database all_ok draw_one true empty_disk start_time).


(** Scenario E: node 3 heard at [t = 0], then sweeps at 61 s and 62 s. *)
Definition heard_node3 : MainWindow :=
  (handle_data no_raise 0 reading_node3 healthy_window).2.

Definition sweep_times : list Z := [61 * second; 62 * second].

(** Scenario D, then later ticks: readings of node 3 at 0 s and 2 s; the
    database timer fires at 1 s, 3 s and 6 s. *)
Definition scenario_D : list input :=
  [ DataReceived no_raise 0 reading_node3;
    DbTimer (1 * second) 1;
    DataReceived no_raise (2 * second) reading_node3;
    DbTimer (3 * second) 3;
    DbTimer (6 * second) 6 ].


(** An integer beyond the range of a float. *)
Definition huge_int : Z := 2 ^ 1024.

Definition frame_huge : dict :=
  <["nodeId" := PInt 1]> (<["pm25" := PInt huge_int]> ∅).

Definition quoted (s : string) : string :=
  let q := String (Ascii.ascii_of_nat 34) EmptyString in q +:+ s +:+ q.

(** [{"nodes": [{"nodeId": 1, "pm25": 45.5, "eco2": 900}, {"nodeId": 7}, 5]}]
    after a log prefix, and what [json.loads] makes of it. *)
Definition batch_text : string :=
  "{" +:+ quoted "nodes" +:+ ": [{" +:+ quoted "nodeId" +:+ ": 1, " +:+
  quoted "pm25" +:+ ": 45.5, " +:+ quoted "eco2" +:+ ": 900}, {" +:+
  quoted "nodeId" +:+ ": 7}, 5]}".

Definition batch_line : string := "rx: " +:+ batch_text.

Definition batch_items : list pyval :=
  [PDict frame_good; PDict (<["nodeId" := PInt 7]> ∅); PInt 5].

Definition batch_loads : string -> option dict :=
  fun s => if decide (s = batch_text)
           then Some (<["nodes" := PList batch_items]> ∅) else None.

(** [{"nodes": [<good>, {"nodeId": 1, "pm25": 2**1024}, <good>]}], the
    texts left abstract. *)
Definition cut_items : list pyval :=
  [PDict frame_good; PDict frame_huge; PDict frame_good].

Definition cut_loads : string -> option dict :=
  fun _ => Some (<["nodes" := PList cut_items]> ∅).

(** [{"nodes": 5}]. *)
Definition scalar_loads : string -> option dict :=
  fun _ => Some (<["nodes" := PInt 5]> ∅).

(** A manager on the file of an earlier run, opened without
    initialization, and one on a file without the table. *)
Definition legacy_manager : DatabaseManager :=
  mkDatabaseManager (Some (mkConn legacy_disk 0)).

Definition bare_manager : DatabaseManager :=
  mkDatabaseManager (Some (mkConn empty_disk 0)).

(** The window after a start on the file of an earlier run. *)
Definition restarted_window : MainWindow :=
  MainWindow_init (init_database all_ok draw_one true legacy_disk start_time).

(** Two readings reaching the graph widget one second apart, and a
    reading for a node the widget has no series for. *)
Definition graph_updates : list (Z * Z * dict) :=
  [(1 * second, 1, reading_good); (2 * second, 3, reading_node3)].

(** [{"nodeId": 1, "nodeType": "ESP32-S3", "pm25": 2**1024}] *)
Definition frame_huge_typed : dict :=
  <["nodeType" := PStr "ESP32-S3"]> frame_huge.



(* ===================================================================== *)
(** ** Facts about programs with state and exceptions                    *)
(* ===================================================================== *)

Lemma for_each_cons {S A : Type} (x : A) (xs : list A) (body : A -> prog S unit) s :
  for_each (x :: xs) body s =
    match body x s with
    | (Return _, s') => for_each xs body s'
    | (Raise e, s') => (Raise e, s')
    end.
Proof. reflexivity. Qed.

Lemma bind_Return {S A B : Type} (m : prog S A) (k : A -> prog S B) s a s' :
  m s = (Return a, s') -> bind m k s = k a s'.
Proof. intros H. unfold bind. by rewrite H. Qed.

Lemma bind_bind_Return {S A B C : Type} (m : prog S A) (k1 : A -> prog S B)
    (k2 : B -> prog S C) s a s' :
  m s = (Return a, s') -> bind (bind m k1) k2 s = bind (k1 a) k2 s'.
Proof. intros H. unfold bind. by rewrite H. Qed.

Lemma for_each_preserves {S A : Type} (P : S -> Prop) (body : A -> prog S unit) xs :
  (forall x s, P s -> P (body x s).2) ->
  forall s, P s -> P (for_each xs body s).2.
Proof.
  intros Hbody. induction xs as [|x xs IH]; intros s Hs; [done|].
  rewrite for_each_cons. specialize (Hbody x s Hs).
  destruct (body x s) as [[[]|e] s']; simpl in *; [by apply IH|done].
Qed.

Section Steady.
Context {S : Type} (R : relation S) `{!PreOrder R}.

Lemma steady_ret {A : Type} (a : A) : steady R (ret a).
Proof. intros s. simpl. reflexivity. Qed.

Lemma steady_bind {A B : Type} (m : prog S A) (k : A -> prog S B) :
  steady R m -> (forall a, steady R (k a)) -> steady R (bind m k).
Proof.
  intros Hm Hk s. unfold bind. specialize (Hm s).
  destruct (m s) as [[a|e] s1]; simpl in *; [|done].
  etrans; [exact Hm|apply Hk].
Qed.

Lemma steady_for_each {A : Type} (xs : list A) (body : A -> prog S unit) :
  (forall x, steady R (body x)) -> steady R (for_each xs body).
Proof.
  intros Hb. induction xs as [|x xs IH]; [apply steady_ret|].
  apply steady_bind; [apply Hb|]. intros _. exact IH.
Qed.
End Steady.

(* ===================================================================== *)
(** ** The validator                                                     *)
(* ===================================================================== *)

(** Every integer of the declared ranges converts to a float and back
    without change. *)
Lemma exact_int_range :
  forallb exact_int ((fun n => Z.of_nat n - 50) <$> seq 0 (Z.to_nat 10051)) = true.
Proof. vm_compute. reflexivity. Qed.

Lemma int_in_range_exact z :
  -50 <= z <= 10000 -> float_trunc (float_of_Z z) = Return z.
Proof.
  intros Hz. pose proof exact_int_range as H.
  rewrite forallb_forall in H.
  assert (In z ((fun n => Z.of_nat n - 50) <$> seq 0 (Z.to_nat 10051))) as Hin.
  { apply list_elem_of_In. apply list_elem_of_fmap.
    exists (Z.to_nat (z + 50)). split; [lia|]. apply elem_of_seq. lia. }
  specialize (H z Hin). unfold exact_int in H.
  destruct (float_trunc (float_of_Z z)) as [z'|e]; [|done].
  apply andb_true_iff in H as [H _]. apply Z.eqb_eq in H. by subst.
Qed.

#[local] Arguments validate_field : simpl never.

Section ValidatorFacts.
Variable str_to_float : string -> option float.
Variable str_to_int : string -> option Z.
Variable py_repr : pyval -> string.

Let validate := validate_sensor_data str_to_float str_to_int py_repr.

Lemma validate_field_lookup data acc f lo hi acc' k :
  validate_field str_to_float data acc (f, (lo, hi)) = Return acc' ->
  acc' !! k =
    if decide (k = f)
    then match data !! f ≫= keep_field str_to_float lo hi with
         | Some v => Some v
         | None => acc !! k
         end
    else acc !! k.
Proof.
  unfold validate_field, keep_field.
  destruct (data !! f) as [x|] eqn:Hx; simpl.
  - destruct (py_float str_to_float x) as [v|e] eqn:Hf; simpl.
    + intros [= <-]. destruct (in_range lo hi v).
      * case_decide as Hk; [subst k; by rewrite lookup_insert_eq | by rewrite lookup_insert_ne].
      * by case_decide.
    + destruct e; simpl; intros [= <-]; by case_decide.
  - intros [= <-]. by case_decide.
Qed.

Lemma validate_fields_lookup fields : forall data acc out k,
  NoDup fields.*1 ->
  validate_fields str_to_float fields data acc = Return out ->
  out !! k =
    match lookup_range k fields with
    | Some (lo, hi) =>
        match data !! k ≫= keep_field str_to_float lo hi with
        | Some v => Some v
        | None => acc !! k
        end
    | None => acc !! k
    end.
Proof.
  induction fields as [|[f [lo hi]] rest IH]; intros data acc out k Hnd; simpl.
  - by intros [= <-].
  - destruct (validate_field str_to_float data acc (f, (lo, hi))) as [acc1|e] eqn:H1;
      simpl; [|done].
    intros Hrest. apply NoDup_cons in Hnd as [Hf Hnd].
    rewrite (IH _ _ _ k Hnd Hrest).
    rewrite (validate_field_lookup _ _ _ _ _ _ k H1).
    case_decide as Hk.
    + subst k.
      assert (lookup_range f rest = None) as ->; [|reflexivity].
      clear -Hf. induction rest as [|[g r] rest IH]; simpl; [done|].
      case_decide as Hg.
      * subst g. exfalso. apply Hf. simpl. apply list_elem_of_here.
      * apply IH. intros Hin. apply Hf. simpl. by apply list_elem_of_further.
    + destruct (lookup_range k rest) as [[lo' hi']|]; [|done].
      by destruct (data !! k ≫= keep_field str_to_float lo' hi').
Qed.


Lemma numeric_fields_NoDup : NoDup numeric_fields.*1.
Proof. by apply (bool_decide_unpack _). Qed.



Lemma validate_unfold data raw node_id :
  data !! "nodeId" = Some raw ->
  py_int str_to_int raw = Return node_id ->
  1 <= node_id <= 3 ->
  validate (PDict data) =
    (v <- validate_fields str_to_float numeric_fields data (base py_repr data node_id) ;;
     Return (if (1 <? size v)%nat then Some v else None)).
Proof.
  intros Hraw Hint Hn. unfold validate, validate_sensor_data.
  rewrite Hraw, Hint.
  assert ((1 <=? node_id) = true) as -> by lia.
  assert ((node_id <=? 3) = true) as -> by lia.
  reflexivity.
Qed.

Lemma base_lookup data node_id k :
  base py_repr data node_id !! k =
    if decide (k = "nodeId") then Some (PInt node_id)
    else if decide (k = "nodeType")
         then (fun t => PStr (py_str py_repr t)) <$> data !! "nodeType"
         else None.
Proof.
  unfold base. destruct (data !! "nodeType") as [t|]; simpl;
    repeat case_decide; subst; simplify_map_eq; done.
Qed.

Lemma validate_fields_expected data node_id v k :
  validate_fields str_to_float numeric_fields data (base py_repr data node_id) = Return v ->
  v !! k = expected str_to_float py_repr data node_id k.
Proof.
  intros Hv. rewrite (validate_fields_lookup _ _ _ _ k numeric_fields_NoDup Hv).
  rewrite base_lookup. unfold expected.
  case_decide as Hk1; [by subst k|].
  case_decide as Hk2; [by subst k|].
  destruct (lookup_range k numeric_fields) as [[lo hi]|]; [|done].
  by destruct (data !! k ≫= keep_field str_to_float lo hi).
Qed.

Lemma validate_accepts data out :
  validate (PDict data) = Return (Some out) ->
  exists raw node_id,
    data !! "nodeId" = Some raw /\
    py_int str_to_int raw = Return node_id /\
    1 <= node_id <= 3 /\
    (1 < size out)%nat /\
    forall k, out !! k = expected str_to_float py_repr data node_id k.
Proof.
  intros Hacc. pose proof Hacc as Hacc'.
  unfold validate, validate_sensor_data in Hacc'.
  destruct (data !! "nodeId") as [raw|] eqn:Hraw; [|done].
  destruct (py_int str_to_int raw) as [node_id|e] eqn:Hint; [|by destruct e].
  destruct (1 <=? node_id) eqn:H1; [|done].
  destruct (node_id <=? 3) eqn:H3; [|done]. clear Hacc'.
  assert (1 <= node_id <= 3) as Hn by lia.
  rewrite (validate_unfold _ _ _ Hraw Hint Hn) in Hacc.
  destruct (validate_fields str_to_float numeric_fields data (base py_repr data node_id))
    as [v|e] eqn:Hv; [|done].
  cbn [rbind] in Hacc.
  destruct (1 <? size v)%nat eqn:Hsz; [|done]. injection Hacc as <-.
  exists raw, node_id. split; [done|]. split; [done|]. split; [done|].
  split; [by apply Nat.ltb_lt|].
  intros k. by apply validate_fields_expected.
Qed.


Lemma lookup_range_numeric f lo hi :
  In (f, (lo, hi)) numeric_fields ->
  lookup_range f numeric_fields = Some (lo, hi) /\ f <> "nodeId" /\ f <> "nodeType".
Proof.
  simpl. intros H.
  repeat (destruct H as [[= <- <- <-]|H]; [by vm_compute|]). done.
Qed.

Lemma lookup_range_numeric_inv f lo hi :
  lookup_range f numeric_fields = Some (lo, hi) ->
  In (f, (lo, hi)) numeric_fields.
Proof.
  unfold numeric_fields; simpl.
  repeat match goal with
         | |- (if decide (f = ?s) then _ else _) = _ -> _ =>
             destruct (decide (f = s)) as [->|?]; [intros [= <- <-]; auto 10|]
         end.
  done.
Qed.

Lemma keep_field_float lo hi x y :
  keep_field str_to_float lo hi x = Some y -> keep_field str_to_float lo hi y = Some y.
Proof.
  unfold keep_field. destruct (py_float str_to_float x) as [v|]; [|done].
  destruct (in_range lo hi v) eqn:Hr; [|done]. intros [= <-]. simpl. by rewrite Hr.
Qed.

Lemma keep_field_is_float lo hi x y :
  keep_field str_to_float lo hi x = Some y -> exists v, y = PFloat v.
Proof.
  unfold keep_field. destruct (py_float str_to_float x) as [v|]; [|done].
  destruct (in_range lo hi v); [|done]. intros [= <-]. by exists v.
Qed.

Lemma validate_fields_total fields : forall data acc,
  (forall f lo hi x, In (f, (lo, hi)) fields -> data !! f = Some x ->
                     exists v, x = PFloat v) ->
  exists out, validate_fields str_to_float fields data acc = Return out.
Proof.
  induction fields as [|[f [lo hi]] rest IH]; intros data acc Hfl; simpl.
  - by exists acc.
  - assert (exists acc1, validate_field str_to_float data acc (f, (lo, hi)) = Return acc1)
      as [acc1 ->].
    { unfold validate_field. destruct (data !! f) as [x|] eqn:Hx; [|by eexists].
      destruct (Hfl f lo hi x (or_introl eq_refl) Hx) as [v ->]. simpl.
      by eexists. }
    simpl. apply IH. intros g lo' hi' x Hin Hx.
    apply (Hfl g lo' hi' x); [by right|done].
Qed.

Lemma expected_again data node_id out k :
  (forall k, out !! k = expected str_to_float py_repr data node_id k) ->
  expected str_to_float py_repr out node_id k = out !! k.
Proof.
  intros Hout. rewrite (Hout k). unfold expected.
  case_decide as Hk1; [done|].
  case_decide as Hk2.
  - rewrite (Hout "nodeType"). unfold expected. simpl.
    by destruct (data !! "nodeType").
  - destruct (lookup_range k numeric_fields) as [[lo hi]|] eqn:Hr; [|done].
    rewrite (Hout k). unfold expected.
    rewrite !decide_False by done. rewrite Hr.
    destruct (data !! k) as [x|]; simpl; [|done].
    destruct (keep_field str_to_float lo hi x) as [y|] eqn:Hy; simpl; [|done].
    by apply keep_field_float in Hy.
Qed.

(** C8. Validation is idempotent: an accepted reading, validated again,
    is accepted and comes back identical (same node id, same type
    label, same measurement fields with the same values). *)
Theorem validate_idempotent data out :
  validate (PDict data) = Return (Some out) ->
  validate (PDict out) = Return (Some out).
Proof.
  intros Hacc.
  destruct (validate_accepts _ _ Hacc) as (raw & n & _ & _ & Hn & Hsz & Hout).
  assert (out !! "nodeId" = Some (PInt n)) as Hid by (by rewrite Hout).
  rewrite (validate_unfold out (PInt n) n Hid eq_refl Hn).
  destruct (validate_fields_total numeric_fields out (base py_repr out n)) as [v Hv].
  { intros f lo hi x Hin Hx.
    destruct (lookup_range_numeric _ _ _ Hin) as (Hr & Hf1 & Hf2).
    rewrite (Hout f) in Hx. unfold expected in Hx.
    rewrite !decide_False in Hx by done. rewrite Hr in Hx.
    destruct (data !! f) as [y|]; simpl in Hx; [|done].
    by apply keep_field_is_float in Hx. }
  rewrite Hv. cbn [rbind].
  assert (v = out) as ->.
  { apply map_eq. intros k.
    rewrite (validate_fields_expected _ _ _ k Hv). by apply (expected_again data). }
  by apply Nat.ltb_lt in Hsz as ->.
Qed.


(** C4. In an accepted reading, each of the eight measurement fields
    holds the float of the input value when that float lies in the
    declared range of the field ([0, 10000] for the six pollutants,
    [-50, 100] for [temp], [0, 100] for [humidity]), and is absent when
    the input value is out of range, not numeric, or missing.  An integer
    input in range is kept as the float equal to it. *)
Theorem validate_range data out f lo hi :
  validate (PDict data) = Return (Some out) ->
  In (f, (lo, hi)) numeric_fields ->
  (forall x v, data !! f = Some x -> py_float str_to_float x = Return v ->
               in_range lo hi v = true -> out !! f = Some (PFloat v)) /\
  (forall x v, data !! f = Some x -> py_float str_to_float x = Return v ->
               in_range lo hi v = false -> out !! f = None) /\
  (forall x e, data !! f = Some x -> py_float str_to_float x = Raise e ->
               out !! f = None) /\
  (data !! f = None -> out !! f = None) /\
  (forall z v, data !! f = Some (PInt z) -> -50 <= z <= 10000 ->
               out !! f = Some (PFloat v) -> float_trunc v = Return z).
Proof.
  intros Hacc Hin.
  destruct (validate_accepts _ _ Hacc) as (raw & n & _ & _ & _ & _ & Hout).
  destruct (lookup_range_numeric _ _ _ Hin) as (Hr & Hf1 & Hf2).
  assert (out !! f = data !! f ≫= keep_field str_to_float lo hi) as Hf.
  { rewrite (Hout f). unfold expected. rewrite !decide_False by done. by rewrite Hr. }
  rewrite Hf. unfold keep_field.
  split; [|split; [|split; [|split]]].
  - intros x v -> Hv Hrg. simpl. by rewrite Hv, Hrg.
  - intros x v -> Hv Hrg. simpl. by rewrite Hv, Hrg.
  - intros x e -> He. simpl. by rewrite He.
  - by intros ->.
  - intros z v -> Hz. simpl.
    destruct (is_inf (float_of_Z z)); [done|].
    destruct (in_range lo hi (float_of_Z z)); [|done].
    intros [= <-]. by apply int_in_range_exact.
Qed.

(** What the validator returns has the shape of a reading. *)
Lemma validate_reading_like data out :
  validate (PDict data) = Return (Some out) -> reading_like out.
Proof.
  intros Hacc.
  destruct (validate_accepts _ _ Hacc) as (raw & n & _ & _ & _ & _ & Hout).
  split.
  - intros f lo hi x Hin Hx.
    destruct (lookup_range_numeric _ _ _ Hin) as (Hr & Hf1 & Hf2).
    rewrite (Hout f) in Hx. unfold expected in Hx.
    rewrite !decide_False in Hx by done. rewrite Hr in Hx.
    destruct (data !! f) as [y|]; simpl in Hx; [|done].
    by apply keep_field_is_float in Hx.
  - intros t Ht. rewrite (Hout "nodeType") in Ht. unfold expected in Ht.
    simpl in Ht. destruct (data !! "nodeType") as [t0|]; simpl in Ht; [|done].
    injection Ht as <-. by eexists.
Qed.
End ValidatorFacts.


Lemma frame_good_accepted stf sti repr :
  validate_sensor_data stf sti repr (PDict frame_good) = Return (Some reading_good).
Proof. vm_compute. reflexivity. Qed.




Lemma validate_range_witness :
  reading_good !! "pm25" = Some (PFloat 45.5%float).
Proof.
  apply (proj1 (validate_range no_float_parser no_int_parser no_repr
                  frame_good reading_good "pm25" 0 10000
                  (frame_good_accepted _ _ _)
                  (or_introl eq_refl)) (PFloat 45.5%float) 45.5%float);
    reflexivity.
Defined.

Lemma validate_idempotent_witness :
  validate_sensor_data no_float_parser no_int_parser no_repr (PDict reading_good)
  = Return (Some reading_good).
Proof.
  apply (validate_idempotent no_float_parser no_int_parser no_repr frame_good).
  apply frame_good_accepted.
Defined.

(* ===================================================================== *)
(** ** What the reader thread emits                                      *)
(* ===================================================================== *)

Section ReaderFacts.
Variable str_to_float : string -> option float.
Variable str_to_int : string -> option Z.
Variable py_repr : pyval -> string.
Variable json_loads : string -> option dict.

Let validate := validate_sensor_data str_to_float str_to_int py_repr.

Lemma emit_nodes_validated nodes v :
  v ∈ (emit_nodes str_to_float str_to_int py_repr nodes).1 ->
  exists node, node ∈ nodes /\ validate node = Return (Some v).
Proof.
  induction nodes as [|node rest IH]; simpl; [by intros ?%not_elem_of_nil|].
  destruct (validate_sensor_data str_to_float str_to_int py_repr node)
    as [[r|]|e] eqn:Hv; simpl.
  - destruct (emit_nodes str_to_float str_to_int py_repr rest) as [emitted res].
    simpl in *. intros [->|Hin]%elem_of_cons.
    + exists node. split; [apply list_elem_of_here|done].
    + destruct (IH Hin) as (n & Hn & Hvn). exists n.
      split; [by apply list_elem_of_further|done].
  - destruct (emit_nodes str_to_float str_to_int py_repr rest) as [emitted res].
    simpl in *. intros Hin. destruct (IH Hin) as (n & Hn & Hvn). exists n.
    split; [by apply list_elem_of_further|done].
  - by intros ?%not_elem_of_nil.
Qed.

(** Every dict sent through [data_received] is a result of the validator:
    it carries an [int] node id between 1 and 3 and has the shape of a
    reading.  This is the payload [handle_data] is modelled on. *)
Lemma process_line_emits_readings line v :
  v ∈ (process_line str_to_float str_to_int py_repr json_loads line).1 ->
  (exists node_id, v !! "nodeId" = Some (PInt node_id) /\ 1 <= node_id <= 3) /\
  reading_like v.
Proof.
  intros Hin.
  assert (exists x, validate x = Return (Some v)) as [x Hx].
  { unfold process_line in Hin.
    destruct (extract_json_str line) as [json_str|]; [|by apply not_elem_of_nil in Hin].
    destruct (json_loads json_str) as [data|]; [|by apply not_elem_of_nil in Hin].
    destruct (data !! "nodes") as [nodes|].
    - destruct (py_iter nodes) as [items|e]; [|by apply not_elem_of_nil in Hin].
      pose proof (emit_nodes_validated items v) as Hem.
      destruct (emit_nodes str_to_float str_to_int py_repr items) as [emitted res].
      simpl in *. destruct (Hem Hin) as (n & _ & Hn). by exists n.
    - destruct (data !! "nodeId"); [|by apply not_elem_of_nil in Hin].
      destruct (validate_sensor_data str_to_float str_to_int py_repr (PDict data))
        as [[r|]|e] eqn:Hv; simpl in Hin.
      + apply list_elem_of_singleton in Hin as ->. by exists (PDict data).
      + by apply not_elem_of_nil in Hin.
      + destruct e; by apply not_elem_of_nil in Hin. }
  destruct x as [| | | | | |d]; try done.
  split; [|by apply (validate_reading_like str_to_float str_to_int py_repr d)].
  destruct (validate_accepts _ _ _ _ _ Hx) as (raw & n & _ & _ & Hn & _ & Hout).
  exists n. split; [|done]. by rewrite (Hout "nodeId").
Qed.

End ReaderFacts.

(** Scenario B of the specification: node id 7 is rejected. *)
Lemma node_seven_rejected stf sti repr :
  validate_sensor_data stf sti repr
    (PDict (<["nodeId" := PInt 7]> (<["pm25" := PInt 10]> ∅))) = Return None.
Proof. reflexivity. Qed.

(* ===================================================================== *)
(** ** The frame extractor                                               *)
(* ===================================================================== *)

Lemma string_app_cons x a b : String x a +:+ b = String x (a +:+ b).
Proof. reflexivity. Qed.

Lemma string_app_nil b : "" +:+ b = b.
Proof. reflexivity. Qed.

Lemma str_contains_app c a b :
  str_contains c (a +:+ b) = str_contains c a || str_contains c b.
Proof.
  induction a as [|x a IH]; simpl; [done|]. rewrite IH. by rewrite orb_assoc.
Qed.

Lemma str_index_split c s i :
  str_index c s = Some i ->
  exists pre rest,
    s = pre +:+ String c rest /\ String.length pre = i /\ str_contains c pre = false.
Proof.
  revert i. induction s as [|a s IH]; intros i; simpl; [done|].
  destruct (Ascii.eqb a c) eqn:Hac.
  - intros [= <-]. apply Ascii.eqb_eq in Hac as ->. by exists "", s.
  - destruct (str_index c s) as [i'|]; simpl; [|done]. intros [= <-].
    destruct (IH i' eq_refl) as (pre & rest & -> & Hlen & Hno).
    exists (String a pre), rest. simpl. rewrite Hac, Hno, Hlen. done.
Qed.

Lemma str_rindex_split c s j :
  str_rindex c s = Some j ->
  exists pre post,
    s = pre +:+ String c post /\ String.length pre = j /\ str_contains c post = false.
Proof.
  revert j. induction s as [|a s IH]; intros j; simpl; [done|].
  destruct (str_rindex c s) as [j'|] eqn:Hr.
  - intros [= <-]. destruct (IH j' eq_refl) as (pre & post & -> & Hlen & Hno).
    exists (String a pre), post. simpl. by rewrite Hlen.
  - destruct (Ascii.eqb a c) eqn:Hac; [|done]. intros [= <-].
    apply Ascii.eqb_eq in Hac as ->. exists "", s. repeat split.
    clear IH. induction s as [|b s IHs]; simpl in *; [done|].
    destruct (str_rindex c s); [done|].
    destruct (Ascii.eqb b c); [done|]. simpl. by apply IHs.
Qed.

Lemma str_contains_index c s :
  str_contains c s = true -> exists i, str_index c s = Some i.
Proof.
  induction s as [|a s IH]; simpl; [done|].
  destruct (Ascii.eqb a c); simpl; [by eexists|].
  intros H. destruct (IH H) as [i ->]. by eexists.
Qed.

Lemma str_contains_rindex c s :
  str_contains c s = true -> exists j, str_rindex c s = Some j.
Proof.
  induction s as [|a s IH]; simpl; [done|].
  destruct (str_rindex c s) as [j|]; [by eexists|].
  destruct (Ascii.eqb a c); simpl; [by eexists|].
  intros H. by destruct (IH H).
Qed.

Lemma substring_skip pre n s :
  substring (String.length pre) n (pre +:+ s) = substring 0 n s.
Proof. induction pre as [|a pre IH]; simpl; [done|]. exact IH. Qed.

Lemma substring_prefix a b :
  substring 0 (String.length a) (a +:+ b) = a.
Proof.
  induction a as [|x a IH]; simpl.
  - by destruct b.
  - by rewrite IH.
Qed.

Lemma substring_zero_len n s : substring n 0 s = "".
Proof.
  revert n. induction s as [|a s IH]; intros [|n]; simpl; done.
Qed.

Lemma string_app_length a b :
  String.length (a +:+ b) = (String.length a + String.length b)%nat.
Proof. induction a as [|x a IH]; simpl; [done|]. by rewrite IH. Qed.

Lemma string_app_assoc a b c : (a +:+ b) +:+ c = a +:+ (b +:+ c).
Proof.
  induction a as [|x a IH]; [done|].
  rewrite !string_app_cons. by rewrite IH.
Qed.

(** Two ways of cutting the same text: the shorter head is a head of the
    longer one. *)
Lemma string_app_eq_app a b c d :
  a +:+ b = c +:+ d ->
  (String.length a <= String.length c)%nat ->
  exists m, c = a +:+ m /\ b = m +:+ d.
Proof.
  revert c. induction a as [|x a IH]; intros c.
  - rewrite string_app_nil. intros -> _. by exists c.
  - destruct c as [|y c]; [simpl; lia|].
    rewrite !string_app_cons. intros [= <- H] Hlen. simpl in Hlen.
    destruct (IH c H ltac:(lia)) as (m & -> & ->).
    by exists m.
Qed.

Lemma str_split_distinct a c1 r1 b c2 r2 :
  a +:+ String c1 r1 = b +:+ String c2 r2 ->
  String.length a = String.length b -> c1 = c2.
Proof.
  revert b. induction a as [|x a IH]; intros [|y b]; simpl; try done.
  - rewrite !string_app_nil. by intros [= -> _].
  - rewrite !string_app_cons. intros [= _ H] [= Hl]. by apply (IH b).
Qed.

Lemma str_index_app c pre rest :
  str_contains c pre = false ->
  str_index c (pre +:+ String c rest) = Some (String.length pre).
Proof.
  induction pre as [|a pre IH].
  - intros _. rewrite string_app_nil. simpl. by rewrite Ascii.eqb_refl.
  - rewrite string_app_cons. simpl. destruct (Ascii.eqb a c); [done|]. simpl.
    intros H. by rewrite (IH H).
Qed.

Lemma str_rindex_none c s : str_contains c s = false -> str_rindex c s = None.
Proof.
  induction s as [|a s IH]; simpl; [done|].
  destruct (Ascii.eqb a c); [done|]. simpl. intros H. by rewrite (IH H).
Qed.

Lemma str_rindex_app c pre post :
  str_contains c post = false ->
  str_rindex c (pre +:+ String c post) = Some (String.length pre).
Proof.
  intros Hpost. induction pre as [|a pre IH].
  - rewrite string_app_nil. simpl. rewrite (str_rindex_none _ _ Hpost).
    by rewrite Ascii.eqb_refl.
  - rewrite string_app_cons. simpl. by rewrite IH.
Qed.

Lemma str_contains_app_r c a b :
  str_contains c b = true -> str_contains c (a +:+ b) = true.
Proof. intros H. rewrite str_contains_app, H. apply orb_true_r. Qed.

(** A line cut as [pre ++ frame ++ post], the frame delimited, no opening
    delimiter before it and no closing delimiter after it: the candidate is
    the frame. *)
Lemma extract_delimited pre mid post :
  str_contains open_brace pre = false ->
  str_contains close_brace post = false ->
  extract_json_str (pre +:+ (String open_brace mid +:+ String close_brace "") +:+ post)
  = Some (String open_brace mid +:+ String close_brace "").
Proof.
  intros Hpre Hpost. unfold extract_json_str.
  set (line := pre +:+ (String open_brace mid +:+ String close_brace "") +:+ post).
  assert (line = pre +:+ String open_brace (mid +:+ String close_brace post)) as E1.
  { subst line. rewrite string_app_assoc. reflexivity. }
  assert (line = (pre +:+ String open_brace mid) +:+ String close_brace post) as E2.
  { subst line. rewrite !string_app_assoc. reflexivity. }
  assert (str_index open_brace line = Some (String.length pre)) as Hi
    by (rewrite E1; by apply str_index_app).
  assert (str_rindex close_brace line = Some (String.length (pre +:+ String open_brace mid)))
    as Hj by (rewrite E2; by apply str_rindex_app).
  assert (str_contains open_brace line = true) as ->.
  { rewrite E1. by apply str_contains_app_r. }
  assert (str_contains close_brace line = true) as ->.
  { rewrite E2. by apply str_contains_app_r. }
  simpl. rewrite Hi, Hj. f_equal. unfold str_slice.
  subst line. rewrite substring_skip.
  assert (S (String.length (pre +:+ String open_brace mid)) - String.length pre =
          String.length (String open_brace mid +:+ String close_brace ""))%nat as ->.
  { rewrite !string_app_length. simpl. lia. }
  apply substring_prefix.
Qed.

Lemma scan_balanced_split s : forall depth frame,
  scan_balanced depth s = Some frame ->
  exists body post,
    frame = body +:+ String close_brace "" /\ s = frame +:+ post.
Proof.
  induction s as [|a s IH]; intros depth frame; simpl; [done|].
  destruct (Ascii.eqb a close_brace) eqn:Hc.
  - apply Ascii.eqb_eq in Hc as ->. destruct depth as [|d].
    + intros [= <-]. by exists "", s.
    + destruct (scan_balanced d s) as [f|] eqn:Hf; simpl; [|done]. intros [= <-].
      destruct (IH d f Hf) as (body & post & -> & ->).
      by exists (String close_brace body), post.
  - destruct (Ascii.eqb a open_brace).
    + destruct (scan_balanced (S depth) s) as [f|] eqn:Hf; simpl; [|done].
      intros [= <-]. destruct (IH _ f Hf) as (body & post & -> & ->).
      by exists (String a body), post.
    + destruct (scan_balanced depth s) as [f|] eqn:Hf; simpl; [|done].
      intros [= <-]. destruct (IH _ f Hf) as (body & post & -> & ->).
      by exists (String a body), post.
Qed.

Lemma first_balanced_frame_split s frame :
  first_balanced_frame s = Some frame ->
  exists pre mid post,
    s = pre +:+ frame +:+ post /\
    frame = String open_brace mid +:+ String close_brace "" /\
    str_contains open_brace pre = false.
Proof.
  revert frame. induction s as [|a s IH]; intros frame; simpl; [done|].
  destruct (Ascii.eqb a open_brace) eqn:Ho.
  - apply Ascii.eqb_eq in Ho as ->.
    destruct (scan_balanced 0 s) as [f|] eqn:Hf; simpl; [|done]. intros [= <-].
    destruct (scan_balanced_split s 0 f Hf) as (body & post & -> & ->).
    by exists "", body, post.
  - intros Hf. destruct (IH frame Hf) as (pre & mid & post & -> & -> & Hpre).
    exists (String a pre), mid, post. simpl. by rewrite Ho, Hpre.
Qed.

(** Where no closing delimiter follows the first balanced frame, the
    candidate is that frame. *)
Lemma extract_single_frame line frame :
  first_balanced_frame line = Some frame ->
  exists pre post,
    line = pre +:+ frame +:+ post /\
    str_contains open_brace pre = false /\
    (str_contains close_brace post = false -> extract_json_str line = Some frame).
Proof.
  intros Hf.
  destruct (first_balanced_frame_split _ _ Hf) as (pre & mid & post & -> & -> & Hpre).
  exists pre, post. split; [done|]. split; [done|].
  intros Hpost. by apply extract_delimited.
Qed.

(** C6 (amended). On a line with both delimiters the candidate handed to
    the parser runs from the first opening delimiter to the last closing
    delimiter, both included: the line is [pre ++ candidate ++ post] with
    no opening delimiter in [pre] and no closing delimiter in [post].  When
    the last closing delimiter comes before the first opening one the
    candidate is empty. *)
Theorem extract_first_open_to_last_close line :
  str_contains open_brace line = true ->
  str_contains close_brace line = true ->
  exists i j cand,
    str_index open_brace line = Some i /\
    str_rindex close_brace line = Some j /\
    extract_json_str line = Some cand /\
    ((i < j)%nat /\
       (exists pre mid post,
          line = pre +:+ cand +:+ post /\
          cand = String open_brace mid +:+ String close_brace "" /\
          String.length pre = i /\
          str_contains open_brace pre = false /\
          str_contains close_brace post = false)
     \/ (j < i)%nat /\ cand = "").
Proof.
  intros Ho Hc. unfold extract_json_str. rewrite Ho, Hc. simpl.
  destruct (str_contains_index _ _ Ho) as [i Hi].
  destruct (str_contains_rindex _ _ Hc) as [j Hj].
  rewrite Hi, Hj. exists i, j, (str_slice i (S j) line).
  split; [done|]. split; [done|]. split; [done|].
  destruct (str_index_split _ _ _ Hi) as (pre1 & rest1 & E1 & L1 & N1).
  destruct (str_rindex_split _ _ _ Hj) as (pre2 & post2 & E2 & L2 & N2).
  destruct (lt_eq_lt_dec i j) as [[Hlt|Heq]|Hgt].
  - left. split; [done|].
    assert (pre1 +:+ String open_brace rest1 = pre2 +:+ String close_brace post2) as E
      by congruence.
    destruct (string_app_eq_app _ _ _ _ E ltac:(lia)) as (m & Em & Er).
    destruct m as [|x mid].
    { rewrite Em, string_app_length in L2. simpl in L2. lia. }
    simpl in Er. injection Er as <- Er.
    exists pre1, mid, post2.
    assert (str_slice i (S j) line = String open_brace mid +:+ String close_brace "") as Ecand.
    { unfold str_slice. rewrite E1, <- L1, substring_skip, Er.
      assert (S j - String.length pre1 = String.length (String open_brace mid +:+ String close_brace ""))%nat
        as ->.
      { rewrite string_app_length. simpl.
        rewrite Em, string_app_length in L2. simpl in L2. lia. }
      change (String open_brace (mid +:+ String close_brace post2))
        with (String open_brace mid +:+ (String close_brace "" +:+ post2)).
      rewrite <- string_app_assoc. apply substring_prefix. }
    rewrite Ecand. repeat split; try done.
    rewrite E2, Em. rewrite !string_app_assoc. reflexivity.
  - exfalso. subst j.
    assert (open_brace = close_brace) as Habs; [|done].
    apply (str_split_distinct pre1 _ rest1 pre2 _ post2); congruence.
  - right. split; [done|]. unfold str_slice.
    assert (S j - i = 0)%nat as -> by lia. apply substring_zero_len.
Qed.

(** C6, counterexample: two frames on one line.  The candidate is the
    whole line, not the first balanced frame. *)
Lemma extract_spans_two_frames :
  str_contains open_brace "{}{}" = true /\
  str_contains close_brace "{}{}" = true /\
  first_balanced_frame "{}{}" = Some "{}" /\
  extract_json_str "{}{}" = Some "{}{}".
Proof. vm_compute. repeat split; reflexivity. Qed.


Lemma extract_first_open_to_last_close_witness :
  exists i j cand,
    str_index open_brace "x{}y" = Some i /\
    str_rindex close_brace "x{}y" = Some j /\
    extract_json_str "x{}y" = Some cand /\
    ((i < j)%nat /\
       (exists pre mid post,
          "x{}y" = pre +:+ cand +:+ post /\
          cand = String open_brace mid +:+ String close_brace "" /\
          String.length pre = i /\
          str_contains open_brace pre = false /\
          str_contains close_brace post = false)
     \/ (j < i)%nat /\ cand = "").
Proof.
  apply (extract_first_open_to_last_close "x{}y"); reflexivity.
Defined.

(* ===================================================================== *)
(** ** The window: dispatch                                              *)
(* ===================================================================== *)

Lemma delivered_app evs1 evs2 :
  delivered (evs1 ++ evs2) = delivered evs1 ++ delivered evs2.
Proof.
  induction evs1 as [|e evs1 IH]; simpl; [done|].
  destruct e; simpl; by rewrite ?IH.
Qed.

(** C5 (amended). A widget that raises during the dispatch of a reading
    ends the dispatch: the widgets before it in the order of the calls
    have received the reading, the widgets after it have not, and the
    reading is not stored in [node_data].  When no widget raises, all four
    receive it in order and it is stored. *)
Theorem handle_data_stops_at_first_failure raises now data node_id w :
  data !! "nodeId" = Some (PInt node_id) ->
  1 <= node_id <= 3 ->
  is_Some (node_widgets w !! node_id) ->
  let '(r, w') := handle_data raises now data w in
  delivered (calls w') = delivered (calls w) ++ served raises consumers /\
  (if forallb (fun c => negb (raises c)) consumers
   then r = Return tt /\
        node_data w' = dict_set node_id (mkNodeInfo data now) (node_data w)
   else r = Raise RuntimeError /\ node_data w' = node_data w).
Proof.
  intros Hid Hn [lbl Hw]. unfold handle_data. rewrite Hid.
  assert ((1 <=? node_id) = true) as -> by lia.
  assert ((node_id <=? 3) = true) as -> by lia.
  cbn [andb]. unfold bind, update_data. rewrite Hw.
  destruct (raises NodeWidget) eqn:H1; simpl; rewrite ?H1; simpl.
  { by rewrite app_nil_r. }
  destruct (raises GraphWidget) eqn:H2; simpl.
  { by rewrite delivered_app. }
  destruct (raises InfographicsWidget) eqn:H3; simpl.
  { by rewrite !delivered_app, <- !app_assoc. }
  destruct (raises GeneralUserDashboard) eqn:H4; simpl.
  { by rewrite !delivered_app, <- !app_assoc. }
  destruct (node_status_labels w !! node_id); simpl;
    rewrite !delivered_app, <- !app_assoc; done.
Qed.


(* ===================================================================== *)
(** ** The window: the offline sweep                                     *)
(* ===================================================================== *)

Lemma offline_calls_app n evs1 evs2 :
  offline_calls n (evs1 ++ evs2) = (offline_calls n evs1 + offline_calls n evs2)%nat.
Proof.
  induction evs1 as [|e evs1 IH]; simpl; [done|].
  destruct e; simpl; try done. destruct (_ =? _); simpl; by rewrite IH.
Qed.

Lemma sweep_node_spec now k info w n :
  is_Some (node_widgets w !! n) ->
  let w' := (sweep_node now (k, info) w).2 in
  (sweep_node now (k, info) w).1 = Return tt /\
  node_data w' = node_data w /\
  current_tab w' = current_tab w /\
  is_Some (node_widgets w' !! n) /\
  offline_calls n (calls w') =
    (offline_calls n (calls w) + count_overdue n now [(k, info)])%nat.
Proof.
  intros Hw. unfold sweep_node. simpl.
  destruct (offline_timeout <? now - info_timestamp info) eqn:Hdue; simpl.
  2: { rewrite andb_false_r. simpl. repeat split; try done; lia. }
  rewrite andb_true_r.
  destruct (decide (k = n)) as [->|Hne].
  - rewrite Z.eqb_refl. destruct Hw as [lbl Hw]. rewrite Hw. simpl.
    destruct (node_status_labels w !! n); simpl;
      (repeat split; try done; [by rewrite lookup_insert_eq|]);
      rewrite ?offline_calls_app; simpl; rewrite ?Z.eqb_refl; lia.
  - assert ((k =? n) = false) as Hkn by lia. rewrite Hkn. simpl.
    destruct (node_widgets w !! k) as [lbl|] eqn:Hk; simpl;
      destruct (node_status_labels w !! k); simpl;
      (repeat split; try done; rewrite ?lookup_insert_ne by done; try done);
      rewrite ?offline_calls_app; simpl; rewrite ?Hkn; lia.
Qed.

Lemma sweep_all_spec now n d : forall w,
  is_Some (node_widgets w !! n) ->
  let w' := (for_each d (sweep_node now) w).2 in
  (for_each d (sweep_node now) w).1 = Return tt /\
  node_data w' = node_data w /\
  current_tab w' = current_tab w /\
  is_Some (node_widgets w' !! n) /\
  offline_calls n (calls w') = (offline_calls n (calls w) + count_overdue n now d)%nat.
Proof.
  induction d as [|[k info] rest IH]; intros w Hw.
  - simpl. repeat split; try done; lia.
  - rewrite for_each_cons.
    destruct (sweep_node_spec now k info w n Hw) as (Hr & Hnd & Htab & Hw1 & Hc).
    destruct (sweep_node now (k, info) w) as [r w1]. simpl in *. subst r.
    destruct (IH w1 Hw1) as (Hr' & Hnd' & Htab' & Hw2 & Hc').
    repeat split; try done; try congruence.
    rewrite Hc', Hc. simpl. lia.
Qed.

Lemma count_overdue_unique n now d info :
  NoDup d.*1 ->
  dict_get n d = Some info ->
  count_overdue n now d =
    if offline_timeout <? now - info_timestamp info then 1%nat else 0%nat.
Proof.
  induction d as [|[k i] rest IH]; simpl; [done|].
  intros Hnd. apply NoDup_cons in Hnd as [Hk Hnd].
  rewrite (Z.eqb_sym n k).
  destruct (k =? n) eqn:Hkn; simpl.
  - intros [= ->]. apply Z.eqb_eq in Hkn as ->.
    assert (count_overdue n now rest = 0%nat) as ->.
    { clear -Hk. induction rest as [|[k' i'] rest IH]; simpl; [done|].
      assert ((k' =? n) = false) as ->.
      { apply Z.eqb_neq. intros ->. apply Hk. simpl. apply list_elem_of_here. }
      simpl. apply IH. intros Hin. apply Hk. simpl. by apply list_elem_of_further. }
    destruct (_ <? _); lia.
  - intros Hget. by apply IH.
Qed.

Section SweepFacts.
Variable sql_ok : nat -> bool.
Variable str_to_float : string -> option float.

Lemma update_all_spec st_size now w n :
  is_Some (node_widgets w !! n) ->
  let w' := (update_all sql_ok true st_size now w).2 in
  (update_all sql_ok true st_size now w).1 = Return tt /\
  node_data w' = node_data w /\
  is_Some (node_widgets w' !! n) /\
  offline_calls n (calls w') =
    (offline_calls n (calls w) + count_overdue n now (node_data w))%nat.
Proof.
  intros Hw. unfold update_all, bind. cbn beta iota.
  set (w1 := if current_tab w =? 6
             then (refresh_database_view sql_ok st_size w).2 else w).
  assert ((if current_tab w =? 6 then refresh_database_view sql_ok st_size w
           else (Return tt, w)) = (Return tt, w1)) as ->.
  { subst w1. by destruct (current_tab w =? 6). }
  assert (node_data w1 = node_data w /\ node_widgets w1 = node_widgets w /\
          calls w1 = calls w) as (Hnd & Hnw & Hc).
  { subst w1. by destruct (current_tab w =? 6). }
  assert (is_Some (node_widgets w1 !! n)) as Hw1 by (by rewrite Hnw).
  destruct (sweep_all_spec now n (node_data w1) w1 Hw1) as (Hr & Hnd' & _ & Hw2 & Hc').
  split; [done|]. split; [congruence|]. split; [done|].
  by rewrite Hc', Hc, Hnd.
Qed.

(** C2 (amended). Every sweep that finds the last reading of a node more
    than 60 seconds old calls [set_offline()] on the widget of that node,
    whatever the widget shows at that moment; a sweep that finds it at
    most 60 seconds old does not.  So over a series of sweeps with no
    reading in between, the number of offline calls is the number of
    sweeps past the timeout. *)
Theorem offline_call_on_every_overdue_sweep st_size (nows : list Z) : forall w n info,
  dict_get n (node_data w) = Some info ->
  NoDup (node_data w).*1 ->
  is_Some (node_widgets w !! n) ->
  let inputs := (fun now => UpdateTimer true st_size now) <$> nows in
  let w' := (run sql_ok str_to_float inputs w).2 in
  offline_calls n (calls w') =
    (offline_calls n (calls w) +
     length (filter (fun now => (offline_timeout < now - info_timestamp info)%Z) nows))%nat.
Proof.
  induction nows as [|now nows IH]; intros w n info Hget Hnd Hw; cbv zeta.
  - simpl. lia.
  - unfold run. rewrite fmap_cons, for_each_cons. cbn [step].
    destruct (update_all_spec st_size now w n Hw) as (Hr & Hnd1 & Hw1 & Hc).
    destruct (update_all sql_ok true st_size now w) as [r w1]. simpl in *. subst r.
    fold (run sql_ok str_to_float ((fun now => UpdateTimer true st_size now) <$> nows)).
    rewrite (IH w1 n info); [|congruence..|done].
    rewrite Hc, (count_overdue_unique n now _ info Hnd Hget).
    rewrite filter_cons. case_decide as Hdue.
    + assert ((offline_timeout <? now - info_timestamp info) = true) as -> by lia.
      simpl. lia.
    + assert ((offline_timeout <? now - info_timestamp info) = false) as -> by lia.
      lia.
Qed.
End SweepFacts.

(* ===================================================================== *)
(** ** The window: the throttled save                                    *)
(* ===================================================================== *)

Lemma successful_writes_app n evs1 evs2 :
  successful_writes n (evs1 ++ evs2) =
    successful_writes n evs1 ++ successful_writes n evs2.
Proof.
  induction evs1 as [|e evs1 IH]; simpl; [done|].
  destruct e as [| | |k d t [[]|]]; simpl; try done.
  destruct (k =? n); simpl; by rewrite IH.
Qed.


Lemma save_interval_pos : 0 < save_interval.
Proof. by vm_compute. Qed.

Lemma spaced_snoc l t :
  spaced l ->
  (forall t0, last l = Some t0 -> t0 + save_interval <= t) ->
  spaced (l ++ [t]).
Proof.
  intros Hl Hlast i j t1 t2 Hij Hi Hj.
  pose proof save_interval_pos as Hpos.
  destruct (decide (j < length l)%nat) as [Hjl|Hjl].
  - rewrite lookup_app_l in Hi by lia. rewrite lookup_app_l in Hj by lia.
    by apply (Hl i j).
  - assert (j = length l) as ->.
    { apply lookup_lt_Some in Hj. rewrite length_app in Hj. simpl in Hj. lia. }
    rewrite lookup_app_l in Hi by lia.
    rewrite list_lookup_middle in Hj by done. injection Hj as <-.
    destruct (last l) as [t0|] eqn:Hlst.
    + specialize (Hlast t0 eq_refl). rewrite last_lookup in Hlst.
      destruct (decide (i = pred (length l))) as [->|Hne].
      * rewrite Hlst in Hi. injection Hi as <-. lia.
      * specialize (Hl i (pred (length l)) t1 t0 ltac:(lia) Hi Hlst). lia.
    + apply last_None in Hlst. subst l. simpl in Hij. lia.
Qed.

#[export] Instance same_saves_preorder : PreOrder same_saves.
Proof.
  split.
  - by intros w.
  - intros w1 w2 w3 [H1 H1'] [H2 H2']. split; [congruence|].
    intros n. by rewrite H2', H1'.
Qed.

Lemma saves_update_data raises c n data : steady same_saves (update_data raises c n data).
Proof.
  intros w. unfold same_saves, update_data. destruct (raises c); [done|]. simpl.
  destruct c; simpl; try (destruct (node_status_labels w !! n); simpl);
    (split; [done|]); intros k; rewrite successful_writes_app; simpl;
    by rewrite app_nil_r.
Qed.

Lemma saves_handle_data raises now data : steady same_saves (handle_data raises now data).
Proof.
  unfold handle_data.
  destruct (data !! "nodeId") as [[| | node_id| | | |]|]; try apply (steady_ret same_saves).
  destruct ((1 <=? node_id) && (node_id <=? 3)); [|apply (steady_ret same_saves)].
  apply (steady_bind same_saves).
  { intros w. destruct (node_widgets w !! node_id); [apply saves_update_data|done]. }
  intros _. repeat (apply (steady_bind same_saves); [apply saves_update_data|intros _]).
  by intros w.
Qed.

Lemma saves_sweep_node now e : steady same_saves (sweep_node now e).
Proof.
  intros w. destruct e as [k info]. unfold same_saves, sweep_node.
  destruct (offline_timeout <? now - info_timestamp info); [|done]. simpl.
  destruct (node_widgets w !! k); simpl;
    destruct (node_status_labels w !! k); simpl;
    (split; [done|]); intros n; rewrite ?successful_writes_app; simpl;
    by rewrite ?app_nil_r.
Qed.


Section SaveFacts.
Variable sql_ok : nat -> bool.
Variable str_to_float : string -> option float.

Lemma saves_update_all render_ok st_size now :
  steady same_saves (update_all sql_ok render_ok st_size now).
Proof.
  unfold update_all.
  apply (steady_bind same_saves); [intros w; by destruct render_ok|intros _].
  apply (steady_bind same_saves); [intros w; by destruct (current_tab w =? 6)|intros _].
  intros w. apply (steady_for_each same_saves). intros e. apply saves_sweep_node.
Qed.

Lemma throttle_inv_steady {A : Type} (p : prog MainWindow A) w :
  steady same_saves p -> throttle_inv w -> throttle_inv (p w).2.
Proof.
  intros Hq Hinv n. destruct (Hq w) as [Hs Hc]. destruct (Hinv n) as [Hsp Hl].
  unfold cursor. rewrite Hs, Hc. done.
Qed.

(** What one turn of the loop of [check_db_save] does to the cursor and
    to the record of insert calls. *)
Lemma save_node_spec current_time ts node_id node_info w last_save :
  last_db_save w !! node_id = Some last_save ->
  let r := (insert_sensor_data sql_ok str_to_float ts node_id
              (info_data node_info) (db_manager w)).1 in
  let w' := (save_node sql_ok str_to_float current_time ts (node_id, node_info) w).2 in
  if save_due last_save current_time then
    calls w' = calls w ++
               [InsertSensorData node_id (info_data node_info) current_time r] /\
    last_db_save w' =
      match r with
      | Return true => <[node_id := Some current_time]> (last_db_save w)
      | _ => last_db_save w
      end
  else w' = w.
Proof.
  intros Hlast. cbv zeta. unfold save_node. rewrite Hlast.
  destruct (save_due last_save current_time); [|done].
  destruct (insert_sensor_data sql_ok str_to_float ts node_id
              (info_data node_info) (db_manager w)) as [[[]|e] m']; simpl; done.
Qed.

Lemma throttle_inv_save_node current_time ts entry w :
  throttle_inv w ->
  throttle_inv (save_node sql_ok str_to_float current_time ts entry w).2.
Proof.
  intros Hinv. destruct entry as [node_id node_info].
  destruct (last_db_save w !! node_id) as [last_save|] eqn:Hlast.
  2: { unfold save_node. by rewrite Hlast. }
  pose proof (save_node_spec current_time ts node_id node_info w last_save Hlast) as Hspec.
  cbv zeta in Hspec.
  destruct (save_due last_save current_time) eqn:Hdue; [|by rewrite Hspec].
  destruct Hspec as [Hc Hs].
  set (r := (insert_sensor_data sql_ok str_to_float ts node_id
               (info_data node_info) (db_manager w)).1) in *.
  intros n. destruct (Hinv n) as [Hsp Hl]. unfold cursor in *.
  rewrite Hc, Hs, successful_writes_app.
  destruct r as [[]|e]; simpl; rewrite ?app_nil_r; try done.
  destruct (node_id =? n) eqn:Hn.
  - apply Z.eqb_eq in Hn as ->. rewrite lookup_insert_eq. split.
    + apply spaced_snoc; [done|]. intros t0 Ht0. rewrite Hl, Hlast in Ht0.
      destruct last_save as [t|]; [|done]. injection Ht0 as ->.
      unfold save_due in Hdue. lia.
    + by rewrite last_snoc.
  - rewrite app_nil_r. rewrite lookup_insert_ne by lia. done.
Qed.

Lemma throttle_inv_step i w :
  throttle_inv w -> throttle_inv (step sql_ok str_to_float i w).2.
Proof.
  intros Hinv. destruct i as [raises now data|current_time ts|render_ok st_size now|index].
  - apply throttle_inv_steady; [apply saves_handle_data|done].
  - unfold step, check_db_save.
    apply (for_each_preserves throttle_inv); [|done].
    intros e s. apply throttle_inv_save_node.
  - apply throttle_inv_steady; [apply saves_update_all|done].
  - done.
Qed.

Lemma throttle_inv_run inputs w :
  throttle_inv w -> throttle_inv (run sql_ok str_to_float inputs w).2.
Proof.
  apply for_each_preserves. intros i s. apply throttle_inv_step.
Qed.

Lemma throttle_inv_init m : throttle_inv (MainWindow_init m).
Proof. intros n. split; [by intros i j t1 t2 _ Hi|]. simpl. unfold cursor. simpl.
  destruct (decide (n = 1)) as [->|?]; [done|].
  destruct (decide (n = 2)) as [->|?]; [done|].
  destruct (decide (n = 3)) as [->|?]; [done|].
  by rewrite !lookup_insert_ne by done.
Qed.

(** C3. In every run of the window from its initial state, two
    successful saves of the same node are at least five seconds apart;
    the persistence tick calls [insert_sensor_data] for a node only when
    its cursor is unset or at least five seconds old, and moves the
    cursor only when the call returns [True]. *)
Theorem saves_five_seconds_apart :
  (forall m inputs n (i j : nat) t1 t2,
     let w := (run sql_ok str_to_float inputs (MainWindow_init m)).2 in
     (i < j)%nat ->
     successful_writes n (calls w) !! i = Some t1 ->
     successful_writes n (calls w) !! j = Some t2 ->
     t1 + 5 * 1000000 <= t2) /\
  (forall current_time ts node_id node_info w last_save,
     last_db_save w !! node_id = Some last_save ->
     let r := (insert_sensor_data sql_ok str_to_float ts node_id
                 (info_data node_info) (db_manager w)).1 in
     let w' := (save_node sql_ok str_to_float current_time ts
                  (node_id, node_info) w).2 in
     (attempted_writes node_id (calls w') <> attempted_writes node_id (calls w) ->
      match last_save with
      | None => True
      | Some t => 5 * 1000000 <= current_time - t
      end) /\
     (last_db_save w' <> last_db_save w ->
      r = Return true /\
      last_db_save w' = <[node_id := Some current_time]> (last_db_save w))).
Proof.
  split.
  - intros m inputs n i j t1 t2 w Hij Hi Hj.
    destruct (throttle_inv_run inputs _ (throttle_inv_init m) n) as [Hsp _].
    by apply (Hsp i j).
  - intros current_time ts node_id node_info w last_save Hlast.
    pose proof (save_node_spec current_time ts node_id node_info w last_save Hlast) as Hspec.
    cbv zeta in *.
    destruct (save_due last_save current_time) eqn:Hdue.
    + destruct Hspec as [Hc Hs]. split.
      * intros _. destruct last_save as [t|]; [|done].
        unfold save_due, save_interval in Hdue. lia.
      * intros Hne. rewrite Hs in *.
        by destruct (insert_sensor_data _ _ _ _ _ _).1 as [[]|].
    + rewrite Hspec. by split.
Qed.

Lemma py_float_raises x e :
  py_float str_to_float x = Raise e ->
  e = ValueError \/ e = TypeError \/ e = OverflowError.
Proof.
  destruct x as [|b|z|f|s|l|d]; simpl; try (intros [= <-]; tauto); try done.
  - destruct (is_inf (float_of_Z z)); [intros [= <-]; tauto|done].
  - destruct (str_to_float s); [done|intros [= <-]; tauto].
Qed.

Lemma validate_data_cases value lo hi :
  (exists o, validate_data str_to_float value lo hi = Return o) \/
  validate_data str_to_float value lo hi = Raise OverflowError.
Proof.
  assert (forall x,
            (exists o, except_value_type
               (val <- py_float str_to_float x ;;
                Return (if in_range lo hi val then Some val else None))
               (Return None) = Return o) \/
            except_value_type
               (val <- py_float str_to_float x ;;
                Return (if in_range lo hi val then Some val else None))
               (Return None) = Raise OverflowError) as Hx.
  { intros x. destruct (py_float str_to_float x) as [v|e] eqn:Hf; simpl.
    - left. by eexists.
    - destruct (py_float_raises _ _ Hf) as [->|[->| ->]]; simpl;
        [left; by eexists|left; by eexists|by right]. }
  unfold validate_data. destruct value as [x|]; [|left; by eexists].
  destruct x; try apply Hx. left. by eexists.
Qed.


Lemma validate_row_cases data :
  (exists t, validate_row str_to_float data = Return t) \/
  validate_row str_to_float data = Raise OverflowError.
Proof.
  unfold validate_row.
  repeat match goal with
         | |- context [validate_data str_to_float ?v ?lo ?hi] =>
             destruct (validate_data_cases v lo hi) as [[? ->]| ->];
             cbn [rbind]; [|by right]
         end.
  left. by eexists.
Qed.


Lemma bind_param_cases x :
  (exists y, bind_param x = Return y) \/ bind_param x = Raise SqliteError \/
  bind_param x = Raise OverflowError.
Proof.
  destruct x; simpl; try (left; by eexists); try tauto.
  destruct (_ && _); [left; by eexists|tauto].
Qed.

Lemma execute_raises stmt c e :
  (forall d e', stmt d = Raise e' -> e' = SqliteError) ->
  (execute sql_ok stmt c).1 = Raise e -> e = SqliteError.
Proof.
  intros Hstmt. unfold execute. destruct (sql_ok (ops c)); [|by intros [= <-]].
  destruct (stmt (db c)) as [d'|e'] eqn:Hs; simpl; [done|].
  intros [= <-]. by apply (Hstmt (db c)).
Qed.

Lemma stmt_insert_raises ts n nt a b c0 d0 e0 f g h d e' :
  stmt_insert ts n nt a b c0 d0 e0 f g h d = Raise e' -> e' = SqliteError.
Proof. unfold stmt_insert. destruct (sensor_data d); [done|by intros [= <-]]. Qed.

Lemma insert_then_commit_raises stmt c e :
  (forall d e', stmt d = Raise e' -> e' = SqliteError) ->
  ((execute sql_ok stmt >>; commit sql_ok) c).1 = Raise e -> e = SqliteError.
Proof.
  intros Hstmt. unfold bind.
  destruct (execute sql_ok stmt c) as [[u|e1] c1] eqn:He; simpl.
  - apply execute_raises. by intros d e'.
  - intros [= <-]. apply (execute_raises stmt c); [done|]. by rewrite He.
Qed.





End SaveFacts.

(* ===================================================================== *)
(** ** The store                                                         *)
(* ===================================================================== *)

#[export] Instance rows_kept_preorder : PreOrder rows_kept.
Proof.
  split; [intros d; unfold rows_kept; reflexivity|].
  intros d1 d2 d3 H1 H2; unfold rows_kept in *; by etrans.
Qed.

#[export] Instance conn_rows_kept_preorder : PreOrder conn_rows_kept.
Proof.
  split; [intros c; unfold conn_rows_kept; reflexivity|].
  intros c1 c2 c3 H1 H2; unfold conn_rows_kept in *; by etrans.
Qed.

#[export] Instance manager_rows_kept_preorder : PreOrder manager_rows_kept.
Proof.
  split; [intros c; unfold manager_rows_kept; reflexivity|].
  intros c1 c2 c3 H1 H2; unfold manager_rows_kept in *; by etrans.
Qed.

#[export] Instance window_rows_kept_preorder : PreOrder window_rows_kept.
Proof.
  split; [intros c; unfold window_rows_kept; reflexivity|].
  intros c1 c2 c3 H1 H2; unfold window_rows_kept in *; by etrans.
Qed.

Lemma stored_rows_conn c : stored_rows (mkDatabaseManager (Some c)) = rows_of (db c).
Proof. reflexivity. Qed.

Ltac same_rows :=
  unfold window_rows_kept, manager_rows_kept; simpl; reflexivity.

Section StoreFacts.
Variable sql_ok : nat -> bool.
Variable uniform : nat -> float.
Variable str_to_float : string -> option float.

Lemma steady_execute stmt :
  (forall d d', stmt d = Return d' -> rows_kept d d') ->
  steady conn_rows_kept (execute sql_ok stmt).
Proof.
  intros Hs c. unfold execute, conn_rows_kept.
  destruct (sql_ok (ops c)); [|done].
  destruct (stmt (db c)) as [d'|e] eqn:E; simpl; [by apply Hs|done].
Qed.

Lemma steady_commit : steady conn_rows_kept (commit sql_ok).
Proof. apply steady_execute. by intros d d' [= <-]. Qed.

Lemma stmt_insert_kept ts n nt a b c0 d0 e0 f g h d d' :
  stmt_insert ts n nt a b c0 d0 e0 f g h d = Return d' -> rows_kept d d'.
Proof.
  unfold stmt_insert, rows_kept, rows_of.
  destruct (sensor_data d) as [t|]; [|done]. intros [= <-]. simpl.
  by apply prefix_app_r.
Qed.

Lemma stmt_select_kept d d' : stmt_select d = Return d' -> rows_kept d d'.
Proof.
  unfold stmt_select. destruct (sensor_data d); [|done].
  intros [= <-]. reflexivity.
Qed.

Lemma steady_select : steady conn_rows_kept (select_sensor_data sql_ok).
Proof.
  intros c. unfold select_sensor_data.
  pose proof (steady_execute stmt_select stmt_select_kept c) as He.
  by destruct (execute sql_ok stmt_select c) as [[u|e] c'].
Qed.

Lemma insert_sensor_data_kept ts node_id data m :
  manager_rows_kept m (insert_sensor_data sql_ok str_to_float ts node_id data m).2.
Proof.
  unfold insert_sensor_data.
  destruct (validate_row str_to_float data)
    as [[[[[[[[a b] c0] d0] e0] f] g] h]|e]; [|same_rows].
  destruct (conn m) as [c|] eqn:Hc; [|same_rows].
  destruct (bind_param _) as [nt|[]]; try same_rows.
  pose proof (steady_bind conn_rows_kept
                (execute sql_ok (stmt_insert ts node_id nt a b c0 d0 e0 f g h))
                (fun _ => commit sql_ok)) as Hb.
  specialize (Hb (steady_execute _ ltac:(intros d d'; apply stmt_insert_kept))
                 (fun _ => steady_commit) c).
  destruct ((execute sql_ok _ >>; commit sql_ok) c) as [r c'].
  unfold manager_rows_kept, stored_rows. simpl. rewrite Hc. exact Hb.
Qed.

Lemma get_recent_readings_kept limit m :
  manager_rows_kept m (get_recent_readings sql_ok limit m).2.
Proof.
  unfold get_recent_readings. destruct (conn m) as [c|] eqn:Hc; [|same_rows].
  pose proof (steady_execute stmt_select stmt_select_kept c) as He.
  destruct (execute sql_ok stmt_select c) as [r c'].
  unfold manager_rows_kept, stored_rows. simpl. rewrite Hc. exact He.
Qed.

Lemma get_statistics_kept st_size m :
  manager_rows_kept m (get_statistics sql_ok st_size m).2.
Proof.
  unfold get_statistics. destruct (conn m) as [c|] eqn:Hc; [|same_rows].
  match goal with
  | |- context [let '(_, _) := ?p c in _] =>
      assert (steady conn_rows_kept p) as Hp
  end.
  { repeat (apply (steady_bind conn_rows_kept); [apply steady_select|intros ?]).
    apply (steady_ret conn_rows_kept). }
  specialize (Hp c).
  match goal with
  | |- context [let '(_, _) := ?p c in _] => destruct (p c) as [r c']
  end.
  unfold manager_rows_kept, stored_rows. simpl. rewrite Hc. exact Hp.
Qed.

Lemma steady_save_node current_time ts entry :
  steady window_rows_kept (save_node sql_ok str_to_float current_time ts entry).
Proof.
  intros w. destruct entry as [node_id node_info]. unfold save_node.
  destruct (last_db_save w !! node_id) as [last_save|]; [|same_rows].
  destruct (save_due last_save current_time); [|same_rows].
  pose proof (insert_sensor_data_kept ts node_id (info_data node_info) (db_manager w))
    as Hk.
  destruct (insert_sensor_data _ _ _ _ _ _) as [[[]|e] m']; exact Hk.
Qed.

Lemma steady_update_data raises c n data :
  steady window_rows_kept (update_data raises c n data).
Proof.
  intros w. unfold update_data. destruct (raises c); [same_rows|].
  destruct c; simpl; try same_rows. destruct (node_status_labels w !! n); same_rows.
Qed.

Lemma steady_handle_data raises now data :
  steady window_rows_kept (handle_data raises now data).
Proof.
  unfold handle_data.
  destruct (data !! "nodeId") as [[| | node_id| | | |]|];
    try apply (steady_ret window_rows_kept).
  destruct ((1 <=? node_id) && (node_id <=? 3));
    [|apply (steady_ret window_rows_kept)].
  apply (steady_bind window_rows_kept).
  { intros w. destruct (node_widgets w !! node_id);
      [apply steady_update_data|same_rows]. }
  intros _.
  repeat (apply (steady_bind window_rows_kept); [apply steady_update_data|intros _]).
  intros w. same_rows.
Qed.

Lemma steady_sweep_node now e : steady window_rows_kept (sweep_node now e).
Proof.
  intros w. destruct e as [k info]. unfold sweep_node.
  destruct (offline_timeout <? now - info_timestamp info); [|same_rows]. simpl.
  destruct (node_widgets w !! k); simpl;
    destruct (node_status_labels w !! k); same_rows.
Qed.

Lemma steady_update_all render_ok st_size now :
  steady window_rows_kept (update_all sql_ok render_ok st_size now).
Proof.
  unfold update_all.
  apply (steady_bind window_rows_kept); [intros w; destruct render_ok; same_rows|intros _].
  apply (steady_bind window_rows_kept); [|intros _].
  - intros w. destruct (current_tab w =? 6); [|same_rows].
    unfold refresh_database_view, window_rows_kept. simpl.
    etrans; [apply (get_statistics_kept st_size)|apply get_recent_readings_kept].
  - intros w. apply (steady_for_each window_rows_kept). intros e.
    apply steady_sweep_node.
Qed.

Lemma steady_step i : steady window_rows_kept (step sql_ok str_to_float i).
Proof.
  destruct i as [raises now data|current_time ts|render_ok st_size now|index]; simpl.
  - apply steady_handle_data.
  - intros w. unfold check_db_save. apply (steady_for_each window_rows_kept).
    intros e. apply steady_save_node.
  - apply steady_update_all.
  - intros w. same_rows.
Qed.

(** C9 (amended). Once the window runs, the stored rows only grow: after
    any sequence of inputs the rows stored before are still there, in
    place and unchanged.  Initialization is the exception: when the
    connection opens and the [DROP TABLE] succeeds, the rows the file
    held before the program started are discarded, and the manager is
    the one a file without the table would have given. *)
Theorem rows_kept_after_init :
  (forall inputs w,
     stored_rows (db_manager w) `prefix_of`
     stored_rows (db_manager (run sql_ok str_to_float inputs w).2)) /\
  (forall disk now,
     sql_ok 0%nat = true ->
     init_database sql_ok uniform true disk now =
     init_database sql_ok uniform true
       (mkDatabase None (daily_statistics disk)) now).
Proof.
  split.
  - intros inputs w.
    apply (steady_for_each window_rows_kept inputs (step sql_ok str_to_float)).
    apply steady_step.
  - intros disk now H0. unfold init_database, init_statements.
    assert (forall d, execute sql_ok stmt_drop_sensor_data (mkConn d 0) =
                      (Return tt, mkConn (mkDatabase None (daily_statistics d)) 1)) as E.
    { intros d. unfold execute. simpl. by rewrite H0. }
    by rewrite !(bind_Return _ _ _ _ _ (E _)).
Qed.

Lemma execute_ok stmt c d' :
  sql_ok (ops c) = true -> stmt (db c) = Return d' ->
  execute sql_ok stmt c = (Return tt, mkConn d' (S (ops c))).
Proof. intros H0 Hs. unfold execute. by rewrite H0, Hs. Qed.

Lemma insert_sample_record_ok now i j node_id rs ds o :
  sql_ok o = true ->
  insert_sample_record sql_ok uniform now i j node_id
    (mkConn (mkDatabase (Some (mkTable rs (Z.of_nat (3 * i + j)))) ds) o) =
  (Return tt,
   mkConn (mkDatabase (Some (mkTable (rs ++ [sample_row uniform now i j node_id])
                               (Z.of_nat (3 * i + j) + 1))) ds) (S o)).
Proof.
  intros H0. unfold insert_sample_record. by apply execute_ok.
Qed.

Lemma sample_round_ok now i rs ds o :
  (forall k, (o <= k < o + 3)%nat -> sql_ok k = true) ->
  for_each [(0%nat, 1); (1%nat, 2); (2%nat, 3)]
    (fun jn => insert_sample_record sql_ok uniform now i jn.1 jn.2)
    (mkConn (mkDatabase (Some (mkTable rs (Z.of_nat (3 * i)))) ds) o) =
  (Return tt,
   mkConn (mkDatabase (Some (mkTable (rs ++ sample_round uniform now i)
                               (Z.of_nat (3 * S i)))) ds) (o + 3)%nat).
Proof.
  intros Hok.
  rewrite for_each_cons. cbn [fst snd].
  replace (Z.of_nat (3 * i)) with (Z.of_nat (3 * i + 0)) by (f_equal; lia).
  rewrite insert_sample_record_ok by (apply Hok; lia).
  rewrite for_each_cons. cbn [fst snd].
  replace (Z.of_nat (3 * i + 0) + 1) with (Z.of_nat (3 * i + 1)) by lia.
  rewrite insert_sample_record_ok by (apply Hok; lia).
  rewrite for_each_cons. cbn [fst snd].
  replace (Z.of_nat (3 * i + 1) + 1) with (Z.of_nat (3 * i + 2)) by lia.
  rewrite insert_sample_record_ok by (apply Hok; lia).
  cbn [for_each ret]. unfold sample_round.
  rewrite <- !app_assoc. cbn [app].
  replace (Z.of_nat (3 * i + 2) + 1) with (Z.of_nat (3 * S i)) by lia.
  by replace (S (S (S o))) with (o + 3)%nat by lia.
Qed.

Lemma sample_rounds_ok now n : forall a rs ds o,
  (forall k, (o <= k < o + 3 * n)%nat -> sql_ok k = true) ->
  for_each (seq a n)
    (fun i => for_each [(0%nat, 1); (1%nat, 2); (2%nat, 3)]
                (fun jn => insert_sample_record sql_ok uniform now i jn.1 jn.2))
    (mkConn (mkDatabase (Some (mkTable rs (Z.of_nat (3 * a)))) ds) o) =
  (Return tt,
   mkConn (mkDatabase (Some (mkTable (rs ++ flat_map (sample_round uniform now) (seq a n))
                               (Z.of_nat (3 * (a + n))))) ds) (o + 3 * n)%nat).
Proof.
  induction n as [|n IH]; intros a rs ds o Hok.
  - cbn [seq for_each flat_map ret]. rewrite app_nil_r.
    by rewrite Nat.mul_0_r, !Nat.add_0_r.
  - cbn [seq]. rewrite for_each_cons.
    rewrite sample_round_ok by (intros k Hk; apply Hok; lia).
    rewrite IH by (intros k Hk; apply Hok; lia).
    cbn [flat_map]. rewrite <- app_assoc.
    replace (S a + n)%nat with (a + S n)%nat by lia.
    by replace (o + 3 + 3 * n)%nat with (o + 3 * S n)%nat by lia.
Qed.

Lemma init_database_ok disk now :
  (forall k, (k < 307)%nat -> sql_ok k = true) ->
  init_database sql_ok uniform true disk now =
  mkDatabaseManager
    (Some (mkConn (mkDatabase (Some (mkTable (sample_rows uniform now) 300)) true) 307)).
Proof.
  intros Hok. unfold init_database, init_statements, insert_sample_data.
  do 2 f_equal.
  do 5 (erewrite bind_Return
          by (apply execute_ok; [apply Hok; cbn [ops]; lia|reflexivity]);
        cbn [ops db]).
  pose proof (sample_rounds_ok now 100 0 [] true 5
                ltac:(intros k Hk; apply Hok; lia)) as Hloop.
  change (Z.of_nat (3 * 0)) with 0 in Hloop.
  cbn [sensor_data daily_statistics].
  rewrite (bind_bind_Return _ _ _ _ tt _ Hloop).
  unfold commit.
  erewrite bind_Return
    by (apply execute_ok; [apply Hok; cbn [ops]; lia|reflexivity]).
  cbn [ops db].
  erewrite execute_ok by (first [apply Hok; cbn [ops]; lia|reflexivity]).
  reflexivity.
Qed.

Lemma select_sensor_data_ok c t :
  sql_ok (ops c) = true -> sensor_data (db c) = Some t ->
  select_sensor_data sql_ok c = (Return (rows t), mkConn (db c) (S (ops c))).
Proof.
  intros H0 Ht. unfold select_sensor_data.
  rewrite (execute_ok stmt_select c (db c) H0) by (unfold stmt_select; by rewrite Ht).
  simpl. by rewrite Ht.
Qed.

Lemma sample_rows_length now : length (sample_rows uniform now) = 300%nat.
Proof. reflexivity. Qed.

Lemma sample_rows_node_counts now :
  node_counts_of (sample_rows uniform now) = <[1 := 100]> (<[2 := 100]> (<[3 := 100]> ∅)).
Proof. vm_compute. reflexivity. Qed.

Lemma sql_limit_spec {A : Type} limit (l : list A) :
  limit <> 0 -> l <> [] ->
  sql_limit limit l <> [] /\
  (forall x, x ∈ sql_limit limit l -> x ∈ l) /\
  length (sql_limit limit l) =
    if limit <? 0 then length l else Nat.min (Z.to_nat limit) (length l).
Proof.
  intros Hl Hne. unfold sql_limit. destruct (limit <? 0) eqn:Hneg; [done|].
  split; [|split].
  - destruct l as [|x l]; [done|].
    destruct (Z.to_nat limit) as [|n] eqn:Hn; [lia|done].
  - intros x Hx. apply elem_of_take in Hx as (i & Hi & _).
    by eapply list_elem_of_lookup_2.
  - by rewrite length_take.
Qed.

(** C10. After an initialization in which no SQLite operation fails, the
    table holds the 300 generated sample rows, 100 for each of the nodes
    1, 2 and 3; [get_statistics] reports 300 records and 100 per node;
    and [get_recent_readings] with a limit other than zero returns
    sample rows, not an empty list. *)
Theorem sample_rows_after_init disk now st_size :
  (forall k, (k < 311)%nat -> sql_ok k = true) ->
  let m := init_database sql_ok uniform true disk now in
  stored_rows m = sample_rows uniform now /\
  length (stored_rows m) = 300%nat /\
  (forall n, In n [1; 2; 3] ->
     length (filter (fun r => row_node_id r = n) (stored_rows m)) = 100%nat) /\
  (exists s m',
     get_statistics sql_ok st_size m = (Return (Some s), m') /\
     total_records s = 300 /\
     node_counts s = <[1 := 100]> (<[2 := 100]> (<[3 := 100]> ∅))) /\
  (forall limit, limit <> 0 ->
     exists rs m',
       get_recent_readings sql_ok limit m = (Return rs, m') /\
       rs <> [] /\
       (forall r, r ∈ rs -> r ∈ sample_rows uniform now) /\
       length rs = if limit <? 0 then 300%nat
                   else Nat.min (Z.to_nat limit) 300).
Proof.
  intros Hok. cbv zeta.
  rewrite (init_database_ok disk now) by (intros k Hk; apply Hok; lia).
  split; [reflexivity|]. split; [reflexivity|]. split; [|split].
  - intros n Hn. unfold stored_rows. cbn [conn db sensor_data rows].
    destruct Hn as [<-|[<-|[<-|[]]]]; vm_compute; reflexivity.
  - unfold get_statistics. cbn [conn].
    erewrite bind_Return
      by (apply select_sensor_data_ok; [apply Hok; cbn [ops]; lia|reflexivity]).
    erewrite bind_Return
      by (apply select_sensor_data_ok; [apply Hok; cbn [ops]; lia|reflexivity]).
    erewrite bind_Return
      by (apply select_sensor_data_ok; [apply Hok; cbn [ops]; lia|reflexivity]).
    cbn [ret rows db sensor_data]. eexists _, _. split; [reflexivity|].
    cbn [total_records node_counts]. split.
    + by rewrite sample_rows_length.
    + apply sample_rows_node_counts.
  - intros limit Hl. unfold get_recent_readings. cbn [conn].
    erewrite (execute_ok stmt_select)
      by (first [apply Hok; cbn [ops]; lia|reflexivity]).
    cbn [db sensor_data rows]. eexists _, _. split; [reflexivity|].
    assert (order_by_timestamp_desc (sample_rows uniform now) ≡ₚ sample_rows uniform now) as Hperm
      by apply merge_sort_Permutation.
    destruct (sql_limit_spec limit (order_by_timestamp_desc (sample_rows uniform now)) Hl)
      as (Hne & Hin & Hlen).
    { intros Hnil. apply (f_equal length) in Hnil.
      rewrite Hperm, sample_rows_length in Hnil. done. }
    split; [done|]. split.
    + intros r Hr. rewrite <- Hperm. by apply Hin.
    + assert (length (order_by_timestamp_desc (sample_rows uniform now)) = 300%nat) as E
        by (by rewrite Hperm).
      by rewrite Hlen, E.
Qed.
End StoreFacts.

(* ===================================================================== *)
(** ** The statements on the sample inputs                               *)
(* ===================================================================== *)

(** C5, counterexample: the graph widget raises while node 3 reports.  The
    node widget, first in the order of the calls, has the reading; the
    infographics widget and the dashboard, which come after the graph
    widget, never get it, and the reading is not stored. *)
Lemma dispatch_stops_when_graph_raises :
  graph_raises GraphWidget = true /\
  (handle_data graph_raises 0 reading_node3 healthy_window).1 = Raise RuntimeError /\
  delivered (calls (handle_data graph_raises 0 reading_node3 healthy_window).2)
    = [NodeWidget] /\
  node_data (handle_data graph_raises 0 reading_node3 healthy_window).2 = [].
Proof. vm_compute. repeat split; reflexivity. Qed.

Lemma handle_data_stops_at_first_failure_witness :
  let '(r, w') := handle_data graph_raises 0 reading_node3 healthy_window in
  delivered (calls w') =
    delivered (calls healthy_window) ++ served graph_raises consumers /\
  (if forallb (fun c => negb (graph_raises c)) consumers
   then r = Return tt /\
        node_data w' =
          dict_set 3 (mkNodeInfo reading_node3 0) (node_data healthy_window)
   else r = Raise RuntimeError /\ node_data w' = node_data healthy_window).
Proof.
  apply (handle_data_stops_at_first_failure graph_raises 0 reading_node3 3
           healthy_window).
  - reflexivity.
  - lia.
  - eexists. reflexivity.
Defined.

(** C2, counterexample: node 3 is heard at [t = 0] and shows ONLINE; the
    sweep at 61 s calls [set_offline()] and the widget shows OFFLINE; the
    sweep at 62 s calls it again.  Two offline calls for one silence. *)
Lemma offline_called_again_on_next_sweep :
  node_widgets heard_node3 !! 3 = Some "ONLINE" /\
  node_widgets
    (run all_ok no_float_parser [UpdateTimer true 0 (61 * second)] heard_node3).2
    !! 3 = Some "OFFLINE" /\
  offline_calls 3
    (calls (run all_ok no_float_parser
              ((fun now => UpdateTimer true 0 now) <$> sweep_times) heard_node3).2)
    = 2%nat.
Proof. vm_compute. repeat split; reflexivity. Qed.

Lemma offline_call_on_every_overdue_sweep_witness :
  offline_calls 3
    (calls (run all_ok no_float_parser
              ((fun now => UpdateTimer true 0 now) <$> sweep_times) heard_node3).2)
  = (offline_calls 3 (calls heard_node3) +
     length (filter (fun now : Z =>
                       (offline_timeout <
                        now - info_timestamp (mkNodeInfo reading_node3 0))%Z)
               sweep_times))%nat.
Proof.
  apply (offline_call_on_every_overdue_sweep all_ok no_float_parser 0 sweep_times
           heard_node3 3 (mkNodeInfo reading_node3 0)).
  - reflexivity.
  - change (NoDup [3]). apply NoDup_singleton.
  - eexists. reflexivity.
Defined.

(** Scenario D and the tick at 6 s: node 3 is saved at 1 s, not at 3 s,
    and again at 6 s. *)
Lemma saves_five_seconds_apart_witness :
  successful_writes 3
    (calls (run all_ok no_float_parser scenario_D healthy_window).2)
    = [1 * second; 6 * second] /\
  1 * second + 5 * 1000000 <= 6 * second.
Proof.
  split; [vm_compute; reflexivity|].
  apply (proj1 (saves_five_seconds_apart all_ok no_float_parser)
           (init_database all_ok draw_one true empty_disk start_time)
           scenario_D 3 0%nat 1%nat).
  - lia.
  - vm_compute. reflexivity.
  - vm_compute. reflexivity.
Defined.




(** C9, counterexample: the file holds a row from an earlier run; after
    initialization the row is gone. *)
Lemma init_discards_stored_rows :
  legacy_row ∈ rows_of legacy_disk /\
  legacy_row ∉ stored_rows (init_database all_ok draw_one true legacy_disk start_time).
Proof.
  split; [apply list_elem_of_here|].
  rewrite (init_database_ok all_ok draw_one legacy_disk start_time) by done.
  unfold stored_rows. cbn [conn db sensor_data rows].
  assert (Forall (fun r => row_timestamp r <> 1600000000)
            (sample_rows draw_one start_time)) as HF.
  { apply (bool_decide_unpack _). vm_compute. reflexivity. }
  rewrite Forall_forall in HF. intros Hin. by apply (HF legacy_row Hin).
Qed.

Lemma rows_kept_after_init_witness :
  init_database all_ok draw_one true legacy_disk start_time =
  init_database all_ok draw_one true (mkDatabase None true) start_time.
Proof.
  apply (proj2 (rows_kept_after_init all_ok draw_one no_float_parser)
           legacy_disk start_time).
  reflexivity.
Defined.

Lemma sample_rows_after_init_witness :
  length (stored_rows (init_database all_ok draw_one true empty_disk start_time))
  = 300%nat.
Proof.
  exact (proj1 (proj2 (sample_rows_after_init all_ok draw_one empty_disk start_time 0
                         (fun k _ => eq_refl)))).
Defined.

(* ===================================================================== *)
(** ** The validator and the reader: shape, acceptance, exceptions       *)
(* ===================================================================== *)

Section ValidatorMore.
Variable str_to_float : string -> option float.
Variable str_to_int : string -> option Z.
Variable py_repr : pyval -> string.

Let validate := validate_sensor_data str_to_float str_to_int py_repr.

Lemma py_int_raises x e :
  py_int str_to_int x = Raise e ->
  e = ValueError \/ e = TypeError \/ e = OverflowError.
Proof.
  destruct x as [|b|z|f|s|l|d]; simpl; try (intros [= <-]; tauto); try done.
  - unfold float_trunc. destruct (Prim2SF f); try done; intros [= <-]; tauto.
  - destruct (str_to_int s); [done|intros [= <-]; tauto].
Qed.

Lemma validate_field_raises data acc entry e :
  validate_field str_to_float data acc entry = Raise e -> e = OverflowError.
Proof.
  destruct entry as [f [lo hi]]. unfold validate_field.
  destruct (data !! f) as [x|]; [|done].
  destruct (py_float str_to_float x) as [v|e'] eqn:Hf; simpl; [done|].
  destruct (py_float_raises _ _ _ Hf) as [->|[->| ->]]; simpl; try done.
  by intros [= <-].
Qed.

Lemma validate_fields_raises fields : forall data acc e,
  validate_fields str_to_float fields data acc = Raise e -> e = OverflowError.
Proof.
  induction fields as [|entry rest IH]; intros data acc e; simpl; [done|].
  destruct (validate_field str_to_float data acc entry) as [acc1|e1] eqn:H1; simpl.
  - apply IH.
  - intros [= <-]. by apply validate_field_raises in H1.
Qed.

Lemma validate_raise_overflow x e :
  validate x = Raise e -> e = OverflowError.
Proof.
  unfold validate, validate_sensor_data.
  destruct x as [| | | | | |data]; try done.
  destruct (data !! "nodeId") as [raw|]; [|done].
  destruct (py_int str_to_int raw) as [n|e'] eqn:Hint.
  - destruct (negb _); [done|].
    match goal with
    | |- (v <- ?r ;; _) = _ -> _ => destruct r as [v|e1] eqn:Hv
    end; simpl; [done|].
    intros [= <-]. by apply validate_fields_raises in Hv.
  - destruct (py_int_raises _ _ Hint) as [->|[->| ->]]; try done.
    by intros [= <-].
Qed.

Lemma validate_fields_overflow fields : forall data acc f lo hi x,
  In (f, (lo, hi)) fields ->
  data !! f = Some x ->
  py_float str_to_float x = Raise OverflowError ->
  validate_fields str_to_float fields data acc = Raise OverflowError.
Proof.
  induction fields as [|entry rest IH]; intros data acc f lo hi x Hin Hx Hf; [done|].
  simpl.
  destruct (validate_field str_to_float data acc entry) as [acc1|e1] eqn:H1; simpl.
  - destruct Hin as [->|Hin]; [|by apply (IH _ _ f lo hi x)].
    unfold validate_field in H1. rewrite Hx, Hf in H1. done.
  - by apply validate_field_raises in H1 as ->.
Qed.

Lemma validate_fields_raise_inv fields : forall data acc e,
  validate_fields str_to_float fields data acc = Raise e ->
  exists f lo hi x,
    In (f, (lo, hi)) fields /\ data !! f = Some x /\
    py_float str_to_float x = Raise OverflowError.
Proof.
  induction fields as [|[f [lo hi]] rest IH]; intros data acc e; simpl; [done|].
  destruct (validate_field str_to_float data acc (f, (lo, hi))) as [acc1|e1] eqn:H1;
    simpl.
  - intros Hrest. destruct (IH _ _ _ Hrest) as (g & lo' & hi' & x & Hin & Hx & Hf).
    exists g, lo', hi', x. auto.
  - intros _. unfold validate_field in H1.
    destruct (data !! f) as [x|] eqn:Hx; [|done].
    destruct (py_float str_to_float x) as [v|e'] eqn:Hf; simpl in H1; [done|].
    destruct (py_float_raises _ _ _ Hf) as [->|[->| ->]]; simpl in H1; try done.
    exists f, lo, hi, x. auto.
Qed.

(** X3. On a frame whose type label [str] prints, the validator lets
    exactly one exception out, [OverflowError], and exactly in two
    situations: the node id is an infinite float, or the node id is valid
    and a measurement field present in the input is an integer too large
    for a float.  [ValueError] and [TypeError] never leave it. *)
Theorem validate_raises_iff data e :
  (forall t, data !! "nodeType" = Some t -> str_returns t) ->
  (validate (PDict data) = Raise e <->
   e = OverflowError /\
   exists raw,
     data !! "nodeId" = Some raw /\
     (py_int str_to_int raw = Raise OverflowError \/
      exists node_id f lo hi x,
        py_int str_to_int raw = Return node_id /\ 1 <= node_id <= 3 /\
        In (f, (lo, hi)) numeric_fields /\ data !! f = Some x /\
        py_float str_to_float x = Raise OverflowError)).
Proof.
  intros _. split.
  - intros Hr. split; [by apply validate_raise_overflow in Hr|].
    pose proof Hr as Hr'. unfold validate, validate_sensor_data in Hr'.
    destruct (data !! "nodeId") as [raw|] eqn:Hraw; [|done].
    exists raw. split; [done|].
    destruct (py_int str_to_int raw) as [n|e'] eqn:Hint.
    + right. destruct (1 <=? n) eqn:H1; [|done].
      destruct (n <=? 3) eqn:H3; [|done]. clear Hr'.
      assert (1 <= n <= 3) as Hn by lia.
      unfold validate in Hr. rewrite (validate_unfold _ _ _ _ _ _ Hraw Hint Hn) in Hr.
      destruct (validate_fields str_to_float numeric_fields data (base py_repr data n))
        as [v|e1] eqn:Hv; [done|].
      destruct (validate_fields_raise_inv _ _ _ _ Hv) as (f & lo & hi & x & ? & ? & ?).
      by exists n, f, lo, hi, x.
    + left. destruct (py_int_raises _ _ Hint) as [->|[->| ->]]; done.
  - intros [-> (raw & Hraw & [Hint|(n & f & lo & hi & x & Hint & Hn & Hin & Hx & Hf)])].
    + unfold validate, validate_sensor_data. by rewrite Hraw, Hint.
    + unfold validate. rewrite (validate_unfold _ _ _ _ _ _ Hraw Hint Hn).
      by rewrite (validate_fields_overflow _ _ _ f lo hi x Hin Hx Hf).
Qed.

Lemma validate_fields_returns fields : forall data acc,
  (forall f lo hi x, In (f, (lo, hi)) fields -> data !! f = Some x ->
                     py_float str_to_float x <> Raise OverflowError) ->
  exists out, validate_fields str_to_float fields data acc = Return out.
Proof.
  induction fields as [|[f [lo hi]] rest IH]; intros data acc Hno; simpl.
  - by exists acc.
  - destruct (validate_field str_to_float data acc (f, (lo, hi))) as [acc1|e] eqn:H1.
    + simpl. apply IH. intros g lo' hi' x Hin. apply (Hno g lo' hi' x). by right.
    + exfalso. unfold validate_field in H1.
      destruct (data !! f) as [x|] eqn:Hx; [|done].
      specialize (Hno f lo hi x (or_introl eq_refl) Hx).
      destruct (py_float str_to_float x) as [v|e'] eqn:Hf; simpl in H1; [done|].
      destruct (py_float_raises _ _ _ Hf) as [->|[->| ->]]; simpl in H1; done.
Qed.

Lemma size_two (m : dict) k1 k2 x1 x2 :
  k1 <> k2 -> m !! k1 = Some x1 -> m !! k2 = Some x2 -> (1 < size m)%nat.
Proof.
  intros Hne H1 H2.
  pose proof (map_size_delete_Some k1 m (ltac:(by eexists))) as Hs.
  assert (size (delete k1 m) <> 0)%nat.
  { apply map_size_ne_0_lookup. exists k2. rewrite lookup_delete_ne by done.
    by eexists. }
  lia.
Qed.

(** X2. A frame is accepted as soon as its node id converts to an
    integer between 1 and 3, one measurement field converts to a float in
    its range, and no measurement field overflows: the reading carries
    the id and that float. *)
Theorem validate_accepts_measurement data raw node_id f lo hi x v :
  data !! "nodeId" = Some raw ->
  py_int str_to_int raw = Return node_id ->
  1 <= node_id <= 3 ->
  (forall g lo' hi' y, In (g, (lo', hi')) numeric_fields -> data !! g = Some y ->
                       py_float str_to_float y <> Raise OverflowError) ->
  In (f, (lo, hi)) numeric_fields ->
  data !! f = Some x ->
  py_float str_to_float x = Return v ->
  in_range lo hi v = true ->
  exists out,
    validate (PDict data) = Return (Some out) /\
    out !! "nodeId" = Some (PInt node_id) /\
    out !! f = Some (PFloat v).
Proof.
  intros Hraw Hint Hn Hno Hin Hx Hv Hr. unfold validate.
  rewrite (validate_unfold _ _ _ _ _ _ Hraw Hint Hn).
  destruct (validate_fields_returns numeric_fields data
              (base py_repr data node_id) Hno) as [out Hout].
  rewrite Hout. cbn [rbind].
  pose proof (validate_fields_expected _ _ _ _ _ "nodeId" Hout) as Hid.
  pose proof (validate_fields_expected _ _ _ _ _ f Hout) as Hfk.
  destruct (lookup_range_numeric _ _ _ Hin) as (Hlr & Hf1 & Hf2).
  unfold expected in Hid, Hfk. rewrite decide_True in Hid by done.
  rewrite !decide_False in Hfk by done. rewrite Hlr, Hx in Hfk.
  simpl in Hfk. unfold keep_field in Hfk. rewrite Hv, Hr in Hfk.
  assert ((1 <? size out)%nat = true) as ->.
  { apply Nat.ltb_lt.
    by apply (size_two out "nodeId" f (PInt node_id) (PFloat v) (not_eq_sym Hf1)). }
  by exists out.
Qed.

(** X1. An accepted reading holds nothing but what the validator put
    there: under [nodeId] the integer of the input id, between 1 and 3;
    under [nodeType] the text of the input type; under a measurement
    field the float of the input value, which lies in the range of the
    field.  Any other key of the input is dropped. *)
Theorem validated_reading_shape data out k x :
  validate (PDict data) = Return (Some out) ->
  out !! k = Some x ->
  (k = "nodeId" /\
   exists raw n, data !! "nodeId" = Some raw /\ py_int str_to_int raw = Return n /\
                 1 <= n <= 3 /\ x = PInt n) \/
  (k = "nodeType" /\
   exists t, data !! "nodeType" = Some t /\ x = PStr (py_str py_repr t)) \/
  (exists lo hi y v,
     In (k, (lo, hi)) numeric_fields /\ data !! k = Some y /\
     py_float str_to_float y = Return v /\ in_range lo hi v = true /\
     x = PFloat v).
Proof.
  intros Hacc Hk.
  destruct (validate_accepts _ _ _ _ _ Hacc) as (raw & n & Hraw & Hint & Hn & _ & Hout).
  rewrite (Hout k) in Hk. unfold expected in Hk.
  case_decide as Hk1.
  { left. split; [done|]. injection Hk as <-. by exists raw, n. }
  case_decide as Hk2.
  { right; left. split; [done|].
    destruct (data !! "nodeType") as [t|]; simpl in Hk; [|done].
    injection Hk as <-. by exists t. }
  right; right.
  destruct (lookup_range k numeric_fields) as [[lo hi]|] eqn:Hlr; [|done].
  apply lookup_range_numeric_inv in Hlr.
  destruct (data !! k) as [y|]; simpl in Hk; [|done].
  unfold keep_field in Hk.
  destruct (py_float str_to_float y) as [v|] eqn:Hv; [|done].
  destruct (in_range lo hi v) eqn:Hr; [|done]. injection Hk as <-.
  by exists lo, hi, y, v.
Qed.

End ValidatorMore.

Section ReaderMore.
Variable str_to_float : string -> option float.
Variable str_to_int : string -> option Z.
Variable py_repr : pyval -> string.
Variable json_loads : string -> option dict.

Let validate := validate_sensor_data str_to_float str_to_int py_repr.

Lemma emit_nodes_raises nodes e :
  (emit_nodes str_to_float str_to_int py_repr nodes).2 = Raise e ->
  e = OverflowError.
Proof.
  induction nodes as [|node rest IH]; simpl; [done|].
  destruct (validate_sensor_data str_to_float str_to_int py_repr node)
    as [r|e'] eqn:Hv; simpl.
  - destruct (emit_nodes str_to_float str_to_int py_repr rest) as [emitted res].
    simpl in *. apply IH.
  - intros [= <-]. by apply validate_raise_overflow in Hv.
Qed.

(** X4. What can leave the body of the read loop on a line whose text
    [json.loads] parsed: an [OverflowError] of the validator, or the
    [TypeError] of iterating a [nodes] value that is a number, a boolean
    or [null].  Nothing else ends the reader thread on such a line. *)
Theorem process_line_escapes line json_str data e :
  extract_json_str line = Some json_str ->
  json_loads json_str = Some data ->
  (process_line str_to_float str_to_int py_repr json_loads line).2 = Raise e ->
  (e = OverflowError) \/
  (e = TypeError /\
   exists nodes,
     data !! "nodes" = Some nodes /\
     py_iter nodes = Raise TypeError).
Proof.
  intros Hex Hj. unfold process_line. rewrite Hex, Hj.
  destruct (data !! "nodes") as [nodes|] eqn:Hn.
  - destruct (py_iter nodes) as [items|e'] eqn:Hit.
    + pose proof (emit_nodes_raises items) as Hem.
      destruct (emit_nodes str_to_float str_to_int py_repr items) as [emitted res].
      simpl in *. destruct res as [[]|e']; [done|].
      rewrite (Hem e' eq_refl). intros [= <-]. by left.
    + simpl. intros [= <-]. right.
      assert (e' = TypeError) as -> by (destruct nodes; simpl in Hit; congruence).
      split; [done|]. by exists nodes.
  - destruct (data !! "nodeId"); [|done].
    destruct (validate_sensor_data str_to_float str_to_int py_repr (PDict data))
      as [[r|]|e'] eqn:Hv; simpl; try done.
    apply validate_raise_overflow in Hv as ->. intros [= <-]. by left.
Qed.

Lemma emit_nodes_all items :
  (forall x, x ∈ items -> exists r, validate x = Return r) ->
  emit_nodes str_to_float str_to_int py_repr items =
    (accepted_of validate items, Return tt).
Proof.
  induction items as [|x rest IH]; intros Hall; [done|].
  destruct (Hall x (list_elem_of_here _ _)) as [r Hr].
  cbn [emit_nodes]. fold validate. rewrite Hr.
  rewrite IH by (intros y Hy; apply Hall; by apply list_elem_of_further).
  unfold accepted_of. simpl. rewrite Hr. by destruct r.
Qed.

Lemma emit_nodes_until items1 x items2 :
  (forall y, y ∈ items1 -> exists r, validate y = Return r) ->
  validate x = Raise OverflowError ->
  emit_nodes str_to_float str_to_int py_repr (items1 ++ x :: items2) =
    (accepted_of validate items1, Raise OverflowError).
Proof.
  induction items1 as [|y rest IH]; intros Hall Hx.
  - cbn [app emit_nodes]. fold validate. by rewrite Hx.
  - destruct (Hall y (list_elem_of_here _ _)) as [r Hr].
    cbn [app emit_nodes]. fold validate. rewrite Hr.
    rewrite IH by (try done; intros z Hz; apply Hall; by apply list_elem_of_further).
    unfold accepted_of. simpl. rewrite Hr. by destruct r.
Qed.

(** X5. A batch [{"nodes": [...]}] whose items all validate without
    raising emits the accepted items, in the order of the batch, and the
    rejected ones are skipped silently.  The [nodes] key takes precedence:
    a [nodeId] beside it is not looked at. *)
Theorem process_line_batch line json_str data items :
  extract_json_str line = Some json_str ->
  json_loads json_str = Some data ->
  data !! "nodes" = Some (PList items) ->
  (forall x, x ∈ items -> exists r, validate x = Return r) ->
  process_line str_to_float str_to_int py_repr json_loads line =
    (accepted_of validate items, Return tt).
Proof.
  intros Hex Hj Hn Hall. unfold process_line. rewrite Hex, Hj, Hn. simpl.
  by rewrite (emit_nodes_all items Hall).
Qed.

(** X6. When the validation of an item of a batch raises, the readings
    accepted before it have been emitted, the items after it are never
    looked at, and the exception leaves the loop. *)
Theorem process_line_batch_cut line json_str data items1 x items2 :
  extract_json_str line = Some json_str ->
  json_loads json_str = Some data ->
  data !! "nodes" = Some (PList (items1 ++ x :: items2)) ->
  (forall y, y ∈ items1 -> exists r, validate y = Return r) ->
  validate x = Raise OverflowError ->
  process_line str_to_float str_to_int py_repr json_loads line =
    (accepted_of validate items1, Raise OverflowError).
Proof.
  intros Hex Hj Hn Hall Hx. unfold process_line. rewrite Hex, Hj, Hn. simpl.
  by rewrite (emit_nodes_until items1 x items2 Hall Hx).
Qed.

End ReaderMore.

(* ===================================================================== *)
(** ** The store: what a save writes and what the queries return         *)
(* ===================================================================== *)

#[export] Instance newer_first_total : Total newer_first.
Proof. intros r1 r2. unfold newer_first. lia. Qed.

#[export] Instance newer_first_trans : Transitive newer_first.
Proof. intros r1 r2 r3. unfold newer_first. lia. Qed.

Section StoreMore.
Variable sql_ok : nat -> bool.
Variable str_to_float : string -> option float.
Variable str_to_int : string -> option Z.
Variable py_repr : pyval -> string.





Lemma sql_limit_sublist {A : Type} limit (l : list A) :
  sql_limit limit l `prefix_of` l.
Proof.
  unfold sql_limit. destruct (limit <? 0); [done|]. apply prefix_take.
Qed.

Lemma sorted_prefix_newest (l pre : list Row) r r' :
  StronglySorted newer_first l -> pre `prefix_of` l ->
  r ∈ pre -> r' ∈ l -> r' ∉ pre -> newer_first r r'.
Proof.
  intros Hs [post ->] Hr Hr' Hn.
  apply elem_of_app in Hr' as [?|Hr']; [done|].
  by apply (StronglySorted_app_1_elem_of newer_first pre post).
Qed.

(** X8. On a working connection [get_recent_readings(limit)], for a
    limit SQLite can bind, returns rows of the table, newest first,
    [limit] of them or all when there are fewer (all of them for a
    negative limit), and no row left out is newer than a row returned. *)
Theorem get_recent_readings_newest limit m c t :
  sqlite_int limit ->
  conn m = Some c ->
  sensor_data (db c) = Some t ->
  sql_ok (ops c) = true ->
  exists rs,
    (get_recent_readings sql_ok limit m).1 = Return rs /\
    StronglySorted newer_first rs /\
    rs ⊆+ rows t /\
    (0 <= limit -> length rs = Nat.min (Z.to_nat limit) (length (rows t))) /\
    (limit < 0 -> rs ≡ₚ rows t) /\
    (forall r r', r ∈ rs -> r' ∈ rows t -> r' ∉ rs ->
                  row_timestamp r' <= row_timestamp r).
Proof.
  intros _ Hc Ht H0. unfold get_recent_readings. rewrite Hc.
  unfold execute. rewrite H0. unfold stmt_select. rewrite Ht. simpl. rewrite Ht.
  eexists. split; [reflexivity|].
  pose proof (StronglySorted_merge_sort newer_first (rows t)) as Hs.
  pose proof (merge_sort_Permutation newer_first (rows t)) as Hp.
  pose proof (sql_limit_sublist limit (order_by_timestamp_desc (rows t))) as Hpre.
  split; [|split; [|split; [|split]]].
  - destruct Hpre as [post Hpost]. unfold order_by_timestamp_desc in Hpost.
    rewrite Hpost in Hs. by apply StronglySorted_app_1_l in Hs.
  - destruct Hpre as [post Hpost]. unfold order_by_timestamp_desc in Hpost.
    pose proof (submseteq_inserts_r post _ _
                  (reflexivity (sql_limit limit (merge_sort newer_first (rows t)))))
      as Hsub.
    rewrite <- Hpost in Hsub. unfold order_by_timestamp_desc.
    etrans; [exact Hsub|]. apply Permutation_submseteq, Hp.
  - intros Hl. unfold sql_limit.
    assert ((limit <? 0) = false) as -> by lia.
    rewrite length_take. unfold order_by_timestamp_desc.
    assert (length (merge_sort newer_first (rows t)) = length (rows t)) as ->
      by (by rewrite Hp).
    done.
  - intros Hl. unfold sql_limit.
    assert ((limit <? 0) = true) as -> by lia. exact Hp.
  - intros r r' Hr Hr' Hn.
    apply (sorted_prefix_newest (order_by_timestamp_desc (rows t))
             (sql_limit limit (order_by_timestamp_desc (rows t))) r r');
      try done.
    unfold order_by_timestamp_desc. by rewrite Hp.
Qed.

Lemma node_counts_of_lookup rs n :
  default 0 (node_counts_of rs !! n) = count_node n rs.
Proof.
  unfold count_node. induction rs as [|r rs IH]; simpl; [done|].
  rewrite filter_cons. destruct (decide (row_node_id r = n)) as [Heq|Hne].
  - rewrite Heq, lookup_insert_eq. simpl. rewrite IH. lia.
  - rewrite lookup_insert_ne by done. exact IH.
Qed.

Lemma node_counts_of_present rs n :
  is_Some (node_counts_of rs !! n) <-> exists r, r ∈ rs /\ row_node_id r = n.
Proof.
  induction rs as [|r rs IH]; simpl.
  - rewrite lookup_empty. split; [by intros [? ?]|].
    by intros (r & ?%not_elem_of_nil & _).
  - destruct (decide (row_node_id r = n)) as [Heq|Hne].
    + rewrite Heq, lookup_insert_eq. split; [|by eexists].
      intros _. exists r. split; [apply list_elem_of_here|done].
    + rewrite lookup_insert_ne by done. rewrite IH. split.
      * intros (r' & ? & ?). exists r'. split; [by apply list_elem_of_further|done].
      * intros (r' & [->|?]%elem_of_cons & ?); [done|]. by exists r'.
Qed.

Lemma min_timestamp_spec rs :
  match min_timestamp rs with
  | None => rs = []
  | Some a => (exists r, r ∈ rs /\ row_timestamp r = a) /\
              forall r, r ∈ rs -> a <= row_timestamp r
  end.
Proof.
  induction rs as [|r rs IH]; simpl; [done|].
  destruct (min_timestamp rs) as [a|].
  - destruct IH as [(r0 & Hr0 & Ha) Hall]. split.
    + destruct (Z.min_spec (row_timestamp r) a) as [[_ ->]|[_ ->]].
      * exists r. split; [apply list_elem_of_here|done].
      * exists r0. split; [by apply list_elem_of_further|done].
    + intros r' [->|Hr']%elem_of_cons; [lia|]. specialize (Hall r' Hr'). lia.
  - subst rs. split.
    + exists r. split; [apply list_elem_of_here|done].
    + intros r' Hr'. apply list_elem_of_singleton in Hr' as ->. lia.
Qed.

Lemma max_timestamp_spec rs :
  match max_timestamp rs with
  | None => rs = []
  | Some b => (exists r, r ∈ rs /\ row_timestamp r = b) /\
              forall r, r ∈ rs -> row_timestamp r <= b
  end.
Proof.
  induction rs as [|r rs IH]; simpl; [done|].
  destruct (max_timestamp rs) as [a|].
  - destruct IH as [(r0 & Hr0 & Ha) Hall]. split.
    + destruct (Z.max_spec (row_timestamp r) a) as [[_ ->]|[_ ->]].
      * exists r0. split; [by apply list_elem_of_further|done].
      * exists r. split; [apply list_elem_of_here|done].
    + intros r' [->|Hr']%elem_of_cons; [lia|]. specialize (Hall r' Hr'). lia.
  - subst rs. split.
    + exists r. split; [apply list_elem_of_here|done].
    + intros r' Hr'. apply list_elem_of_singleton in Hr' as ->. lia.
Qed.

Lemma select_sensor_data_fails d k :
  sensor_data d = None \/ sql_ok k = false ->
  select_sensor_data sql_ok (mkConn d k) = (Raise SqliteError, mkConn d (S k)).
Proof.
  intros Hf. unfold select_sensor_data, execute, stmt_select. simpl.
  destruct (sql_ok k); [|done].
  destruct Hf as [->|?]; done.
Qed.

Lemma select_sensor_data_returns d k t :
  sensor_data d = Some t -> sql_ok k = true ->
  select_sensor_data sql_ok (mkConn d k) = (Return (rows t), mkConn d (S k)).
Proof.
  intros Ht H0. unfold select_sensor_data, execute, stmt_select. simpl.
  rewrite H0, Ht. simpl. by rewrite Ht.
Qed.

Lemma get_statistics_returns st_size d k t s :
  sensor_data d = Some t ->
  (get_statistics sql_ok st_size (mkDatabaseManager (Some (mkConn d k)))).1
    = Return (Some s) ->
  s = mkStatistics (Z.of_nat (length (rows t))) (node_counts_of (rows t))
        (PrimFloat.div (float_of_Z st_size) 1024%float)
        (min_timestamp (rows t)) (max_timestamp (rows t)).
Proof.
  intros Ht. unfold get_statistics. cbn [conn db ops]. unfold bind.
  destruct (sql_ok k) eqn:H0.
  2:{ rewrite select_sensor_data_fails by tauto. done. }
  rewrite (select_sensor_data_returns d k t Ht H0).
  destruct (sql_ok (S k)) eqn:H1.
  2:{ rewrite select_sensor_data_fails by tauto. done. }
  rewrite (select_sensor_data_returns d (S k) t Ht H1).
  destruct (sql_ok (S (S k))) eqn:H2.
  2:{ rewrite select_sensor_data_fails by tauto. done. }
  rewrite (select_sensor_data_returns d (S (S k)) t Ht H2).
  unfold ret. cbn [fst]. by intros [= <-].
Qed.

(** X9. A summary that [get_statistics] returns is the summary of the
    table: the number of rows; for each node the number of its rows, with
    an entry exactly for the nodes that have rows; and the smallest and
    largest timestamp, both attained by a row and both [None] exactly on
    an empty table. *)
Theorem get_statistics_summary st_size m c t s :
  conn m = Some c ->
  sensor_data (db c) = Some t ->
  (get_statistics sql_ok st_size m).1 = Return (Some s) ->
  total_records s = Z.of_nat (length (rows t)) /\
  (forall n, default 0 (node_counts s !! n) = count_node n (rows t)) /\
  (forall n, is_Some (node_counts s !! n) <->
             exists r, r ∈ rows t /\ row_node_id r = n) /\
  (rows t = [] -> first_record s = None /\ last_record s = None) /\
  (forall r, r ∈ rows t ->
     exists a b, first_record s = Some a /\ last_record s = Some b /\
                 a <= row_timestamp r <= b) /\
  (forall a, first_record s = Some a -> exists r, r ∈ rows t /\ row_timestamp r = a) /\
  (forall b, last_record s = Some b -> exists r, r ∈ rows t /\ row_timestamp r = b).
Proof.
  intros Hc Ht Hs. destruct m as [oc]. simpl in Hc. subst oc.
  destruct c as [d k]. cbn [db] in Ht.
  rewrite (get_statistics_returns st_size d k t s Ht Hs).
  cbn [total_records node_counts first_record last_record].
  pose proof (min_timestamp_spec (rows t)) as Hmin.
  pose proof (max_timestamp_spec (rows t)) as Hmax.
  split; [done|]. split; [apply node_counts_of_lookup|].
  split; [apply node_counts_of_present|].
  split; [by intros ->|].
  destruct (min_timestamp (rows t)) as [a|], (max_timestamp (rows t)) as [b|].
  - destruct Hmin as [Ha Hmin], Hmax as [Hb Hmax].
    split; [|split].
    + intros r Hr. exists a, b. specialize (Hmin r Hr). specialize (Hmax r Hr).
      by repeat split.
    + by intros ? [= <-].
    + by intros ? [= <-].
  - rewrite Hmax in Hmin. by destruct Hmin as [(? & ?%not_elem_of_nil & _) _].
  - rewrite Hmin in Hmax. by destruct Hmax as [(? & ?%not_elem_of_nil & _) _].
  - rewrite Hmin. split; [by intros ? ?%not_elem_of_nil|]. by split.
Qed.

Lemma get_statistics_cases st_size d k :
  (statistics_fail sql_ok (mkConn d k) /\
   (get_statistics sql_ok st_size (mkDatabaseManager (Some (mkConn d k)))).1
     = Return None) \/
  (~ statistics_fail sql_ok (mkConn d k) /\
   exists s,
     (get_statistics sql_ok st_size (mkDatabaseManager (Some (mkConn d k)))).1
       = Return (Some s)).
Proof.
  unfold get_statistics, statistics_fail. cbn [conn db ops]. unfold bind.
  destruct (sensor_data d) as [t|] eqn:Ht.
  2:{ rewrite select_sensor_data_fails by tauto. left. tauto. }
  destruct (sql_ok k) eqn:H0.
  2:{ rewrite select_sensor_data_fails by tauto. left. tauto. }
  rewrite (select_sensor_data_returns d k t Ht H0).
  destruct (sql_ok (S k)) eqn:H1.
  2:{ rewrite select_sensor_data_fails by tauto. left. tauto. }
  rewrite (select_sensor_data_returns d (S k) t Ht H1).
  destruct (sql_ok (S (S k))) eqn:H2.
  2:{ rewrite select_sensor_data_fails by tauto. left. tauto. }
  rewrite (select_sensor_data_returns d (S (S k)) t Ht H2).
  right. split; [|by eexists]. intros [?|[?|[?|?]]]; done.
Qed.

(** X10. The two queries hide a [sqlite3.Error].  On an open
    connection and with a limit SQLite can bind, [get_recent_readings]
    never raises, and returns the empty list when its SELECT fails.
    [get_statistics] never lets a [sqlite3.Error] out: it returns [None]
    when its first or its second SELECT fails, and it returns [None] only
    when one of its three SELECTs failed. *)
Theorem queries_swallow_sqlite_errors limit st_size m c :
  conn m = Some c ->
  sqlite_int limit ->
  ((sensor_data (db c) = None \/ sql_ok (ops c) = false) ->
   (get_recent_readings sql_ok limit m).1 = Return []) /\
  (forall e, (get_recent_readings sql_ok limit m).1 <> Raise e) /\
  ((sensor_data (db c) = None \/ sql_ok (ops c) = false \/
    sql_ok (S (ops c)) = false) ->
   (get_statistics sql_ok st_size m).1 = Return None) /\
  ((get_statistics sql_ok st_size m).1 = Return None ->
   statistics_fail sql_ok c) /\
  (get_statistics sql_ok st_size m).1 <> Raise SqliteError.
Proof.
  intros Hc _. destruct m as [oc]. simpl in Hc. subst oc. destruct c as [d k].
  split; [|split; [|split; [|split]]].
  - intros Hf. unfold get_recent_readings, execute, stmt_select. cbn [conn db ops].
    cbn [db ops] in Hf.
    destruct (sql_ok k); [|done]. destruct Hf as [->|?]; done.
  - intros e. unfold get_recent_readings, execute, stmt_select. cbn [conn db ops].
    destruct (sql_ok k); [|done].
    destruct (sensor_data d) eqn:Ht; simpl; [by rewrite Ht|done].
  - intros Hf. cbn [db ops] in Hf.
    destruct (get_statistics_cases st_size d k) as [[_ ->]|[Hn _]]; [done|].
    exfalso. apply Hn. unfold statistics_fail. cbn [db ops]. tauto.
  - destruct (get_statistics_cases st_size d k) as [[Hf _]|[_ [s ->]]]; [done|].
    discriminate.
  - destruct (get_statistics_cases st_size d k) as [[_ ->]|[_ [s ->]]]; discriminate.
Qed.

End StoreMore.

(* ===================================================================== *)
(** ** Invariants of the store and of the window                         *)
(* ===================================================================== *)

#[export] Instance conn_related_preorder R `{!PreOrder R} : PreOrder (conn_related R).
Proof.
  split; [intros c; unfold conn_related; reflexivity|].
  intros c1 c2 c3 H1 H2; unfold conn_related in *; by etrans.
Qed.

#[export] Instance manager_related_preorder R `{!PreOrder R} :
  PreOrder (manager_related R).
Proof.
  split.
  - intros m. unfold manager_related. by destruct (conn m).
  - intros m1 m2 m3. unfold manager_related.
    destruct (conn m1), (conn m2), (conn m3); try done. apply transitivity.
Qed.

#[export] Instance window_related_preorder R `{!PreOrder R} :
  PreOrder (window_related R).
Proof.
  split; [intros w; unfold window_related; reflexivity|].
  intros w1 w2 w3 H1 H2; unfold window_related in *; by etrans.
Qed.

#[export] Instance grows_by_preorder P : PreOrder (grows_by P).
Proof.
  split.
  - intros d. exists []. by rewrite app_nil_r.
  - intros d1 d2 d3 (n1 & E1 & F1) (n2 & E2 & F2). exists (n1 ++ n2).
    rewrite E2, E1, <- app_assoc. split; [done|]. by apply Forall_app.
Qed.

#[export] Instance keeps_preorder P : PreOrder (keeps P).
Proof.
  split; [intros d H; exact H|].
  intros d1 d2 d3 H1 H2 H. unfold keeps in *. auto.
Qed.

Ltac same_db := unfold window_related; simpl; reflexivity.

Section Related.
Variable sql_ok : nat -> bool.
Variable str_to_float : string -> option float.
Variable R : relation Database.
Context `{!PreOrder R}.
Hypothesis R_insert : forall ts n nt a b c0 d0 e0 f g h d d',
  col_ok 0 10000 a -> col_ok 0 10000 b -> col_ok 0 10000 c0 ->
  col_ok 0 10000 d0 -> col_ok 0 10000 e0 -> col_ok 0 10000 f ->
  col_ok (-50) 100 g -> col_ok 0 100 h ->
  stmt_insert ts n nt a b c0 d0 e0 f g h d = Return d' -> R d d'.

Lemma validate_data_in_range value lo hi o :
  validate_data str_to_float value lo hi = Return o -> col_ok lo hi o.
Proof.
  assert (forall x,
            except_value_type
              (val <- py_float str_to_float x ;;
               Return (if in_range lo hi val then Some val else None))
              (Return None) = Return o -> col_ok lo hi o) as Hx.
  { intros x. destruct (py_float str_to_float x) as [v|e]; simpl.
    - destruct (in_range lo hi v) eqn:Hr; intros [= <-]; done.
    - destruct e; simpl; intros [= <-]; done. }
  unfold validate_data. destruct value as [x|]; [|by intros [= <-]].
  destruct x; try apply Hx. by intros [= <-].
Qed.

Lemma validate_row_in_range data a b c0 d0 e0 f g h :
  validate_row str_to_float data = Return (a, b, c0, d0, e0, f, g, h) ->
  col_ok 0 10000 a /\ col_ok 0 10000 b /\ col_ok 0 10000 c0 /\
  col_ok 0 10000 d0 /\ col_ok 0 10000 e0 /\ col_ok 0 10000 f /\
  col_ok (-50) 100 g /\ col_ok 0 100 h.
Proof.
  unfold validate_row.
  repeat match goal with
         | |- context [validate_data str_to_float ?v ?lo ?hi] =>
             let H := fresh "Hv" in
             destruct (validate_data str_to_float v lo hi) eqn:H;
             cbn [rbind]; [apply validate_data_in_range in H|done]
         end.
  intros [= <- <- <- <- <- <- <- <-]. tauto.
Qed.

Lemma related_execute stmt :
  (forall d d', stmt d = Return d' -> R d d') ->
  steady (conn_related R) (execute sql_ok stmt).
Proof.
  intros Hs c. unfold execute, conn_related.
  destruct (sql_ok (ops c)); [|simpl; reflexivity].
  destruct (stmt (db c)) as [d'|e] eqn:E; simpl; [by apply Hs|reflexivity].
Qed.

Lemma related_commit : steady (conn_related R) (commit sql_ok).
Proof. apply related_execute. intros d d' [= <-]. reflexivity. Qed.

Lemma related_select : steady (conn_related R) (select_sensor_data sql_ok).
Proof.
  intros c. unfold select_sensor_data.
  assert (forall d d', stmt_select d = Return d' -> R d d') as Hsel.
  { intros d d'. unfold stmt_select. destruct (sensor_data d); [|done].
    intros [= <-]. reflexivity. }
  pose proof (related_execute stmt_select Hsel c) as He.
  by destruct (execute sql_ok stmt_select c) as [[u|e] c'].
Qed.

Lemma related_insert_sensor_data ts node_id data m :
  manager_related R m (insert_sensor_data sql_ok str_to_float ts node_id data m).2.
Proof.
  unfold insert_sensor_data.
  destruct (validate_row str_to_float data)
    as [[[[[[[[a b] c0] d0] e0] f] g] h]|e] eqn:Hrow; [|simpl; reflexivity].
  apply validate_row_in_range in Hrow as (?&?&?&?&?&?&?&?).
  destruct (conn m) as [c|] eqn:Hc; [|simpl; reflexivity].
  destruct (bind_param _) as [nt|[]]; try (simpl; reflexivity).
  pose proof (steady_bind (conn_related R)
                (execute sql_ok (stmt_insert ts node_id nt a b c0 d0 e0 f g h))
                (fun _ => commit sql_ok)) as Hb.
  assert (forall d d', stmt_insert ts node_id nt a b c0 d0 e0 f g h d = Return d' ->
                       R d d') as Hins
    by (intros d d'; by apply R_insert).
  specialize (Hb (related_execute _ Hins) (fun _ => related_commit) c).
  destruct ((execute sql_ok _ >>; commit sql_ok) c) as [r c'].
  unfold manager_related. simpl. rewrite Hc. exact Hb.
Qed.

Lemma related_get_recent_readings limit m :
  manager_related R m (get_recent_readings sql_ok limit m).2.
Proof.
  unfold get_recent_readings. destruct (conn m) as [c|] eqn:Hc; [|simpl; reflexivity].
  assert (forall d d', stmt_select d = Return d' -> R d d') as Hsel.
  { intros d d'. unfold stmt_select. destruct (sensor_data d); [|done].
    intros [= <-]. reflexivity. }
  pose proof (related_execute stmt_select Hsel c) as He.
  destruct (execute sql_ok stmt_select c) as [r c'].
  unfold manager_related. simpl. rewrite Hc. exact He.
Qed.

Lemma related_get_statistics st_size m :
  manager_related R m (get_statistics sql_ok st_size m).2.
Proof.
  unfold get_statistics. destruct (conn m) as [c|] eqn:Hc; [|simpl; reflexivity].
  match goal with
  | |- context [let '(_, _) := ?p c in _] =>
      assert (steady (conn_related R) p) as Hp
  end.
  { repeat (apply (steady_bind (conn_related R)); [apply related_select|intros ?]).
    apply (steady_ret (conn_related R)). }
  specialize (Hp c).
  match goal with
  | |- context [let '(_, _) := ?p c in _] => destruct (p c) as [r c']
  end.
  unfold manager_related. simpl. rewrite Hc. exact Hp.
Qed.

Lemma related_save_node current_time ts entry :
  steady (window_related R) (save_node sql_ok str_to_float current_time ts entry).
Proof.
  intros w. destruct entry as [node_id node_info]. unfold save_node.
  destruct (last_db_save w !! node_id) as [last_save|]; [|same_db].
  destruct (save_due last_save current_time); [|same_db].
  pose proof (related_insert_sensor_data ts node_id (info_data node_info) (db_manager w))
    as Hk.
  destruct (insert_sensor_data _ _ _ _ _ _) as [[[]|e] m']; exact Hk.
Qed.

Lemma related_update_data raises c n data :
  steady (window_related R) (update_data raises c n data).
Proof.
  intros w. unfold update_data. destruct (raises c); [same_db|].
  destruct c; simpl; try same_db. destruct (node_status_labels w !! n); same_db.
Qed.

Lemma related_handle_data raises now data :
  steady (window_related R) (handle_data raises now data).
Proof.
  unfold handle_data.
  destruct (data !! "nodeId") as [[| | node_id| | | |]|];
    try apply (steady_ret (window_related R)).
  destruct ((1 <=? node_id) && (node_id <=? 3));
    [|apply (steady_ret (window_related R))].
  apply (steady_bind (window_related R)).
  { intros w. destruct (node_widgets w !! node_id);
      [apply related_update_data|same_db]. }
  intros _.
  repeat (apply (steady_bind (window_related R)); [apply related_update_data|intros _]).
  intros w. same_db.
Qed.

Lemma related_sweep_node now e : steady (window_related R) (sweep_node now e).
Proof.
  intros w. destruct e as [k info]. unfold sweep_node.
  destruct (offline_timeout <? now - info_timestamp info); [|same_db]. simpl.
  destruct (node_widgets w !! k); simpl;
    destruct (node_status_labels w !! k); same_db.
Qed.

Lemma related_update_all render_ok st_size now :
  steady (window_related R) (update_all sql_ok render_ok st_size now).
Proof.
  unfold update_all.
  apply (steady_bind (window_related R)); [intros w; destruct render_ok; same_db|intros _].
  apply (steady_bind (window_related R)); [|intros _].
  - intros w. destruct (current_tab w =? 6); [|same_db].
    unfold refresh_database_view, window_related. simpl.
    etrans; [apply (related_get_statistics st_size)|apply related_get_recent_readings].
  - intros w. apply (steady_for_each (window_related R)). intros e.
    apply related_sweep_node.
Qed.

Lemma related_step i : steady (window_related R) (step sql_ok str_to_float i).
Proof.
  destruct i as [raises now data|current_time ts|render_ok st_size now|index]; simpl.
  - apply related_handle_data.
  - intros w. unfold check_db_save. apply (steady_for_each (window_related R)).
    intros e. apply related_save_node.
  - apply related_update_all.
  - intros w. same_db.
Qed.

Lemma related_run inputs : steady (window_related R) (run sql_ok str_to_float inputs).
Proof. apply (steady_for_each (window_related R)). apply related_step. Qed.

End Related.

Lemma stored_rows_rows_of m c :
  conn m = Some c -> stored_rows m = rows_of (db c).
Proof. intros Hc. unfold stored_rows, rows_of. by rewrite Hc. Qed.

Lemma stmt_insert_grows ts n nt a b c0 d0 e0 f g h d d' :
  col_ok 0 10000 a -> col_ok 0 10000 b -> col_ok 0 10000 c0 ->
  col_ok 0 10000 d0 -> col_ok 0 10000 e0 -> col_ok 0 10000 f ->
  col_ok (-50) 100 g -> col_ok 0 100 h ->
  stmt_insert ts n nt a b c0 d0 e0 f g h d = Return d' ->
  grows_by row_in_range d d'.
Proof.
  intros. unfold stmt_insert in *. unfold grows_by, rows_of.
  destruct (sensor_data d) as [t|]; [|done].
  match goal with H : Return _ = Return _ |- _ => injection H as <- end.
  simpl. eexists. split; [reflexivity|].
  apply Forall_singleton. by repeat split.
Qed.

(** X11. Whatever the window receives, and whatever has been put in
    [node_data], every row a run adds to the table has each measurement
    NULL or within the range of its column ([0, 10000], [-50, 100] for
    the temperature, [0, 100] for the humidity) and the quality [GOOD]:
    [insert_sensor_data] validates again before it writes. *)
Theorem run_writes_rows_in_range sql_ok str_to_float inputs w :
  exists new,
    stored_rows (db_manager (run sql_ok str_to_float inputs w).2) =
      stored_rows (db_manager w) ++ new /\
    Forall row_in_range new.
Proof.
  pose proof (related_run sql_ok str_to_float (grows_by row_in_range)
                stmt_insert_grows inputs w) as Hrel.
  unfold window_related, manager_related in Hrel.
  destruct (conn (db_manager w)) as [c|] eqn:Hc;
    destruct (conn (db_manager (run sql_ok str_to_float inputs w).2)) as [c'|] eqn:Hc';
    try done.
  - by rewrite (stored_rows_rows_of _ _ Hc), (stored_rows_rows_of _ _ Hc').
  - exists []. unfold stored_rows. by rewrite Hc, Hc'.
Qed.

Lemma stmt_insert_keeps_ids ts n nt a b c0 d0 e0 f g h d d' :
  stmt_insert ts n nt a b c0 d0 e0 f g h d = Return d' -> keeps ids_ok d d'.
Proof.
  unfold stmt_insert, keeps, ids_ok.
  destruct (sensor_data d) as [t|]; [|done]. intros [= <-]. simpl.
  intros [Hs Hb]. split.
  - rewrite fmap_app. apply StronglySorted_app. split; [|split].
    + intros x1 x2 Hx1 Hx2. simpl in Hx2. apply list_elem_of_singleton in Hx2 as ->.
      apply list_elem_of_fmap in Hx1 as (r & -> & Hr).
      rewrite Forall_forall in Hb. specialize (Hb r Hr). lia.
    + done.
    + simpl. repeat constructor.
  - apply Forall_app. split.
    + eapply Forall_impl; [exact Hb|]. simpl. intros r Hr. lia.
    + apply Forall_singleton. simpl. lia.
Qed.

Lemma sorted_ids_lookup (l : list Row) : forall (i j : nat) r1 r2,
  StronglySorted Z.lt (row_id <$> l) ->
  (i < j)%nat -> l !! i = Some r1 -> l !! j = Some r2 -> row_id r1 < row_id r2.
Proof.
  induction l as [|a l IH]; intros i j r1 r2 Hs Hij Hi Hj; [done|].
  rewrite fmap_cons in Hs. apply StronglySorted_cons in Hs as [Hall Hs].
  destruct j as [|j]; [lia|]. simpl in Hj. destruct i as [|i]; simpl in Hi.
  - injection Hi as <-. rewrite Forall_forall in Hall. apply Hall.
    apply list_elem_of_fmap. exists r2. split; [done|].
    by apply list_elem_of_lookup_2 in Hj.
  - apply (IH i j); [done|lia|done..].
Qed.

Section Ids.
Variable sql_ok : nat -> bool.
Variable uniform : nat -> float.
Variable str_to_float : string -> option float.

Lemma init_statements_keeps_ids now :
  steady (conn_related (keeps ids_ok)) (init_statements sql_ok uniform now).
Proof.
  unfold init_statements.
  assert (forall stmt, (forall d d', stmt d = Return d' -> keeps ids_ok d d') ->
            steady (conn_related (keeps ids_ok)) (execute sql_ok stmt)) as Hex
    by (intros stmt; apply related_execute; apply _).
  apply (steady_bind (conn_related (keeps ids_ok))); [|intros _].
  { apply Hex. intros d d' [= <-] _. done. }
  apply (steady_bind (conn_related (keeps ids_ok))); [|intros _].
  { apply Hex. intros d d'. unfold stmt_create_sensor_data.
    destruct (sensor_data d); [done|]. intros [= <-] _. unfold ids_ok. simpl.
    split; constructor. }
  apply (steady_bind (conn_related (keeps ids_ok))); [|intros _].
  { apply Hex. intros d d'. unfold stmt_create_index.
    destruct (sensor_data d); [|done]. by intros [= <-]. }
  apply (steady_bind (conn_related (keeps ids_ok))); [|intros _].
  { apply Hex. intros d d'. unfold stmt_create_index.
    destruct (sensor_data d); [|done]. by intros [= <-]. }
  apply (steady_bind (conn_related (keeps ids_ok))); [|intros _].
  { apply Hex. intros d d' [= <-]. unfold keeps, ids_ok. by simpl. }
  apply (steady_bind (conn_related (keeps ids_ok))); [|intros _].
  { unfold insert_sample_data.
    apply (steady_bind (conn_related (keeps ids_ok))); [|intros _].
    - apply (steady_for_each (conn_related (keeps ids_ok))). intros i.
      apply (steady_for_each (conn_related (keeps ids_ok))). intros jn.
      unfold insert_sample_record. apply Hex. intros d d'.
      apply stmt_insert_keeps_ids.
    - apply Hex. by intros d d' [= <-]. }
  apply Hex. by intros d d' [= <-].
Qed.

(** X12. Row ids are unique and increase in insertion order: if they
    do in the file the program opens, they do after initialization and
    after every run of the window, whether SQLite statements fail or
    not. *)
Theorem row_ids_increase connect_ok disk now inputs (i j : nat) r1 r2 :
  ids_ok disk ->
  let w := (run sql_ok str_to_float inputs
              (MainWindow_init (init_database sql_ok uniform connect_ok disk now))).2 in
  (i < j)%nat ->
  stored_rows (db_manager w) !! i = Some r1 ->
  stored_rows (db_manager w) !! j = Some r2 ->
  row_id r1 < row_id r2.
Proof.
  intros Hdisk w Hij Hi Hj.
  pose proof (related_run sql_ok str_to_float (keeps ids_ok)
                (fun ts n nt a b c0 d0 e0 f g h d d' _ _ _ _ _ _ _ _ =>
                   stmt_insert_keeps_ids ts n nt a b c0 d0 e0 f g h d d')
                inputs
                (MainWindow_init (init_database sql_ok uniform connect_ok disk now)))
    as Hrel.
  fold w in Hrel. unfold window_related, manager_related in Hrel.
  cbn [MainWindow_init db_manager] in Hrel.
  unfold init_database in Hrel. destruct connect_ok; cbn [conn] in Hrel.
  - pose proof (init_statements_keeps_ids now (mkConn disk 0)) as Hinit.
    unfold conn_related in Hinit. cbn [db] in Hinit.
    destruct (conn (db_manager w)) as [c'|] eqn:Hc'; [|done].
    specialize (Hrel (Hinit Hdisk)).
    rewrite (stored_rows_rows_of _ _ Hc') in Hi, Hj.
    unfold ids_ok in Hrel. unfold rows_of in Hi, Hj.
    destruct (sensor_data (db c')) as [t|]; [|done].
    destruct Hrel as [Hs _]. by apply (sorted_ids_lookup (rows t) i j).
  - destruct (conn (db_manager w)) as [c'|] eqn:Hc'; [done|].
    unfold stored_rows in Hi. by rewrite Hc' in Hi.
Qed.

End Ids.

Lemma for_each_safe {S A : Type} (P : S -> Prop) (Q : A -> Prop)
    (ok : result unit -> Prop) (body : A -> prog S unit) xs :
  (forall x s, Q x -> P s -> P (body x s).2 /\ ok (body x s).1) ->
  ok (Return tt) ->
  Forall Q xs ->
  forall s, P s -> P (for_each xs body s).2 /\ ok (for_each xs body s).1.
Proof.
  intros Hbody Hret. induction xs as [|x xs IH]; intros HQ s Hs; [by split|].
  apply Forall_cons in HQ as [Hx HQ]. simpl. unfold bind.
  destruct (Hbody x s Hx Hs) as [HP Hok].
  destruct (body x s) as [[[]|e] s1]; simpl in *; [by apply IH|by split].
Qed.

Lemma dict_set_keys {V : Type} (P : Z -> Prop) k (v : V) d :
  P k -> Forall (fun e : Z * V => P e.1) d ->
  Forall (fun e : Z * V => P e.1) (dict_set k v d).
Proof.
  intros Hk. induction d as [|[k' v'] d IH]; simpl; intros Hd.
  - by apply Forall_singleton.
  - apply Forall_cons in Hd as [Hk' Hd].
    destruct (k =? k'); apply Forall_cons; split; auto.
Qed.

Section Keys.
Variable sql_ok : nat -> bool.
Variable str_to_float : string -> option float.

Lemma insert_sensor_data_raises ts node_id data m e :
  (insert_sensor_data sql_ok str_to_float ts node_id data m).1 = Raise e ->
  e = OverflowError \/ e = AttributeError.
Proof.
  unfold insert_sensor_data.
  destruct (validate_row_cases str_to_float data)
    as [[[[[[[[[a b] c0] d0] e0] f] g] h] ->]| ->]; [|intros [= <-]; by left].
  destruct (conn m) as [c|]; [|intros [= <-]; by right].
  destruct (bind_param_cases (default (PStr "Unknown") (data !! "nodeType")))
    as [[y ->]|[-> | ->]]; [|done|intros [= <-]; by left].
  destruct ((execute sql_ok _ >>; commit sql_ok) c) as [[u|e1] c'] eqn:Hx; simpl; [done|].
  assert (e1 = SqliteError) as ->; [|done].
  eapply insert_then_commit_raises; [|by rewrite Hx].
  intros d e'. apply stmt_insert_raises.
Qed.

Lemma keys_ok_save_node current_time ts entry w :
  1 <= entry.1 <= 3 -> keys_ok w ->
  keys_ok (save_node sql_ok str_to_float current_time ts entry w).2 /\
  (save_node sql_ok str_to_float current_time ts entry w).1 <> Raise KeyError.
Proof.
  destruct entry as [node_id node_info]. simpl. intros Hn [Hnd Hl].
  unfold save_node. destruct (Hl node_id Hn) as [last_save ->].
  destruct (save_due last_save current_time); [|by split].
  destruct (insert_sensor_data sql_ok str_to_float ts node_id (info_data node_info)
              (db_manager w)) as [r m'] eqn:Hins.
  destruct r as [[]|e]; simpl.
  - split; [|done]. split; [done|]. simpl. intros k Hk.
    destruct (decide (k = node_id)) as [->|Hne];
      [rewrite lookup_insert_eq; by eexists|rewrite lookup_insert_ne by done; auto].
  - by split.
  - split; [by split|].
    pose proof (insert_sensor_data_raises ts node_id (info_data node_info)
                  (db_manager w) e) as Hr.
    rewrite Hins in Hr. destruct (Hr eq_refl) as [-> | ->]; done.
Qed.

Lemma keys_ok_handle_data raises now data w :
  keys_ok w ->
  keys_ok (handle_data raises now data w).2 /\
  (handle_data raises now data w).1 <> Raise KeyError.
Proof.
  intros [Hnd Hl]. unfold handle_data.
  destruct (data !! "nodeId") as [[| | node_id| | | |]|]; try by split.
  destruct ((1 <=? node_id) && (node_id <=? 3)) eqn:Hn; [|by split].
  unfold bind, update_data.
  destruct (node_widgets w !! node_id); simpl;
    destruct (raises NodeWidget); simpl; try (by split);
    destruct (raises GraphWidget); simpl; try (by split);
    destruct (raises InfographicsWidget); simpl; try (by split);
    destruct (raises GeneralUserDashboard); simpl; try (by split);
    destruct (node_status_labels w !! node_id); simpl;
    (split; [|done]); (split; [|done]); simpl;
    apply (dict_set_keys (fun k => 1 <= k <= 3)); first [lia|done].
Qed.

Lemma keys_ok_sweep_node now entry w :
  keys_ok w ->
  keys_ok (sweep_node now entry w).2 /\ (sweep_node now entry w).1 <> Raise KeyError.
Proof.
  intros Hk. destruct entry as [k info]. unfold sweep_node.
  destruct (offline_timeout <? now - info_timestamp info); [|by split]. simpl.
  destruct (node_widgets w !! k); simpl;
    destruct (node_status_labels w !! k); by split.
Qed.

Lemma keys_ok_step i w :
  keys_ok w ->
  keys_ok (step sql_ok str_to_float i w).2 /\
  (step sql_ok str_to_float i w).1 <> Raise KeyError.
Proof.
  intros Hk.
  destruct i as [raises now data|current_time ts|render_ok st_size now|index]; simpl.
  - by apply keys_ok_handle_data.
  - unfold check_db_save.
    apply (for_each_safe keys_ok (fun e : Z * NodeInfo => 1 <= e.1 <= 3)
             (fun r => r <> Raise KeyError)); try done.
    + intros x s. apply keys_ok_save_node.
    + by destruct Hk.
  - unfold update_all, bind. destruct render_ok; [|by split].
    assert (exists w1, (if current_tab w =? 6
                        then refresh_database_view sql_ok st_size w
                        else (Return tt, w)) = (Return tt, w1) /\
                       keys_ok w1 /\ node_data w1 = node_data w)
      as (w1 & -> & Hk1 & Hnd).
    { destruct (current_tab w =? 6); eexists; (split; [reflexivity|]); by split. }
    apply (for_each_safe keys_ok (fun _ => True) (fun r => r <> Raise KeyError));
      try done.
    + intros x s _. apply keys_ok_sweep_node.
    + by apply Forall_true.
  - by split.
Qed.

(** X13. The lookup [self.last_db_save[node_id]] of the persistence
    tick never raises [KeyError] while the window is fed by the reader:
    [handle_data] stores readings of nodes 1 to 3 only, and [last_db_save]
    has an entry for each of them from the start.  So in every state a
    run on payloads of the reader reaches, every key of [node_data] is
    between 1 and 3 and has its cursor, and no tick raises [KeyError]. *)
Theorem save_lookup_never_fails m inputs :
  Forall from_reader inputs ->
  let w := (run sql_ok str_to_float inputs (MainWindow_init m)).2 in
  (forall k info, (k, info) ∈ node_data w ->
     1 <= k <= 3 /\ is_Some (last_db_save w !! k)) /\
  (forall current_time ts,
     (check_db_save sql_ok str_to_float current_time ts w).1 <> Raise KeyError).
Proof.
  intros _.
  assert (keys_ok (MainWindow_init m)) as Hinit.
  { split; [constructor|]. intros k Hk. simpl.
    assert (k = 1 \/ k = 2 \/ k = 3) as [->|[->| ->]] by lia; by eexists. }
  destruct (for_each_safe keys_ok (fun _ => True) (fun r => r <> Raise KeyError)
              (step sql_ok str_to_float) inputs
              ltac:(intros x s _; apply keys_ok_step) ltac:(done)
              ltac:(by apply Forall_true) _ Hinit) as [Hk Hok].
  cbv zeta. fold (run sql_ok str_to_float inputs) in Hk, Hok.
  split.
  - intros k info Hin. destruct Hk as [Hnd Hl]. rewrite Forall_forall in Hnd.
    specialize (Hnd _ Hin). simpl in Hnd. split; [done|]. by apply Hl.
  - intros current_time ts.
    by apply (keys_ok_step (DbTimer current_time ts)).
Qed.

End Keys.

(* ===================================================================== *)
(** ** The window: a due save on a working store                         *)
(* ===================================================================== *)

Section DueSave.
Variable sql_ok : nat -> bool.
Variable str_to_float : string -> option float.
Variable str_to_int : string -> option Z.
Variable py_repr : pyval -> string.
Hypothesis sql_works : forall k, sql_ok k = true.





End DueSave.

(* ===================================================================== *)
(** ** The graph widget                                                  *)
(* ===================================================================== *)

Lemma py_last_suffix {A : Type} n (l : list A) : py_last n l `suffix_of` l.
Proof.
  unfold py_last. destruct (n =? 0)%nat; [done|].
  exists (take (length l - n) l). by rewrite take_drop.
Qed.

Lemma py_last_length {A : Type} n (l : list A) :
  length (py_last n l) = if (n =? 0)%nat then length l else Nat.min n (length l).
Proof.
  unfold py_last. destruct (n =? 0)%nat eqn:E; [done|].
  rewrite length_drop. apply Nat.eqb_neq in E. lia.
Qed.

#[export] Instance plots_added_preorder : PreOrder plots_added.
Proof.
  split.
  - intros g. split; [done|]. split; [done|]. exists []. by rewrite app_nil_r.
  - intros g1 g2 g3 (Ht1 & Hd1 & n1 & E1 & F1) (Ht2 & Hd2 & n2 & E2 & F2).
    split; [congruence|]. split; [congruence|]. exists (n1 ++ n2).
    rewrite E2, E1, <- app_assoc. split; [done|]. apply Forall_app. split; [done|].
    eapply Forall_impl; [exact F2|]. intros c. unfold plot_ok. by rewrite Ht1, Hd1.
Qed.

Lemma plot_curve_added key param : steady plots_added (plot_curve key param).
Proof.
  intros g. unfold plot_curve.
  destruct (graph_data g !! key) as [series|] eqn:Hk; [|simpl; reflexivity].
  destruct (series !! param) as [d|] eqn:Hp; [|simpl; reflexivity].
  destruct (0 <? length d)%nat eqn:Hd; [|simpl; reflexivity].
  destruct (_ && _) eqn:Hpos; [|simpl; reflexivity].
  simpl. split; [done|]. split; [done|]. eexists. split; [reflexivity|].
  apply Forall_singleton. unfold plot_ok. simpl.
  apply andb_true_iff in Hpos as [Hx Hy].
  apply Nat.ltb_lt in Hx, Hy, Hd.
  split; [|split; [done|split; [apply py_last_suffix|]]].
  - rewrite !py_last_length in Hx. rewrite !py_last_length in Hy.
    rewrite !py_last_length.
    repeat match goal with
           | H : context [(?n =? 0)%nat] |- _ => destruct (Nat.eqb_spec n 0)
           | |- context [(?n =? 0)%nat] => destruct (Nat.eqb_spec n 0)
           end; lia.
  - exists series, d. split; [done|]. split; [done|]. apply py_last_suffix.
Qed.

(** X14. [update_plots] changes neither the times nor the series, and
    on any state every [setData] call it makes passes two arrays of the
    same positive length: the latest times and the latest values of the
    series.  The values are paired with the times from the end, whenever
    they arrived. *)
Theorem update_plots_well_formed g :
  let g' := (update_plots g).2 in
  time_data g' = time_data g /\
  graph_data g' = graph_data g /\
  exists new,
    set_data_calls g' = set_data_calls g ++ new /\
    Forall (plot_ok g) new.
Proof.
  cbv zeta. change (plots_added g (update_plots g).2).
  unfold update_plots. destruct (length (time_data g) =? 0)%nat; [simpl; reflexivity|].
  apply (steady_for_each plots_added). intros key.
  apply (steady_for_each plots_added). intros param.
  apply plot_curve_added.
Qed.

Lemma sorted_last_max (l : list Z) t y :
  StronglySorted Z.lt l -> last l = Some t -> y ∈ l -> y <= t.
Proof.
  intros Hs Hl Hy. apply last_Some in Hl as [l' ->].
  apply elem_of_app in Hy as [Hy|Hy].
  - apply Z.lt_le_incl.
    apply (StronglySorted_app_1_elem_of Z.lt l' [t]); [done..|].
    apply list_elem_of_here.
  - apply list_elem_of_singleton in Hy as ->. lia.
Qed.

Lemma elem_of_drop_in {A : Type} k (l : list A) y : y ∈ drop k l -> y ∈ l.
Proof.
  intros [i Hi]%list_elem_of_lookup. rewrite lookup_drop in Hi.
  by apply list_elem_of_lookup_2 in Hi.
Qed.

Lemma deque_append_length {A : Type} (x : A) d :
  (length d <= max_points)%nat -> (length (deque_append x d) <= max_points)%nat.
Proof.
  unfold deque_append, max_points. intros Hd.
  destruct (100 <=? length d)%nat eqn:E.
  - rewrite length_app, length_drop. simpl. apply Nat.leb_le in E. lia.
  - rewrite length_app. simpl. apply Nat.leb_gt in E. lia.
Qed.

Lemma deque_append_elem {A : Type} (x y : A) d :
  y ∈ deque_append x d -> y = x \/ y ∈ d.
Proof.
  unfold deque_append. destruct (max_points <=? length d)%nat;
    intros [Hy|Hy]%elem_of_app.
  - right. by apply elem_of_drop_in in Hy.
  - left. by apply list_elem_of_singleton in Hy.
  - by right.
  - left. by apply list_elem_of_singleton in Hy.
Qed.

Lemma deque_append_sorted x d :
  StronglySorted Z.lt d ->
  (forall y, y ∈ d -> y < x) ->
  StronglySorted Z.lt (deque_append x d).
Proof.
  intros Hs Hlt. unfold deque_append.
  assert (forall k, StronglySorted Z.lt (drop k d ++ [x])) as Hk.
  { intros k. apply StronglySorted_app. split; [|split].
    - intros x1 x2 Hx1 Hx2. apply list_elem_of_singleton in Hx2 as ->.
      apply Hlt. by apply elem_of_drop_in in Hx1.
    - rewrite <- (take_drop k d) in Hs. by apply StronglySorted_app_1_r in Hs.
    - repeat constructor. }
  destruct (max_points <=? length d)%nat; [apply Hk|].
  specialize (Hk 0%nat). by rewrite drop_0 in Hk.
Qed.

Lemma graph_inv_append_param key data param g :
  graph_inv g -> graph_inv (append_param key data param g).2.
Proof.
  intros (Hlen & Hs & Hd). unfold append_param.
  destruct (data !! param) as [v|] eqn:Hv; [|done].
  assert (v = PNone \/
          (v <> PNone /\
           (append_param key data param g).2 =
             match graph_data g !! key with
             | None => g
             | Some series =>
                 match series !! param with
                 | None => g
                 | Some d =>
                     mkGraphWidgetState (time_data g)
                       (<[key := <[param := deque_append v d]> series]> (graph_data g))
                       (set_data_calls g)
                 end
             end)) as [->|[Hne Heq]].
  { unfold append_param. rewrite Hv.
    destruct v; [by left|right; split; [done|]..];
      destruct (graph_data g !! key) as [series|]; try done;
      destruct (series !! param); done. }
  { done. }
  unfold append_param in Heq. rewrite Hv in Heq. rewrite Heq. clear Heq.
  destruct (graph_data g !! key) as [series|] eqn:Hk; [|done].
  destruct (series !! param) as [d|] eqn:Hp; [|done].
  split; [done|]. split; [done|]. simpl.
  intros key' series' param' d' Hk' Hp'.
  destruct (decide (key' = key)) as [->|Hnk].
  - rewrite lookup_insert_eq in Hk'. injection Hk' as <-.
    destruct (decide (param' = param)) as [->|Hnp].
    + rewrite lookup_insert_eq in Hp'. injection Hp' as <-.
      destruct (Hd key series param d Hk Hp) as [Hl Hn].
      split; [by apply deque_append_length|].
      intros [?|?]%deque_append_elem; [by subst v|done].
    + rewrite lookup_insert_ne in Hp' by done. by apply (Hd key series param').
  - rewrite lookup_insert_ne in Hk' by done. by apply (Hd key' series' param').
Qed.

Lemma graph_inv_update_data current_time node_id data g :
  graph_inv g -> graph_inv (graph_update_data current_time node_id data g).2.
Proof.
  intros Hg. unfold graph_update_data, bind. cbn beta iota.
  apply for_each_preserves; [intros p s; apply graph_inv_append_param|].
  destruct Hg as (Hlen & Hs & Hd).
  assert (graph_inv
            (mkGraphWidgetState (deque_append current_time (time_data g))
               (graph_data g) (set_data_calls g)) <->
          (forall y, y ∈ time_data g -> y < current_time) \/
          StronglySorted Z.lt (deque_append current_time (time_data g))) as Hnew.
  { split; [intros (_ & ? & _); by right|]. intros H.
    split; [by apply deque_append_length|]. split; [|done].
    destruct H as [H|H]; [by apply deque_append_sorted|done]. }
  destruct (last (time_data g)) as [t|] eqn:Hl.
  - destruct (t <? current_time) eqn:Hlt; [|by split].
    apply Hnew. left. intros y Hy.
    pose proof (sorted_last_max _ t y Hs Hl Hy). lia.
  - apply Hnew. left. apply last_None in Hl. rewrite Hl.
    by intros y ?%not_elem_of_nil.
Qed.

Lemma init_data_lookup key series param d :
  graph_data init_data !! key = Some series -> series !! param = Some d ->
  key ∈ graph_nodes /\ param ∈ graph_params /\ d = [].
Proof.
  unfold init_data. simpl. intros Hk Hp.
  assert (key ∈ graph_nodes /\
          series = list_to_map ((fun p => (p, [])) <$> graph_params)) as [Hin ->].
  { repeat (apply lookup_insert_Some in Hk as [[<- <-]|[_ Hk]];
            [split; [unfold graph_nodes; rewrite !elem_of_cons; tauto|done]|]).
    by rewrite lookup_empty in Hk. }
  split; [done|]. simpl in Hp.
  repeat (apply lookup_insert_Some in Hp as [[<- <-]|[_ Hp]];
          [split; [unfold graph_params; rewrite !elem_of_cons; tauto|done]|]).
  by rewrite lookup_empty in Hp.
Qed.

(** X15. In every session of the graph widget [time_data] holds at most
    100 times and they increase strictly, whatever the clock reports;
    every series holds at most 100 values, none of them [None]. *)
Theorem graph_deques_stay_sorted_and_bounded updates :
  let g := (graph_run updates init_data).2 in
  (length (time_data g) <= 100)%nat /\
  (forall (i j : nat) t1 t2, (i < j)%nat ->
     time_data g !! i = Some t1 -> time_data g !! j = Some t2 -> t1 < t2) /\
  (forall key series param d,
     graph_data g !! key = Some series -> series !! param = Some d ->
     (length d <= 100)%nat /\ PNone ∉ d).
Proof.
  cbv zeta.
  assert (graph_inv (graph_run updates init_data).2) as (Hlen & Hs & Hd).
  { unfold graph_run.
    apply for_each_preserves; [intros u s; apply graph_inv_update_data|].
    split; [simpl; lia|]. split; [constructor|].
    intros key series param d Hk Hp.
    destruct (init_data_lookup _ _ _ _ Hk Hp) as (_ & _ & ->).
    split; [simpl; lia|]. by intros ?%not_elem_of_nil. }
  split; [exact Hlen|]. split; [|exact Hd].
  intros i j t1 t2 Hij Hi Hj.
  rewrite <- (take_drop j (time_data (graph_run updates init_data).2)) in Hs.
  apply (StronglySorted_app_1_elem_of Z.lt _ _ t1 t2 Hs).
  - apply list_elem_of_lookup. exists i. rewrite lookup_take_lt by done. done.
  - apply list_elem_of_lookup. exists 0%nat. rewrite lookup_drop.
    by rewrite Nat.add_0_r.
Qed.

Lemma node_key_known n : 1 <= n <= 3 -> node_key n ∈ graph_nodes.
Proof.
  intros Hn. assert (n = 1 \/ n = 2 \/ n = 3) as [->|[->| ->]] by lia.
  - assert (node_key 1 = "node1") as -> by (vm_compute; reflexivity).
    unfold graph_nodes. rewrite !elem_of_cons. tauto.
  - assert (node_key 2 = "node2") as -> by (vm_compute; reflexivity).
    unfold graph_nodes. rewrite !elem_of_cons. tauto.
  - assert (node_key 3 = "node3") as -> by (vm_compute; reflexivity).
    unfold graph_nodes. rewrite !elem_of_cons. tauto.
Qed.

Lemma node_key_inj n m : node_key n = node_key m -> n = m.
Proof.
  unfold node_key. rewrite !string_app_cons, !string_app_nil.
  intros [= H]. by apply (inj pretty) in H.
Qed.

Lemma node_key_unknown n : ~ (1 <= n <= 3) -> node_key n ∉ graph_nodes.
Proof.
  intros Hn Hin. unfold graph_nodes in Hin. rewrite !elem_of_cons in Hin.
  assert (node_key 1 = "node1") as H1 by (vm_compute; reflexivity).
  assert (node_key 2 = "node2") as H2 by (vm_compute; reflexivity).
  assert (node_key 3 = "node3") as H3 by (vm_compute; reflexivity).
  rewrite <- H1, <- H2, <- H3 in Hin.
  destruct Hin as [H|[H|[H|H]]]; [apply node_key_inj in H; lia..|].
  by apply not_elem_of_nil in H.
Qed.

Lemma graph_keys_ok_init : graph_keys_ok init_data.
Proof.
  intros key param Hk Hp.
  exists (list_to_map ((fun p => (p, [])) <$> graph_params)), [].
  unfold graph_nodes in Hk. unfold graph_params in Hp.
  rewrite !elem_of_cons in Hk. rewrite !elem_of_cons in Hp. split.
  - unfold init_data. cbn [graph_data graph_nodes fmap list_fmap list_to_map foldr].
    destruct Hk as [->|[->|[->|Hk]]]; [| | |by apply not_elem_of_nil in Hk];
      repeat (rewrite lookup_insert_ne by done); apply lookup_insert_eq.
  - cbn [graph_params fmap list_fmap list_to_map foldr].
    destruct Hp as [->|[->|[->|[->|[->|[->|Hp]]]]]];
      [| | | | | |by apply not_elem_of_nil in Hp];
      repeat (rewrite lookup_insert_ne by done); apply lookup_insert_eq.
Qed.

Lemma graph_keys_ok_append_param key data param g :
  key ∈ graph_nodes -> param ∈ graph_params -> graph_keys_ok g ->
  graph_keys_ok (append_param key data param g).2 /\
  (append_param key data param g).1 = Return tt.
Proof.
  intros Hkey Hparam Hg.
  destruct (Hg key param Hkey Hparam) as (series & d & Hk & Hp).
  assert (forall d', graph_keys_ok
            (mkGraphWidgetState (time_data g)
               (<[key := <[param := d']> series]> (graph_data g))
               (set_data_calls g))) as Hnew.
  { intros d' key' param' Hk' Hp'. simpl.
    destruct (decide (key' = key)) as [->|Hnk].
    - rewrite lookup_insert_eq.
      destruct (decide (param' = param)) as [->|Hnp].
      + eexists _, _. split; [done|]. by rewrite lookup_insert_eq.
      + destruct (Hg key param' Hk' Hp') as (s' & d'' & Hs' & Hd'').
        rewrite Hk in Hs'. injection Hs' as <-.
        eexists _, _. split; [done|]. by rewrite lookup_insert_ne.
    - rewrite lookup_insert_ne by done. by apply Hg. }
  unfold append_param. rewrite Hk, Hp.
  destruct (data !! param) as [v|]; [|by split].
  destruct v; (split; [try done; apply Hnew|done]).
Qed.

Lemma graph_keys_ok_update_data current_time node_id data g :
  1 <= node_id <= 3 -> graph_keys_ok g ->
  graph_keys_ok (graph_update_data current_time node_id data g).2 /\
  (graph_update_data current_time node_id data g).1 = Return tt.
Proof.
  intros Hn Hg. unfold graph_update_data, bind. cbn beta iota.
  apply (for_each_safe graph_keys_ok (fun p => p ∈ graph_params)
           (fun r => r = Return tt)).
  - intros p s Hp. by apply graph_keys_ok_append_param; [apply node_key_known|].
  - done.
  - by apply Forall_forall.
  - by destruct (match last (time_data g) with
                 | Some t => t <? current_time
                 | None => true
                 end).
Qed.

Lemma graph_keys_ok_plot_curve key param g :
  key ∈ graph_nodes -> param ∈ graph_params -> graph_keys_ok g ->
  graph_keys_ok (plot_curve key param g).2 /\
  (plot_curve key param g).1 = Return tt.
Proof.
  intros Hkey Hparam Hg.
  destruct (Hg key param Hkey Hparam) as (series & d & Hk & Hp).
  unfold plot_curve. rewrite Hk, Hp.
  destruct (0 <? length d)%nat; [|by split].
  destruct (_ && _); by split.
Qed.

Lemma update_plots_returns g :
  graph_keys_ok g -> (update_plots g).1 = Return tt.
Proof.
  intros Hg. unfold update_plots.
  destruct (length (time_data g) =? 0)%nat; [done|].
  apply (for_each_safe graph_keys_ok (fun k => k ∈ graph_nodes)
           (fun r => r = Return tt)); try done.
  - intros key s Hkey Hs.
    apply (for_each_safe graph_keys_ok (fun p => p ∈ graph_params)
             (fun r => r = Return tt)); try done.
    + intros p s' Hp. by apply graph_keys_ok_plot_curve.
    + by apply Forall_forall.
  - by apply Forall_forall.
Qed.

(** X16. Updates for the nodes 1 to 3, the only ones [handle_data]
    forwards, never raise in the graph widget, and the refresh of the
    plots after them returns. *)
Theorem graph_updates_never_raise updates :
  Forall (fun u : Z * Z * dict => 1 <= u.1.2 <= 3) updates ->
  (graph_run updates init_data).1 = Return tt /\
  (update_plots (graph_run updates init_data).2).1 = Return tt.
Proof.
  intros Hids.
  destruct (for_each_safe graph_keys_ok (fun u : Z * Z * dict => 1 <= u.1.2 <= 3)
              (fun r => r = Return tt)
              (fun u => graph_update_data u.1.1 u.1.2 u.2) updates
              ltac:(intros u s; apply graph_keys_ok_update_data) eq_refl
              Hids init_data graph_keys_ok_init) as [Hk Hr].
  split; [exact Hr|]. by apply update_plots_returns.
Qed.

Lemma append_params_unknown key data p v g : forall ps,
  graph_data g !! key = None ->
  p ∈ ps -> data !! p = Some v -> v <> PNone ->
  for_each ps (append_param key data) g = (Raise KeyError, g).
Proof.
  intros ps Hkey. induction ps as [|q ps IH]; intros Hin Hp Hv.
  - by apply not_elem_of_nil in Hin.
  - rewrite for_each_cons. unfold append_param at 1. rewrite Hkey.
    destruct (data !! q) as [w|] eqn:Hq.
    + destruct w; try done. simpl. apply IH; try done.
      apply elem_of_cons in Hin as [->|Hin]; [congruence|done].
    + simpl. apply IH; try done.
      apply elem_of_cons in Hin as [->|Hin]; [congruence|done].
Qed.

(** X17. An update for a node id outside 1 to 3 that carries a
    measurement raises [KeyError]: no series changes, but the time point
    has been appended before when the clock had advanced. *)
Theorem graph_update_unknown_node current_time node_id data g p v :
  ~ (1 <= node_id <= 3) ->
  graph_keys_only g ->
  p ∈ graph_params -> data !! p = Some v -> v <> PNone ->
  let '(r, g') := graph_update_data current_time node_id data g in
  r = Raise KeyError /\
  graph_data g' = graph_data g /\
  (match last (time_data g) with
   | Some t => t < current_time
   | None => True
   end -> time_data g' = deque_append current_time (time_data g)).
Proof.
  intros Hn Hg Hp Hv Hne. unfold graph_update_data, bind. cbn beta iota.
  set (fresh := match last (time_data g) with
                | Some t => t <? current_time
                | None => true
                end).
  set (g1 := if fresh
             then mkGraphWidgetState (deque_append current_time (time_data g))
                    (graph_data g) (set_data_calls g)
             else g).
  assert (graph_data g1 = graph_data g) as Hd by (subst g1; by destruct fresh).
  assert (graph_data g1 !! node_key node_id = None) as Hkey.
  { rewrite Hd. destruct (graph_data g !! node_key node_id) eqn:E; [|done].
    exfalso. apply (node_key_unknown node_id Hn). apply Hg. by eexists. }
  rewrite (append_params_unknown _ data p v g1 graph_params Hkey Hp Hv Hne).
  split; [done|]. split; [done|]. intros Hfresh. subst g1 fresh.
  destruct (last (time_data g)) as [t|]; [|done].
  assert ((t <? current_time) = true) as -> by lia. done.
Qed.

(* ===================================================================== *)
(** ** The dashboard indicators                                          *)
(* ===================================================================== *)

Lemma indicators_agree_update data d :
  indicators_agree d ->
  indicators_agree (dashboard_update_data data d).2 /\
  ((dashboard_update_data data d).1 = Return tt \/
   ((dashboard_update_data data d).1 = Raise TypeError /\
    health_value (dashboard_update_data data d).2 = health_value d /\
    health_status (dashboard_update_data data d).2 = health_status d /\
    aqi_level (dashboard_update_data data d).2 = aqi_level d)).
Proof.
  intros Hd. unfold dashboard_update_data, bind. cbn beta iota.
  set (d1 := match data !! "pm25" with
             | Some v => mkDashboard v (health_value d) (health_status d) (aqi_level d)
             | None => d
             end).
  assert (health_value d1 = health_value d /\ health_status d1 = health_status d /\
          aqi_level d1 = aqi_level d) as (Hv & Hs & Hl)
    by (subst d1; by destruct (data !! "pm25")).
  assert (indicators_agree d1) as Hd1
    by (unfold indicators_agree; by rewrite Hv, Hs, Hl).
  clearbody d1. unfold update_health_indicator, update_aqi_alert.
  unfold indicators_agree, indicator_bands.
  destruct (py_eq_zero (shown_pm25 d1)) eqn:Hz; cbn [shown_pm25 set_health].
  { rewrite Hz. cbn. split; [|by left]. rewrite !elem_of_cons. tauto. }
  destruct (py_le_int (shown_pm25 d1) 12) as [[]|e12] eqn:H12; cbn [rbind].
  { cbn. rewrite Hz, H12. cbn. split; [|by left]. rewrite !elem_of_cons. tauto. }
  2:{ cbn. split; [done|]. right.
      destruct (shown_pm25 d1); simpl in H12; try done; by injection H12 as <-. }
  destruct (py_le_int (shown_pm25 d1) 35) as [[]|e35] eqn:H35; cbn [rbind].
  { cbn. rewrite Hz, H12. cbn. rewrite H35. cbn. split; [|by left].
    rewrite !elem_of_cons. tauto. }
  2:{ destruct (shown_pm25 d1); simpl in H12, H35; done. }
  destruct (py_le_int (shown_pm25 d1) 55) as [[]|e55] eqn:H55; cbn [rbind].
  { cbn. rewrite Hz, H12. cbn. rewrite H35. cbn. rewrite H55. cbn.
    split; [|by left]. rewrite !elem_of_cons. tauto. }
  2:{ destruct (shown_pm25 d1); simpl in H12, H55; done. }
  destruct (py_le_int (shown_pm25 d1) 150) as [[]|e150] eqn:H150; cbn [rbind].
  3:{ destruct (shown_pm25 d1); simpl in H12, H150; done. }
  all: cbn; rewrite Hz, H12; cbn; rewrite H35; cbn; rewrite H55; cbn;
    rewrite H150; cbn; (split; [|by left]); rewrite !elem_of_cons; tauto.
Qed.

(** X19. The health indicator and the AQI alert of the dashboard never
    contradict each other: after any series of updates, whatever the
    readings hold and whether or not an update raised, the score, the
    health status and the AQI level shown are those of one and the same
    band of PM2.5 (or all three say that there is no data). *)
Theorem dashboard_indicators_agree updates :
  let d := dashboard_session updates Dashboard_init in
  (health_value d, health_status d, aqi_level d) ∈ indicator_bands.
Proof.
  cbv zeta. change (indicators_agree (dashboard_session updates Dashboard_init)).
  assert (indicators_agree Dashboard_init) as Hinit.
  { unfold indicators_agree, indicator_bands. simpl. apply list_elem_of_here. }
  revert Hinit. generalize Dashboard_init.
  induction updates as [|data updates IH]; intros d Hd; [done|].
  simpl. apply IH. by apply indicators_agree_update.
Qed.

(* ===================================================================== *)
(** ** Further statements on the sample inputs                           *)
(* ===================================================================== *)

Lemma frame_good_no_overflow stf g lo hi y :
  In (g, (lo, hi)) numeric_fields -> frame_good !! g = Some y ->
  py_float stf y <> Raise OverflowError.
Proof.
  intros Hin Hy. unfold numeric_fields in Hin. simpl in Hin.
  repeat (destruct Hin as [[= <- <- <-]|Hin];
          [vm_compute in Hy;
           first [discriminate Hy | injection Hy as <-; vm_compute; discriminate]|]).
  done.
Qed.

Lemma validated_reading_shape_witness :
  ("eco2" = "nodeId" /\
   exists raw n, frame_good !! "nodeId" = Some raw /\
                 py_int no_int_parser raw = Return n /\
                 1 <= n <= 3 /\ PFloat 900%float = PInt n) \/
  ("eco2" = "nodeType" /\
   exists t, frame_good !! "nodeType" = Some t /\
             PFloat 900%float = PStr (py_str no_repr t)) \/
  (exists lo hi y v,
     In ("eco2", (lo, hi)) numeric_fields /\ frame_good !! "eco2" = Some y /\
     py_float no_float_parser y = Return v /\ in_range lo hi v = true /\
     PFloat 900%float = PFloat v).
Proof.
  apply (validated_reading_shape no_float_parser no_int_parser no_repr
           frame_good reading_good "eco2" (PFloat 900%float)).
  - apply frame_good_accepted.
  - reflexivity.
Defined.

Lemma validate_accepts_measurement_witness :
  exists out,
    validate_sensor_data no_float_parser no_int_parser no_repr (PDict frame_good)
      = Return (Some out) /\
    out !! "nodeId" = Some (PInt 1) /\
    out !! "eco2" = Some (PFloat 900%float).
Proof.
  apply (validate_accepts_measurement no_float_parser no_int_parser no_repr
           frame_good (PInt 1) 1 "eco2" 0 10000 (PInt 900) 900%float).
  - reflexivity.
  - reflexivity.
  - lia.
  - apply frame_good_no_overflow.
  - simpl. auto.
  - reflexivity.
  - reflexivity.
  - reflexivity.
Defined.

Lemma validate_raises_iff_witness :
  validate_sensor_data no_float_parser no_int_parser no_repr (PDict frame_huge_typed)
  = Raise OverflowError.
Proof.
  apply (proj2 (validate_raises_iff no_float_parser no_int_parser no_repr
                  frame_huge_typed OverflowError
                  ltac:(intros t Ht; vm_compute in Ht; injection Ht as <-; exact I))).
  split; [reflexivity|]. exists (PInt 1). split; [reflexivity|]. right.
  exists 1, "pm25", 0, 10000, (PInt huge_int).
  split; [reflexivity|]. split; [lia|]. split; [simpl; auto|].
  split; reflexivity.
Defined.

Lemma process_line_escapes_witness :
  (process_line no_float_parser no_int_parser no_repr scalar_loads "{}").2
    = Raise TypeError /\
  (TypeError = OverflowError \/
   TypeError = TypeError /\
   exists nodes,
     (<["nodes" := PInt 5]> ∅ : dict) !! "nodes" = Some nodes /\
     py_iter nodes = Raise TypeError).
Proof.
  split; [reflexivity|].
  apply (process_line_escapes no_float_parser no_int_parser no_repr scalar_loads
           "{}" "{}" (<["nodes" := PInt 5]> ∅)).
  - reflexivity.
  - reflexivity.
  - reflexivity.
Defined.

Lemma process_line_batch_witness :
  process_line no_float_parser no_int_parser no_repr batch_loads batch_line
  = ([reading_good], Return tt).
Proof.
  apply (process_line_batch no_float_parser no_int_parser no_repr batch_loads
           batch_line batch_text (<["nodes" := PList batch_items]> ∅) batch_items).
  - vm_compute. reflexivity.
  - vm_compute. reflexivity.
  - reflexivity.
  - intros x Hx. unfold batch_items in Hx.
    repeat (apply elem_of_cons in Hx as [->|Hx]; [eexists; reflexivity|]).
    by apply not_elem_of_nil in Hx.
Defined.

Lemma process_line_batch_cut_witness :
  process_line no_float_parser no_int_parser no_repr cut_loads "{}"
  = ([reading_good], Raise OverflowError).
Proof.
  apply (process_line_batch_cut no_float_parser no_int_parser no_repr cut_loads
           "{}" "{}" (<["nodes" := PList cut_items]> ∅)
           [PDict frame_good] (PDict frame_huge) [PDict frame_good]).
  - reflexivity.
  - reflexivity.
  - reflexivity.
  - intros x Hx. apply list_elem_of_singleton in Hx as ->. eexists. reflexivity.
  - reflexivity.
Defined.



Lemma legacy_disk_ids_ok : ids_ok legacy_disk.
Proof.
  unfold ids_ok. simpl. split.
  - repeat constructor.
  - apply Forall_singleton. simpl. lia.
Qed.


Lemma get_recent_readings_newest_witness :
  exists rs,
    (get_recent_readings all_ok 20 legacy_manager).1 = Return rs /\
    StronglySorted newer_first rs /\
    rs ⊆+ [legacy_row] /\
    (0 <= 20 -> length rs = Nat.min (Z.to_nat 20) (length [legacy_row])) /\
    (20 < 0 -> rs ≡ₚ [legacy_row]) /\
    (forall r r', r ∈ rs -> r' ∈ [legacy_row] -> r' ∉ rs ->
                  row_timestamp r' <= row_timestamp r).
Proof.
  apply (get_recent_readings_newest all_ok 20 legacy_manager
           (mkConn legacy_disk 0) (mkTable [legacy_row] 1));
    [unfold sqlite_int; lia|reflexivity..].
Defined.

Lemma get_statistics_summary_witness :
  exists s,
    (get_statistics all_ok 4096 legacy_manager).1 = Return (Some s) /\
    total_records s = 1 /\
    default 0 (node_counts s !! 1) = 1 /\
    first_record s = Some 1600000000 /\
    last_record s = Some 1600000000.
Proof.
  exists (mkStatistics 1 (node_counts_of [legacy_row])
            (PrimFloat.div (float_of_Z 4096) 1024%float)
            (Some 1600000000) (Some 1600000000)).
  assert ((get_statistics all_ok 4096 legacy_manager).1 =
          Return (Some (mkStatistics 1 (node_counts_of [legacy_row])
                          (PrimFloat.div (float_of_Z 4096) 1024%float)
                          (Some 1600000000) (Some 1600000000)))) as Hs
    by reflexivity.
  destruct (get_statistics_summary all_ok 4096 legacy_manager
              (mkConn legacy_disk 0) (mkTable [legacy_row] 1) _
              eq_refl eq_refl Hs)
    as (Htot & Hcnt & _).
  split; [exact Hs|]. split; [exact Htot|]. split; [exact (Hcnt 1)|].
  split; reflexivity.
Defined.

Lemma queries_swallow_sqlite_errors_witness :
  (get_recent_readings all_ok 20 bare_manager).1 = Return [] /\
  (get_statistics all_ok 0 bare_manager).1 = Return None.
Proof.
  destruct (queries_swallow_sqlite_errors all_ok 20 0 bare_manager
              (mkConn empty_disk 0) eq_refl ltac:(unfold sqlite_int; lia))
    as (Hrecent & _ & Hstat & _).
  split.
  - apply Hrecent. by left.
  - apply Hstat. by left.
Defined.

Lemma row_ids_increase_witness :
  exists r1 r2,
    stored_rows (db_manager restarted_window) !! 0%nat = Some r1 /\
    stored_rows (db_manager restarted_window) !! 1%nat = Some r2 /\
    row_id r1 < row_id r2.
Proof.
  eexists. eexists.
  split; [vm_compute; reflexivity|].
  split; [vm_compute; reflexivity|].
  apply (row_ids_increase all_ok draw_one no_float_parser true legacy_disk
           start_time [] 0 1).
  - apply legacy_disk_ids_ok.
  - lia.
  - vm_compute. reflexivity.
  - vm_compute. reflexivity.
Defined.



Lemma scenario_D_from_reader : Forall from_reader scenario_D.
Proof.
  unfold scenario_D.
  repeat match goal with
         | |- Forall _ _ => constructor
         | |- from_reader _ => vm_compute; exact I
         end.
Qed.

Lemma save_lookup_never_fails_witness :
  1 <= 3 <= 3 /\
  is_Some (last_db_save (run all_ok no_float_parser scenario_D healthy_window).2 !! 3).
Proof.
  apply (proj1 (save_lookup_never_fails all_ok no_float_parser
                  (init_database all_ok draw_one true empty_disk start_time)
                  scenario_D scenario_D_from_reader)
           3 (mkNodeInfo reading_node3 (2 * second))).
  replace (node_data (run all_ok no_float_parser scenario_D
                        (MainWindow_init
                           (init_database all_ok draw_one true empty_disk
                              start_time))).2)
    with [(3, mkNodeInfo reading_node3 (2 * second))]
    by (vm_compute; reflexivity).
  apply list_elem_of_here.
Defined.

Lemma graph_updates_never_raise_witness :
  (graph_run graph_updates init_data).1 = Return tt /\
  (update_plots (graph_run graph_updates init_data).2).1 = Return tt.
Proof.
  apply (graph_updates_never_raise graph_updates).
  unfold graph_updates. repeat constructor; simpl; lia.
Defined.

Lemma graph_update_unknown_node_witness :
  let '(r, g') := graph_update_data (1 * second) 7 reading_good init_data in
  r = Raise KeyError /\
  graph_data g' = graph_data init_data /\
  (match last (time_data init_data) with
   | Some t => t < 1 * second
   | None => True
   end -> time_data g' = deque_append (1 * second) (time_data init_data)).
Proof.
  apply (graph_update_unknown_node (1 * second) 7 reading_good init_data
           "pm25" (PFloat 45.5%float)).
  - lia.
  - intros key [series Hs].
    destruct (init_data_lookup key series "pm25" []) as (Hk & _); [done| |done].
    unfold init_data in Hs. simpl in Hs.
    repeat (apply lookup_insert_Some in Hs as [[_ <-]|[_ Hs]]; [reflexivity|]).
    by rewrite lookup_empty in Hs.
  - unfold graph_params. rewrite !elem_of_cons. tauto.
  - reflexivity.
  - discriminate.
Defined.
